(** * Mood & Memory Assistant: a shallow embedding of the firmware sketch

    The sketch [Electrothon_29th_Aug.ino] is a single-threaded polling loop
    over four buttons, an RFID reader, a real-time clock, a character display
    and a buzzer.  The embedding below follows the sketch function by
    function:

    - global variables are the fields of one [State] record, threaded
      explicitly through every function;
    - what the sketch writes to a peripheral (display, buzzer, reader,
      blocking delays) is recorded, in program order, as a list of [Out]
      events;
    - what the sketch reads from a peripheral ([millis()], [digitalRead],
      [rtc.now()], the reader, [random]) is an explicit argument of the
      function that performs the read, so every theorem quantifies over all
      values the hardware can deliver;
    - the two unbounded loops (tag presence, SOS pulses) consume a list of
      successive readings and return [None] while the loop is still
      running when the list is exhausted.

    Target board, from the header of the sketch: Arduino Nano (ATmega328P),
    where [int] is 16 bits and [unsigned long] is 32 bits. *)

From Stdlib Require Import ZArith String Ascii List Lia Bool Sorted.
From stdpp Require Import base list.
Import ListNotations.

Local Open Scope Z_scope.

(** ** Machine integers *)

Definition u8 (z : Z) : Z := z mod 2 ^ 8.
Definition u16 (z : Z) : Z := z mod 2 ^ 16.
Definition u32 (z : Z) : Z := z mod 2 ^ 32.

(** Conversion of an [unsigned int] to [int] (two's complement, as gcc does). *)
Definition i16 (z : Z) : Z :=
  let u := u16 z in if u <? 2 ^ 15 then u else u - 2 ^ 16.

(** ** Pins and constants *)

Definition BUZZER_PIN : Z := 8.
Definition BTN_MEMORY_PIN : Z := 2.
Definition BTN_MED_PIN : Z := 3.
Definition BTN_EX_PIN : Z := 4.
Definition BTN_SOS_PIN : Z := 5.
Definition A0 : Z := 14.

Definition DEBOUNCE_MS : Z := 200.
Definition IDLE_MENU_MS : Z := 15000.
Definition SCHEDULE_CHECK_MS : Z := 5000.
Definition SOS_DURATION : Z := 5000.

Inductive Level := LOW | HIGH.
Inductive Mode := OUTPUT | INPUT_PULLUP.

Definition is_low (l : Level) : bool :=
  match l with LOW => true | HIGH => false end.

(** ** The clock reading ([DateTime] of RTClib) *)

Module DateTime.
Record t := mk {
  year : Z;    (* uint16_t *)
  month : Z;   (* uint8_t  *)
  day : Z;
  hour : Z;
  minute : Z;
  second : Z
}.

(** What RTClib delivers from a running clock. *)
Definition valid (d : t) : Prop :=
  2000 <= year d <= 2255 /\ 1 <= month d <= 12 /\ 1 <= day d <= 31 /\
  0 <= hour d < 24 /\ 0 <= minute d < 60 /\ 0 <= second d < 60.

(** The calendar day of a reading. *)
Definition date (d : t) : Z * Z * Z := (year d, month d, day d).

(** Chronological order on calendar days. *)
Definition date_lt (a b : Z * Z * Z) : Prop :=
  let '(y1, m1, d1) := a in
  let '(y2, m2, d2) := b in
  y1 < y2 \/ (y1 = y2 /\ (m1 < m2 \/ (m1 = m2 /\ d1 < d2))).

Definition date_le (a b : Z * Z * Z) : Prop := a = b \/ date_lt a b.
End DateTime.

(** ** Peripheral commands issued by the sketch *)

Inductive Out :=
| PinMode (pin : Z) (m : Mode)
| DigitalWrite (pin : Z) (v : Level)
| Delay (ms : Z)
| LcdInit
| LcdBacklight
| LcdClear
| LcdSetCursor (col row : Z)
| LcdPrint (s : string)
| SpiBegin
| SerialBegin (baud : Z)
| RandomSeed (seed : Z)
| RfidInit
| RfidHaltA
| RfidStopCrypto1
| RtcAdjust (d : DateTime.t).

(** ** Tables *)

Module KnownItem.
Record t := mk {
  uidHex : string;
  name : string;
  lastScanned : string   (* char[9], "HH:MM:SS" *)
}.
Definition set_lastScanned (v : string) (k : t) : t :=
  mk (uidHex k) (name k) v.
End KnownItem.

Definition knownItems_init : list KnownItem.t :=
  [ KnownItem.mk "6C433E06" "Keys" "00:00:00";
    KnownItem.mk "05F7A904" "Medicine Box" "00:00:00";
    KnownItem.mk "26B0A304" "Glasses" "00:00:00" ].

Definition KNOWN_COUNT : Z := Z.of_nat (length knownItems_init).

Definition AFFS : list string :=
  [ "You are strong!"; "Proud of you!"; "Well done!"; "Keep healthy!";
    "One step at a time." ]%string.

Definition AFF_COUNT : Z := Z.of_nat (length AFFS).

Module MedItem.
Record t := mk {
  name : string;
  hour : Z;        (* uint8_t, 24h *)
  minute : Z;      (* uint8_t *)
  pending : bool;
  lastAckYMD : Z   (* int *)
}.
Definition set_pending (b : bool) (m : t) : t :=
  mk (name m) (hour m) (minute m) b (lastAckYMD m).
Definition set_lastAckYMD (v : Z) (m : t) : t :=
  mk (name m) (hour m) (minute m) (pending m) v.
End MedItem.

Definition meds_init : list MedItem.t :=
  [ MedItem.mk "BP Tablet" 8 0 false 0;
    MedItem.mk "Vitamin D" 13 30 false 0;
    MedItem.mk "Insulin" 18 0 false 0;
    MedItem.mk "Calcium" 22 0 false 0 ].

Definition MED_COUNT : Z := Z.of_nat (length meds_init).

(** ** Global state *)

Record State := mkState {
  lastDebounceTime : list Z;   (* unsigned long [4] *)
  lastActivity : Z;            (* unsigned long *)
  knownItems : list KnownItem.t;
  meds : list MedItem.t;
  lastScheduleCheck : Z;       (* unsigned long *)
  lastHydrationHour : Z        (* int *)
}.

Definition init_state : State :=
  mkState [0; 0; 0; 0] 0 knownItems_init meds_init 0 (-1).

Definition set_lastDebounceTime (v : list Z) (s : State) : State :=
  mkState v (lastActivity s) (knownItems s) (meds s) (lastScheduleCheck s)
    (lastHydrationHour s).
Definition set_lastActivity (v : Z) (s : State) : State :=
  mkState (lastDebounceTime s) v (knownItems s) (meds s) (lastScheduleCheck s)
    (lastHydrationHour s).
Definition set_knownItems (v : list KnownItem.t) (s : State) : State :=
  mkState (lastDebounceTime s) (lastActivity s) v (meds s) (lastScheduleCheck s)
    (lastHydrationHour s).
Definition set_meds (v : list MedItem.t) (s : State) : State :=
  mkState (lastDebounceTime s) (lastActivity s) (knownItems s) v
    (lastScheduleCheck s) (lastHydrationHour s).
Definition set_lastScheduleCheck (v : Z) (s : State) : State :=
  mkState (lastDebounceTime s) (lastActivity s) (knownItems s) (meds s) v
    (lastHydrationHour s).
Definition set_lastHydrationHour (v : Z) (s : State) : State :=
  mkState (lastDebounceTime s) (lastActivity s) (knownItems s) (meds s)
    (lastScheduleCheck s) v.

(** The arrays keep their declared sizes; indices outside them are never
    used by the sketch (in C they would be undefined behaviour). *)
Definition well_sized (s : State) : Prop :=
  length (lastDebounceTime s) = 4%nat /\
  Z.of_nat (length (knownItems s)) = KNOWN_COUNT /\
  Z.of_nat (length (meds s)) = MED_COUNT.

(** ** Text formatting *)

Definition digit_char (d : Z) : ascii := ascii_of_N (Z.to_N (48 + d)).

Fixpoint dec_go (fuel : nat) (n : Z) (acc : string) : string :=
  match fuel with
  | O => acc
  | S f =>
      let acc' := String (digit_char (n mod 10)) acc in
      if n / 10 =? 0 then acc' else dec_go f (n / 10) acc'
  end.

(** Decimal text of a non-negative number below 10^10 ([Print::print] of an
    unsigned value, [%d] of a non-negative one). *)
Definition print_dec (n : Z) : string := dec_go 10 n EmptyString.

Fixpoint pad0 (k : nat) (s : string) : string :=
  match k with
  | O => s
  | S k' => String "0"%char (pad0 k' s)
  end.

(** [%0wd] for a non-negative argument. *)
Definition fmt_0d (w : nat) (n : Z) : string :=
  let s := print_dec n in pad0 (w - String.length s) s.

(** [snprintf(buf, size, "%s", s)]: at most [size - 1] characters are kept. *)
Definition snprintf_s (size : nat) (s : string) : string :=
  String.substring 0 (size - 1) s.

Definition hex_char (v : Z) : ascii :=
  if v <? 10 then ascii_of_N (Z.to_N (48 + v))
  else ascii_of_N (Z.to_N (65 + (v - 10))).

(** [uidToHex]: two uppercase hex digits per byte of the UID. *)
Fixpoint uidToHex (uid : list Z) : string :=
  match uid with
  | [] => EmptyString
  | b :: rest =>
      let hi := Z.land (Z.shiftr b 4) 15 in
      let lo := Z.land b 15 in
      String (hex_char hi) (String (hex_char lo) (uidToHex rest))
  end.

(** [ymdNow]: [year()] is [uint16_t], so on the 16-bit target the sum is
    computed in [unsigned int] and then stored into an [int]. *)
Definition ymdNow (t : DateTime.t) : Z :=
  i16 (u16 (u16 (u16 (DateTime.year t * 10000) + DateTime.month t * 100)
            + DateTime.day t)).

(** [timeToStr]: "%02d:%02d:%02d". *)
Definition timeToStr (t : DateTime.t) : string :=
  (fmt_0d 2 (DateTime.hour t) ++ ":" ++ fmt_0d 2 (DateTime.minute t) ++ ":"
   ++ fmt_0d 2 (DateTime.second t))%string.

(** [tolower] and [strcasecmp] of the C library, on NUL-free strings. *)
Definition tolower (c : ascii) : ascii :=
  let n := N_of_ascii c in
  if ((65 <=? n) && (n <=? 90))%N then ascii_of_N (n + 32) else c.

Fixpoint strcasecmp (a b : string) : Z :=
  match a, b with
  | EmptyString, EmptyString => 0
  | EmptyString, String d _ => 0 - Z.of_N (N_of_ascii (tolower d))
  | String c _, EmptyString => Z.of_N (N_of_ascii (tolower c))
  | String c a', String d b' =>
      let x := Z.of_N (N_of_ascii (tolower c)) in
      let y := Z.of_N (N_of_ascii (tolower d)) in
      if x =? y then strcasecmp a' b' else x - y
  end.

(** The loop shape [idx = -1; for (i...) if (p(i)) { idx = i; break; }],
    over an array that has its declared number of elements. *)
Fixpoint scan_first {A} (p : A -> bool) (i : Z) (l : list A) : Z :=
  match l with
  | [] => -1
  | x :: rest => if p x then i else scan_first p (i + 1) rest
  end.

(** ** Helpers *)

Definition beepMs (ms : Z) : list Out :=
  [DigitalWrite BUZZER_PIN HIGH; Delay ms; DigitalWrite BUZZER_PIN LOW].
Definition shortBeep : list Out := beepMs 100.
Definition longBeep : list Out := beepMs 300.

Definition lcdMenu : list Out :=
  [LcdClear;
   LcdSetCursor 0 0; LcdPrint "1:Memory 2:Meds";
   LcdSetCursor 0 1; LcdPrint "3:Exerc  4:SOS "].

Definition showTwo (l1 l2 : string) (ms : Z) : list Out :=
  [LcdClear; LcdSetCursor 0 0; LcdPrint l1; LcdSetCursor 0 1; LcdPrint l2;
   Delay ms].

Definition days : list string :=
  ["Sun"; "Mon"; "Tue"; "Wed"; "Thu"; "Fri"; "Sat"]%string.

(** [lcdStartup]; [w] is [now.dayOfTheWeek()], which RTClib keeps in 0..6. *)
Definition lcdStartup (now : DateTime.t) (w : Z) : list Out :=
  let line1 :=
    snprintf_s 17
      (default EmptyString (days !! Z.to_nat w) ++ " "
       ++ fmt_0d 4 (DateTime.year now) ++ "-" ++ fmt_0d 2 (DateTime.month now)
       ++ "-" ++ fmt_0d 2 (DateTime.day now))%string in
  let line2 := snprintf_s 17 (timeToStr now) in
  [LcdClear; LcdSetCursor 0 0; LcdPrint line1; LcdSetCursor 0 1; LcdPrint line2;
   Delay 1800] ++ lcdMenu.

(** ** Buttons *)

(** One sampling instant: the level of every input pin and the value of
    [millis()] (read only on the paths where the sketch reads it). *)
Record Env := mkEnv {
  digitalRead : Z -> Level;
  millis : Z   (* unsigned long *)
}.

Definition readBtnOnce (e : Env) (pin : Z) (idx : nat) (s : State)
  : bool * State * list Out :=
  if is_low (digitalRead e pin) then
    let now := millis e in
    if u32 (now - default 0 (lastDebounceTime s !! idx)) >? DEBOUNCE_MS then
      (true,
       set_lastActivity now
         (set_lastDebounceTime (<[idx := now]> (lastDebounceTime s)) s),
       shortBeep)
    else (false, s, [])
  else (false, s, []).

(** ** Memory (RFID) *)

Definition memoryPromptScan : list Out :=
  showTwo "Memory Help" "Show tag near" 1000.

(** One attempt [rfid.PICC_IsNewCardPresent() && rfid.PICC_ReadCardSerial()]:
    the second call is made only if the first succeeds and, when it
    succeeds, delivers the UID bytes. *)
Record CardPoll := mkCardPoll {
  isNewCardPresent : bool;
  readCardSerial : option (list Z)
}.

Definition card_read (c : CardPoll) : option (list Z) :=
  if isNewCardPresent c then readCardSerial c else None.

(** The readings of one iteration of the presence loop. *)
Record SessionPoll := mkSessionPoll {
  sp_card : CardPoll;
  sp_seen : Z;     (* millis() stored into lastSeen on a successful read *)
  sp_now : Z;      (* millis() of the timeout test *)
  sp_sos : Level   (* digitalRead(BTN_SOS_PIN) *)
}.

Definition refresh (lastSeen : Z) (p : SessionPoll) : Z :=
  match card_read (sp_card p) with
  | Some _ => sp_seen p
  | None => lastSeen
  end.

Definition timed_out (lastSeen : Z) (p : SessionPoll) : bool :=
  u32 (sp_now p - lastSeen) >? 300.

(** [while (true) { ... }] of [handleRFID_Auto]: the events of the
    iterations that ran to the end, or [None] while it is still looping. *)
Fixpoint session_loop (lastSeen : Z) (polls : list SessionPoll)
  : option (list Out) :=
  match polls with
  | [] => None
  | p :: rest =>
      let lastSeen := refresh lastSeen p in
      if timed_out lastSeen p then Some []
      else if is_low (sp_sos p) then Some []
      else option_map (cons (Delay 20)) (session_loop lastSeen rest)
  end.

Record RfidEnv := mkRfidEnv {
  rf_first : CardPoll;        (* the attempt that opens the session *)
  rf_now : DateTime.t;        (* rtc.now() *)
  rf_t0 : Z;                  (* millis() that initialises lastSeen *)
  rf_polls : list SessionPoll
}.

Definition uid_matches (uid : string) (k : KnownItem.t) : bool :=
  strcasecmp uid (KnownItem.uidHex k) =? 0.

Definition known_at (items : list KnownItem.t) (i : Z) : KnownItem.t :=
  default (KnownItem.mk EmptyString EmptyString EmptyString)
    (items !! Z.to_nat i).

(** [tbuf] is the text [sprintf] produces in [timeToStr]; C writes it into
    9 bytes, so a run has a meaning in C only for readings whose text has 8
    characters (every valid reading; three-digit fields overflow [tbuf]).
    The bounded copy into [lastScanned] is [snprintf_s 9]. *)
Definition handleRFID_Auto (e : RfidEnv) (s : State)
  : option (State * list Out) :=
  match card_read (rf_first e) with
  | None => Some (s, [])
  | Some bytes =>
      let uid := uidToHex bytes in
      let idx := scan_first (uid_matches uid) 0 (knownItems s) in
      let tbuf := timeToStr (rf_now e) in
      let items :=
        if idx >=? 0 then
          alter (KnownItem.set_lastScanned (snprintf_s 9 tbuf)) (Z.to_nat idx)
            (knownItems s)
        else knownItems s in
      let render :=
        if idx >=? 0 then
          [LcdClear;
           LcdSetCursor 0 0; LcdPrint "Found: ";
           LcdPrint (KnownItem.name (known_at items idx));
           LcdSetCursor 0 1; LcdPrint "Last: ";
           LcdPrint (KnownItem.lastScanned (known_at items idx))]
        else
          [LcdClear;
           LcdSetCursor 0 0; LcdPrint "Unknown Tag";
           LcdSetCursor 0 1; LcdPrint "UID: "; LcdPrint uid] in
      match session_loop (rf_t0 e) (rf_polls e) with
      | None => None
      | Some waits =>
          Some (set_knownItems items s,
                render ++ [DigitalWrite BUZZER_PIN HIGH] ++ waits
                ++ [DigitalWrite BUZZER_PIN LOW; RfidHaltA; RfidStopCrypto1]
                ++ lcdMenu)
      end
  end.

(** ** Medicine *)

Definition med_at (ms : list MedItem.t) (i : Z) : MedItem.t :=
  default (MedItem.mk EmptyString 0 0 false 0) (ms !! Z.to_nat i).

Definition startMedPending (i : nat) (ms : list MedItem.t) : list MedItem.t :=
  alter (MedItem.set_pending true) i ms.

(** Body of the first [for] of [checkMedicinesAuto], at index [i]. *)
Definition due_step (now : DateTime.t) (ymd : Z) (ms : list MedItem.t)
  (i : nat) : list MedItem.t :=
  let m := med_at ms (Z.of_nat i) in
  if negb (MedItem.pending m) then
    if (DateTime.hour now =? MedItem.hour m)
       && (DateTime.minute now =? MedItem.minute m) then
      if negb (MedItem.lastAckYMD m =? ymd) then startMedPending i ms else ms
    else ms
  else ms.

Definition due_check (now : DateTime.t) (ymd : Z) (ms : list MedItem.t)
  : list MedItem.t :=
  foldl (due_step now ymd) ms (seq 0 (Z.to_nat MED_COUNT)).

Definition two_digit_prefix (n : Z) : string :=
  if n <? 10 then "0"%string else EmptyString.

Definition hydration_due (now : DateTime.t) (s : State) : bool :=
  (DateTime.minute now =? 0)
  && negb (lastHydrationHour s =? DateTime.hour now).

Definition hydration_nudge : list Out :=
  [LcdClear; LcdSetCursor 0 0; LcdPrint "Hydration";
   LcdSetCursor 0 1; LcdPrint "Take a sip!  "]
  ++ shortBeep ++ [Delay 200] ++ shortBeep ++ [Delay 800] ++ lcdMenu.

Definition med_due_prompt (m : MedItem.t) : list Out :=
  [LcdClear; LcdSetCursor 0 0; LcdPrint "MED DUE:";
   LcdSetCursor 9 0; LcdPrint (two_digit_prefix (MedItem.hour m));
   LcdPrint (print_dec (MedItem.hour m)); LcdPrint ":";
   LcdPrint (two_digit_prefix (MedItem.minute m));
   LcdPrint (print_dec (MedItem.minute m));
   LcdSetCursor 0 1; LcdPrint (MedItem.name m)]
  ++ longBeep ++ [Delay 500].

Definition checkMedicinesAuto (now : DateTime.t) (s : State)
  : State * list Out :=
  let ymd := ymdNow now in
  let fire := hydration_due now s in
  let s := if fire then set_lastHydrationHour (DateTime.hour now) s else s in
  let out1 := if fire then hydration_nudge else [] in
  let ms := due_check now ymd (meds s) in
  let idx := scan_first MedItem.pending 0 ms in
  let out2 := if idx >=? 0 then med_due_prompt (med_at ms idx) else [] in
  (set_meds ms s, out1 ++ out2).

(** [random(0, AFF_COUNT)] is the reading [rnd]; it is stored in a
    [uint8_t]. *)
Definition later_than (now : DateTime.t) (m : MedItem.t) : bool :=
  (DateTime.hour now <? MedItem.hour m)
  || ((DateTime.hour now =? MedItem.hour m)
      && (DateTime.minute now <? MedItem.minute m)).

Definition next_med_prompt (m : MedItem.t) : list Out :=
  [LcdClear; LcdSetCursor 0 0; LcdPrint "Next Med:";
   LcdSetCursor 0 1; LcdPrint (MedItem.name m); LcdPrint " @";
   LcdPrint (two_digit_prefix (MedItem.hour m));
   LcdPrint (print_dec (MedItem.hour m)); LcdPrint ":";
   LcdPrint (two_digit_prefix (MedItem.minute m));
   LcdPrint (print_dec (MedItem.minute m));
   Delay 1400] ++ lcdMenu.

Definition taken_prompt (m : MedItem.t) (aff : string) : list Out :=
  [LcdClear; LcdSetCursor 0 0; LcdPrint "Taken: "; LcdPrint (MedItem.name m);
   LcdSetCursor 0 1; LcdPrint aff]
  ++ shortBeep ++ [Delay 150] ++ shortBeep ++ [Delay 1200] ++ lcdMenu.

Definition acknowledge (ymd : Z) (m : MedItem.t) : MedItem.t :=
  MedItem.set_lastAckYMD ymd (MedItem.set_pending false m).

Definition confirmFirstPendingMed (now : DateTime.t) (rnd : Z) (s : State)
  : State * list Out :=
  let idx := scan_first MedItem.pending 0 (meds s) in
  if idx >=? 0 then
    let ms := alter (acknowledge (ymdNow now)) (Z.to_nat idx) (meds s) in
    let a := u8 rnd in
    (set_meds ms s,
     taken_prompt (med_at ms idx)
       (default EmptyString (AFFS !! Z.to_nat a)))
  else
    let found := scan_first (later_than now) 0 (meds s) in
    let nextIdx := if found =? -1 then 0 else found in
    (s, next_med_prompt (med_at (meds s) nextIdx)).

(** ** Exercise *)

Definition exercise_cycle : list Out :=
  [LcdClear; LcdSetCursor 0 0; LcdPrint "Inhale..."; LcdSetCursor 0 1;
   LcdPrint "4 sec"] ++ shortBeep ++ [Delay 4000]
  ++ [LcdClear; LcdSetCursor 0 0; LcdPrint "Hold..."; LcdSetCursor 0 1;
      LcdPrint "5 sec"; Delay 5000]
  ++ [LcdClear; LcdSetCursor 0 0; LcdPrint "Exhale..."; LcdSetCursor 0 1;
      LcdPrint "4 sec"] ++ longBeep ++ [Delay 4000].

Definition exerciseFlow : list Out :=
  [LcdClear; LcdSetCursor 0 0; LcdPrint "Breathing 4-5-4"; LcdSetCursor 0 1;
   LcdPrint "Cycle x2"; Delay 800]
  ++ exercise_cycle ++ exercise_cycle
  ++ [LcdClear; LcdSetCursor 0 0; LcdPrint "Well done!"; LcdSetCursor 0 1;
      LcdPrint "Hydration: sip"]
  ++ shortBeep ++ [Delay 200] ++ shortBeep ++ [Delay 1200] ++ lcdMenu.

(** ** SOS *)

Definition sos_banner : string := "!!! SOS ALERT !!!".

Definition sos_pattern : list Out :=
  shortBeep ++ [Delay 200; Delay 300]
  ++ longBeep ++ [Delay 200; Delay 300]
  ++ shortBeep ++ [Delay 200; Delay 300].

(** [while (millis() - start < SOS_DURATION)]: [ticks] are the successive
    values of [millis()] in the loop test. *)
Fixpoint sos_loop (start : Z) (ticks : list Z) : option (list Out) :=
  match ticks with
  | [] => None
  | t :: rest =>
      if u32 (t - start) <? SOS_DURATION then
        option_map (app sos_pattern) (sos_loop start rest)
      else Some []
  end.

Record SosEnv := mkSosEnv {
  sos_start : Z;
  sos_ticks : list Z
}.

Definition sosFlow (e : SosEnv) : option (list Out) :=
  match sos_loop (sos_start e) (sos_ticks e) with
  | None => None
  | Some pulses =>
      Some ([LcdClear; LcdSetCursor 0 0; LcdPrint sos_banner;
             LcdSetCursor 0 1; LcdPrint "Sending Signal.."; Delay 600]
            ++ pulses
            ++ [LcdClear; LcdSetCursor 0 0; LcdPrint "SOS Ended";
                LcdSetCursor 0 1; LcdPrint "Stay safe"; Delay 1500]
            ++ lcdMenu)
  end.

(** ** Setup *)

Record SetupEnv := mkSetupEnv {
  se_a0 : Z;               (* analogRead(A0) *)
  se_begin : bool;         (* rtc.begin() *)
  se_lostPower : bool;     (* rtc.lostPower(), asked only if begin succeeded *)
  se_now : DateTime.t;     (* rtc.now() in lcdStartup *)
  se_dow : Z;              (* now.dayOfTheWeek() *)
  se_millis : Z            (* millis() *)
}.

Definition rtc_report (e : SetupEnv) : list Out :=
  if negb (se_begin e) then showTwo "RTC not found" "Check wiring" 2500
  else if se_lostPower e then showTwo "RTC lost power" "Set time" 1800
  else [].

Definition setup (e : SetupEnv) (s : State) : State * list Out :=
  (set_lastActivity (se_millis e) s,
   [PinMode BUZZER_PIN OUTPUT; DigitalWrite BUZZER_PIN LOW;
    PinMode BTN_MEMORY_PIN INPUT_PULLUP; PinMode BTN_MED_PIN INPUT_PULLUP;
    PinMode BTN_EX_PIN INPUT_PULLUP; PinMode BTN_SOS_PIN INPUT_PULLUP;
    LcdInit; LcdBacklight; SpiBegin; RfidInit; SerialBegin 9600; Delay 50;
    RandomSeed (se_a0 e)]
   ++ rtc_report e
   ++ lcdStartup (se_now e) (se_dow e)).

(** ** Loop *)

Definition Res : Type := option (State * list Out).

(** Sequencing of two stages: the second starts in the state the first
    left, and the events are concatenated. *)
Definition and_then (r : Res) (k : State -> Res) : Res :=
  match r with
  | None => None
  | Some (s, o) =>
      match k s with
      | None => None
      | Some (s', o') => Some (s', o ++ o')
      end
  end.

Notation "r '>>>' k" := (and_then r k) (at level 61, left associativity).

Record LoopEnv := mkLoopEnv {
  le_rfid : RfidEnv;
  le_sched_guard : Z;        (* millis() in the schedule guard *)
  le_sched_stamp : Z;        (* millis() stored in lastScheduleCheck *)
  le_sched_now : DateTime.t; (* rtc.now() of checkMedicinesAuto *)
  le_mem : Env;
  le_med : Env;
  le_ack_now : DateTime.t;   (* rtc.now() of confirmFirstPendingMed *)
  le_ack_rnd : Z;            (* random(0, AFF_COUNT) *)
  le_ex : Env;
  le_sos : Env;
  le_sos_flow : SosEnv;
  le_idle_guard : Z;         (* millis() in the idle test *)
  le_idle_stamp : Z          (* millis() stored in lastActivity *)
}.

Definition schedule_stage (e : LoopEnv) (s : State) : Res :=
  if u32 (le_sched_guard e - lastScheduleCheck s) >=? SCHEDULE_CHECK_MS then
    Some (checkMedicinesAuto (le_sched_now e)
            (set_lastScheduleCheck (le_sched_stamp e) s))
  else Some (s, []).

Definition memory_stage (e : LoopEnv) (s : State) : Res :=
  let '(hit, s, o) := readBtnOnce (le_mem e) BTN_MEMORY_PIN 0 s in
  Some (s, o ++ if hit then memoryPromptScan else []).

Definition med_stage (e : LoopEnv) (s : State) : Res :=
  let '(hit, s, o) := readBtnOnce (le_med e) BTN_MED_PIN 1 s in
  if hit then
    let '(s, o') := confirmFirstPendingMed (le_ack_now e) (le_ack_rnd e) s in
    Some (s, o ++ o')
  else Some (s, o).

Definition exercise_stage (e : LoopEnv) (s : State) : Res :=
  let '(hit, s, o) := readBtnOnce (le_ex e) BTN_EX_PIN 2 s in
  Some (s, o ++ if hit then exerciseFlow else []).

(** The inline SOS test of [loop]. *)
Definition sos_accepts (e : Env) (s : State) : bool :=
  is_low (digitalRead e BTN_SOS_PIN)
  && (u32 (millis e - default 0 (lastDebounceTime s !! 3%nat)) >? DEBOUNCE_MS).

Definition sos_stage (e : LoopEnv) (s : State) : Res :=
  if is_low (digitalRead (le_sos e) BTN_SOS_PIN) then
    let now := millis (le_sos e) in
    if u32 (now - default 0 (lastDebounceTime s !! 3%nat)) >? DEBOUNCE_MS then
      match sosFlow (le_sos_flow e) with
      | None => None
      | Some o =>
          Some (set_lastDebounceTime (<[3%nat := now]> (lastDebounceTime s)) s,
                o)
      end
    else Some (s, [])
  else Some (s, []).

Definition idle_stage (e : LoopEnv) (s : State) : Res :=
  if u32 (le_idle_guard e - lastActivity s) >? IDLE_MENU_MS then
    Some (set_lastActivity (le_idle_stamp e) s, lcdMenu)
  else Some (s, []).

Definition loop (e : LoopEnv) (s : State) : Res :=
  handleRFID_Auto (le_rfid e) s
  >>> schedule_stage e
  >>> memory_stage e
  >>> med_stage e
  >>> exercise_stage e
  >>> sos_stage e
  >>> idle_stage e
  >>> (fun s => Some (s, [Delay 20])).

(** The firmware: [setup] once, then [loop] for each element of [envs]. *)
Fixpoint run_loops (envs : list LoopEnv) (s : State) : Res :=
  match envs with
  | [] => Some (s, [])
  | e :: rest => loop e s >>> run_loops rest
  end.

Definition firmware (se : SetupEnv) (envs : list LoopEnv) : Res :=
  Some (setup se init_state) >>> run_loops envs.

(** ** Definitions used to state the properties *)

(** What the due-check does to one entry. *)
Definition due_one (now : DateTime.t) (ymd : Z) (m : MedItem.t) : MedItem.t :=
  if negb (MedItem.pending m)
     && ((DateTime.hour now =? MedItem.hour m)
         && (DateTime.minute now =? MedItem.minute m))
     && negb (MedItem.lastAckYMD m =? ymd)
  then MedItem.set_pending true m else m.

(** The entry is due at [now]: not pending, scheduled for this very
    hour:minute, and its acknowledgment stamp is not today's. *)
Definition due_now (now : DateTime.t) (m : MedItem.t) : Prop :=
  MedItem.pending m = false /\
  DateTime.hour now = MedItem.hour m /\
  DateTime.minute now = MedItem.minute m /\
  MedItem.lastAckYMD m <> ymdNow now.

(** The due-check turned the entry from not pending to pending. *)
Definition marked (m m' : MedItem.t) : Prop :=
  MedItem.pending m = false /\ MedItem.pending m' = true.

(** [i] is the lowest index of a pending entry. *)
Definition first_pending (ms : list MedItem.t) (i : nat) : Prop :=
  (exists m, ms !! i = Some m /\ MedItem.pending m = true) /\
  forall j m, (j < i)%nat -> ms !! j = Some m -> MedItem.pending m = false.

Definition none_pending (ms : list MedItem.t) : Prop :=
  forall j m, ms !! j = Some m -> MedItem.pending m = false.

(** Successive scheduler cycles at the clock readings [ts]. *)
Definition run_checks (ts : list DateTime.t) (s : State) : State :=
  foldl (fun s t => fst (checkMedicinesAuto t s)) s ts.

(** Sample readings and states used to instantiate the statements. *)
Definition morning (sec : Z) : DateTime.t := DateTime.mk 2025 8 29 8 0 sec.

Definition bp_tablet_due : State :=
  fst (checkMedicinesAuto (morning 5) init_state).

(** ** The operations a loop iteration is made of

    Every iteration of [loop] runs a sequence of the state-changing
    operations below (which ones depends on the guards); statements about
    "any number of cycles" are made over arbitrary sequences of them. *)
Inductive Op :=
| OpRfid (e : RfidEnv)                      (* handleRFID_Auto *)
| OpSchedule (stamp : Z) (now : DateTime.t) (* guarded checkMedicinesAuto *)
| OpButton (e : Env) (pin : Z) (idx : nat)  (* readBtnOnce *)
| OpMemoryPrompt                            (* memoryPromptScan *)
| OpConfirm (now : DateTime.t) (rnd : Z)    (* confirmFirstPendingMed *)
| OpExercise                                (* exerciseFlow *)
| OpSos (now : Z) (e : SosEnv)              (* accepted SOS press + sosFlow *)
| OpIdle (stamp : Z)                        (* idle menu refresh *)
| OpDelay (ms : Z).                         (* delay(ms) *)

Definition exec (op : Op) (s : State) : Res :=
  match op with
  | OpRfid e => handleRFID_Auto e s
  | OpSchedule stamp now =>
      Some (checkMedicinesAuto now (set_lastScheduleCheck stamp s))
  | OpButton e pin idx =>
      let '(_, s, o) := readBtnOnce e pin idx s in Some (s, o)
  | OpMemoryPrompt => Some (s, memoryPromptScan)
  | OpConfirm now rnd => Some (confirmFirstPendingMed now rnd s)
  | OpExercise => Some (s, exerciseFlow)
  | OpSos now e =>
      match sosFlow e with
      | None => None
      | Some o =>
          Some (set_lastDebounceTime (<[3%nat := now]> (lastDebounceTime s)) s,
                o)
      end
  | OpIdle stamp => Some (set_lastActivity stamp s, lcdMenu)
  | OpDelay ms => Some (s, [Delay ms])
  end.

Fixpoint run_ops (ops : list Op) (s : State) : Res :=
  match ops with
  | [] => Some (s, [])
  | op :: rest => exec op s >>> run_ops rest
  end.

(** The operations of one iteration of [loop]: each stage contributes the
    operations its guards select in the state the previous stage left. *)
Definition when (b : bool) (ops : list Op) : list Op := if b then ops else [].

Fixpoint chain (stages : list (State -> list Op)) (s : State) : list Op :=
  match stages with
  | [] => []
  | stage :: rest =>
      stage s ++
      match run_ops (stage s) s with
      | Some (s', _) => chain rest s'
      | None => []
      end
  end.

Definition rfid_ops (e : LoopEnv) (s : State) : list Op :=
  [OpRfid (le_rfid e)].

Definition schedule_ops (e : LoopEnv) (s : State) : list Op :=
  when (u32 (le_sched_guard e - lastScheduleCheck s) >=? SCHEDULE_CHECK_MS)
    [OpSchedule (le_sched_stamp e) (le_sched_now e)].

Definition memory_ops (e : LoopEnv) (s : State) : list Op :=
  OpButton (le_mem e) BTN_MEMORY_PIN 0
  :: when (fst (fst (readBtnOnce (le_mem e) BTN_MEMORY_PIN 0 s)))
       [OpMemoryPrompt].

Definition med_ops (e : LoopEnv) (s : State) : list Op :=
  OpButton (le_med e) BTN_MED_PIN 1
  :: when (fst (fst (readBtnOnce (le_med e) BTN_MED_PIN 1 s)))
       [OpConfirm (le_ack_now e) (le_ack_rnd e)].

Definition exercise_ops (e : LoopEnv) (s : State) : list Op :=
  OpButton (le_ex e) BTN_EX_PIN 2
  :: when (fst (fst (readBtnOnce (le_ex e) BTN_EX_PIN 2 s))) [OpExercise].

Definition sos_ops (e : LoopEnv) (s : State) : list Op :=
  when (sos_accepts (le_sos e) s) [OpSos (millis (le_sos e)) (le_sos_flow e)].

Definition idle_ops (e : LoopEnv) (s : State) : list Op :=
  when (u32 (le_idle_guard e - lastActivity s) >? IDLE_MENU_MS)
    [OpIdle (le_idle_stamp e)].

Definition loop_ops (e : LoopEnv) : State -> list Op :=
  chain [rfid_ops e; schedule_ops e; memory_ops e; med_ops e; exercise_ops e;
         sos_ops e; idle_ops e; fun _ => [OpDelay 20]].

Definition loops_ops (envs : list LoopEnv) : State -> list Op :=
  chain (map loop_ops envs).

(** ** Clock readings along a run *)

(** The reading of the real-time clock an operation uses for the
    medication table, if any. *)
Definition clock_of (op : Op) : option DateTime.t :=
  match op with
  | OpSchedule _ now => Some now
  | OpConfirm now _ => Some now
  | _ => None
  end.

(** The calendar days read along [ops] never go back, starting from [lb]. *)
Fixpoint chrono (lb : Z * Z * Z) (ops : list Op) : Prop :=
  match ops with
  | [] => True
  | op :: rest =>
      match clock_of op with
      | Some t =>
          DateTime.date_le lb (DateTime.date t) /\ chrono (DateTime.date t) rest
      | None => chrono lb rest
      end
  end.

(** The acknowledgment handler stamps entry [i] when it runs while [i] is
    the lowest pending index. *)
Definition stamp_here (i : nat) (op : Op) (s : State) : list (Z * Z * Z) :=
  match op with
  | OpConfirm now _ =>
      if scan_first MedItem.pending 0 (meds s) =? Z.of_nat i
      then [DateTime.date now] else []
  | _ => []
  end.

(** The calendar days on which entry [i] is stamped along a run, in order. *)
Fixpoint stamps (i : nat) (ops : list Op) (s : State) : list (Z * Z * Z) :=
  match ops with
  | [] => []
  | op :: rest =>
      stamp_here i op s ++
      match exec op s with
      | Some (s', _) => stamps i rest s'
      | None => []
      end
  end.

Definition is_confirm (op : Op) : bool :=
  match op with OpConfirm _ _ => true | _ => false end.

(** Entry [i] after an acknowledgment on day [L], seen when the clock has
    reached day [lb]: either still cleared and stamped [L], or pending again,
    which takes a day after [L]. *)
Definition acked_on (i : nat) (s : State) (L lb : Z * Z * Z) : Prop :=
  exists m, meds s !! i = Some m /\
    ((MedItem.pending m = false /\
      (forall t, DateTime.date t = L -> MedItem.lastAckYMD m = ymdNow t) /\
      DateTime.date_le L lb)
     \/ (MedItem.pending m = true /\ DateTime.date_lt L lb)).

(** States the firmware can be in between two iterations of [loop]. *)
Definition reachable (s : State) : Prop :=
  exists se envs out, firmware se envs = Some (s, out).

Definition power_on : SetupEnv :=
  mkSetupEnv 512 true false (morning 0) 5 1900.

Definition booted : State := fst (setup power_on init_state).

(** The state [setup] leaves is reachable (no loop iteration yet). *)
Ltac reach_booted :=
  exists power_on, [], (snd (setup power_on init_state)); reflexivity.

(** ** Hydration nudge *)

(** The events of a scheduler cycle begin with the hydration screen. *)
Definition nudge_shown (out : list Out) : Prop :=
  exists rest, out = hydration_nudge ++ rest.

(** Number of scheduler cycles along [ops] in which the nudge fires. *)
Fixpoint nudges (ops : list Op) (s : State) : nat :=
  match ops with
  | [] => 0%nat
  | op :: rest =>
      (match op with
       | OpSchedule _ now => if hydration_due now s then 1 else 0
       | _ => 0
       end
       + match exec op s with
         | Some (s', _) => nudges rest s'
         | None => 0
         end)%nat
  end.

(** Every scheduler cycle of [ops] reads the hour [h] from the clock. *)
Definition same_hour (h : Z) (ops : list Op) : Prop :=
  Forall (fun op =>
            match op with
            | OpSchedule _ now => DateTime.hour now = h
            | _ => True
            end) ops.

(** ** The constant part of the medication table *)

Definition schedule_of (ms : list MedItem.t) : list (string * Z * Z) :=
  (fun m => (MedItem.name m, MedItem.hour m, MedItem.minute m)) <$> ms.

(** Names and times are never written: the table keeps its initial ones. *)
Definition static_meds (ms : list MedItem.t) : Prop :=
  schedule_of ms = schedule_of meds_init.



(** ** Debounce *)

(** The debounce cell of button [idx]. *)
Definition cell (idx : nat) (s : State) : Z :=
  default 0 (lastDebounceTime s !! idx).

(** The [millis()] readings of the accepted presses of button [idx] along a
    run, in order. *)
Definition accepted_here (idx : nat) (op : Op) (s : State) : list Z :=
  match op with
  | OpButton e pin i =>
      if (i =? idx)%nat && fst (fst (readBtnOnce e pin i s))
      then [millis e] else []
  | _ => []
  end.

Fixpoint accepted (idx : nat) (ops : list Op) (s : State) : list Z :=
  match ops with
  | [] => []
  | op :: rest =>
      accepted_here idx op s ++
      match exec op s with
      | Some (s', _) => accepted idx rest s'
      | None => []
      end
  end.

(** Two readings of the 32-bit millisecond counter taken more than the
    debounce threshold apart, whatever the number of wrap-arounds: for all
    instants [T1 <= T2] (milliseconds since power-on) that read as [t1] and
    [t2]. *)
Definition separated (t1 t2 : Z) : Prop :=
  forall T1 T2, T1 <= T2 -> u32 T1 = t1 -> u32 T2 = t2 ->
                DEBOUNCE_MS < T2 - T1.

(** Each element of [l] is [separated] from the one before, starting from
    [prev]. *)
Fixpoint spaced (prev : Z) (l : list Z) : Prop :=
  match l with
  | [] => True
  | t :: rest => separated prev t /\ spaced t rest
  end.

(** A sampling instant at which only the button on [pin] is pressed. *)
Definition pressed (pin : Z) (t : Z) : Env :=
  mkEnv (fun p => if p =? pin then LOW else HIGH) t.

(** ** Tag lookup *)

(** Case folding of a whole string. *)
Fixpoint lower (s : string) : string :=
  match s with
  | EmptyString => EmptyString
  | String c rest => String (tolower c) (lower rest)
  end.

(** No NUL character inside: the string is a C string of the same length. *)
Fixpoint nul_free (s : string) : bool :=
  match s with
  | EmptyString => true
  | String c rest => negb (N_of_ascii c =? 0)%N && nul_free rest
  end.

Definition identity_of (items : list KnownItem.t) : list (string * string) :=
  (fun k => (KnownItem.uidHex k, KnownItem.name k)) <$> items.

(** Identities and names are never written: the table keeps its initial
    ones. *)
Definition static_known (items : list KnownItem.t) : Prop :=
  identity_of items = identity_of knownItems_init.

Definition found_screen (name seen : string) : list Out :=
  [LcdClear; LcdSetCursor 0 0; LcdPrint "Found: "; LcdPrint name;
   LcdSetCursor 0 1; LcdPrint "Last: "; LcdPrint seen].

Definition unknown_screen (uid : string) : list Out :=
  [LcdClear; LcdSetCursor 0 0; LcdPrint "Unknown Tag";
   LcdSetCursor 0 1; LcdPrint "UID: "; LcdPrint uid].

(** The events of a tag session after the first screen: buzzer on, the
    waits of the presence loop, buzzer off, reader closed, menu. *)
Definition session_events (waits : list Out) : list Out :=
  [DigitalWrite BUZZER_PIN HIGH] ++ waits
  ++ [DigitalWrite BUZZER_PIN LOW; RfidHaltA; RfidStopCrypto1] ++ lcdMenu.

(** A session opened by the tag of the "Keys" entry (UID bytes
    6C 43 3E 06) at 08:00:05; the tag is seen once more and then leaves. *)
Definition keys_tag : CardPoll := mkCardPoll true (Some [108; 67; 62; 6]).
Definition no_tag : CardPoll := mkCardPoll false None.

Definition keys_session : RfidEnv :=
  mkRfidEnv keys_tag (morning 5) 2000
    [mkSessionPoll keys_tag 2030 2031 HIGH;
     mkSessionPoll no_tag 0 2052 HIGH;
     mkSessionPoll no_tag 0 2400 HIGH].

(** ** Presence loop *)

(** Iteration [k] of the presence loop meets the exit test: after the
    refresh of that iteration, more than 300 ms have passed since the last
    successful read (or since the start of the loop), or the SOS line reads
    LOW. *)
Fixpoint exits_at (lastSeen : Z) (polls : list SessionPoll) (k : nat) : bool :=
  match polls with
  | [] => false
  | p :: rest =>
      let lastSeen := refresh lastSeen p in
      match k with
      | O => timed_out lastSeen p || is_low (sp_sos p)
      | S k' => exits_at lastSeen rest k'
      end
  end.

Definition first_exit (lastSeen : Z) (polls : list SessionPoll) (k : nat)
  : Prop :=
  exits_at lastSeen polls k = true /\
  forall j, (j < k)%nat -> exits_at lastSeen polls j = false.

Definition is_lcd (o : Out) : Prop :=
  match o with
  | LcdClear | LcdSetCursor _ _ | LcdPrint _ => True
  | _ => False
  end.

(** ** Startup *)

(** The events of [setup] before the clock is consulted. *)
Definition setup_prologue (e : SetupEnv) : list Out :=
  [PinMode BUZZER_PIN OUTPUT; DigitalWrite BUZZER_PIN LOW;
   PinMode BTN_MEMORY_PIN INPUT_PULLUP; PinMode BTN_MED_PIN INPUT_PULLUP;
   PinMode BTN_EX_PIN INPUT_PULLUP; PinMode BTN_SOS_PIN INPUT_PULLUP;
   LcdInit; LcdBacklight; SpiBegin; RfidInit; SerialBegin 9600; Delay 50;
   RandomSeed (se_a0 e)].

Definition adjusts_clock (o : Out) : bool :=
  match o with RtcAdjust _ => true | _ => false end.

(** ** SOS *)

(** The first events of [sosFlow]: the alert screen. *)
Definition sos_alert_screen : list Out :=
  [LcdClear; LcdSetCursor 0 0; LcdPrint sos_banner;
   LcdSetCursor 0 1; LcdPrint "Sending Signal.."; Delay 600].

(** A pulse loop that reads [millis()] as 9700, 11300, 12900, 14500 and
    leaves on 16100. *)
Definition sos_pulses : SosEnv :=
  mkSosEnv 9600 [9700; 11300; 12900; 14500; 16100].

(** The alert banner of the SOS flow appears among the events. *)
Definition is_banner (o : Out) : bool :=
  match o with
  | LcdPrint t => String.eqb t sos_banner
  | _ => false
  end.

Definition has_banner (out : list Out) : bool := existsb is_banner out.

(** Operations that [loop] can run before its SOS test. *)
Definition before_sos (op : Op) : bool :=
  match op with
  | OpSos _ _ => false
  | OpButton _ _ idx => (idx <? 3)%nat
  | _ => true
  end.

Definition pre_ops (e : LoopEnv) : State -> list Op :=
  chain [rfid_ops e; schedule_ops e; memory_ops e; med_ops e; exercise_ops e].

(** What every reachable state satisfies. *)
Definition tables_ok (s : State) : Prop :=
  well_sized s /\ static_meds (meds s) /\ static_known (knownItems s).

(** An iteration of [loop] in which the "Keys" tag opens a session, the SOS
    button is pressed during the second iteration of the presence loop and
    is still held when the loop reaches its own SOS test. *)
Definition sos_in_session : LoopEnv :=
  mkLoopEnv
    (mkRfidEnv keys_tag (morning 5) 2000
       [mkSessionPoll keys_tag 2030 2031 HIGH;
        mkSessionPoll no_tag 0 2052 LOW])
    2060 2060 (morning 5)
    (pressed BTN_SOS_PIN 2070) (pressed BTN_SOS_PIN 2071) (morning 5) 0
    (pressed BTN_SOS_PIN 2072) (pressed BTN_SOS_PIN 2080) sos_pulses
    17600 17600.

(** ** Definitions used to state further properties *)

(** *** Hex text of a UID *)

(** Value of a hex digit, in either letter case. *)
Definition hex_val (c : ascii) : option Z :=
  let n := Z.of_N (N_of_ascii c) in
  if (48 <=? n) && (n <=? 57) then Some (n - 48)
  else if (65 <=? n) && (n <=? 70) then Some (n - 55)
  else if (97 <=? n) && (n <=? 102) then Some (n - 87)
  else None.

(** Reading back two hex digits per byte. *)
Fixpoint hex_decode (s : string) : option (list Z) :=
  match s with
  | EmptyString => Some []
  | String a (String b rest) =>
      match hex_val a, hex_val b, hex_decode rest with
      | Some hi, Some lo, Some bytes => Some (hi * 16 + lo :: bytes)
      | _, _, _ => None
      end
  | String _ EmptyString => None
  end.

(** A digit or an uppercase letter A..F. *)
Definition is_upper_hex (c : ascii) : bool :=
  let n := Z.of_N (N_of_ascii c) in
  ((48 <=? n) && (n <=? 57)) || ((65 <=? n) && (n <=? 70)).

Fixpoint string_forall (p : ascii -> bool) (s : string) : bool :=
  match s with
  | EmptyString => true
  | String c rest => p c && string_forall p rest
  end.

(** *** Reading a time text back *)

Definition digit_val (c : ascii) : option Z :=
  let n := Z.of_N (N_of_ascii c) in
  if (48 <=? n) && (n <=? 57) then Some (n - 48) else None.

Definition two_digits (a b : ascii) : option Z :=
  match digit_val a, digit_val b with
  | Some x, Some y => Some (10 * x + y)
  | _, _ => None
  end.

(** The three numbers of a text of the form "HH:MM:SS". *)
Definition parse_time (s : string) : option (Z * Z * Z) :=
  match s with
  | String h1 (String h2 (String c1 (String m1 (String m2 (String c2
      (String s1 (String s2 EmptyString))))))) =>
      if Ascii.eqb c1 ":" && Ascii.eqb c2 ":" then
        match two_digits h1 h2, two_digits m1 m2, two_digits s1 s2 with
        | Some h, Some m, Some s => Some (h, m, s)
        | _, _, _ => None
        end
      else None
  | _ => None
  end.

(** *** Stored values and their C types *)

(** Every [lastScanned] text fits its [char[9]] with the terminator, and
    every [lastAckYMD] is a value of a 16-bit [int]. *)
Definition fits_types (s : State) : Prop :=
  Forall (fun k => (String.length (KnownItem.lastScanned k) <= 8)%nat)
    (knownItems s) /\
  Forall (fun m => -32768 <= MedItem.lastAckYMD m < 32768) (meds s).

(** *** Scheduler *)

(** Number of entries that wait for an acknowledgment. *)
Definition count_pending (ms : list MedItem.t) : nat :=
  length (List.filter MedItem.pending ms).

(** The test of the due check, as the code evaluates it. *)
Definition due_nowb (now : DateTime.t) (m : MedItem.t) : bool :=
  negb (MedItem.pending m)
  && ((DateTime.hour now =? MedItem.hour m)
      && (DateTime.minute now =? MedItem.minute m))
  && negb (MedItem.lastAckYMD m =? ymdNow now).

(** Successive runs of the acknowledgment handler, one per accepted press
    of the Med button, with the clock reading and the random number of
    each. *)
Definition run_confirms (presses : list (DateTime.t * Z)) (s : State) : State :=
  foldl (fun s p => fst (confirmFirstPendingMed (fst p) (snd p) s)) s presses.

(** *** Time spent and sound made *)

(** Milliseconds spent in [delay] along a list of events. *)
Fixpoint total_delay (out : list Out) : Z :=
  match out with
  | [] => 0
  | Delay ms :: rest => ms + total_delay rest
  | _ :: rest => total_delay rest
  end.

(** Number of times the buzzer is switched on. *)
Fixpoint beeps (out : list Out) : nat :=
  match out with
  | [] => 0
  | DigitalWrite pin HIGH :: rest =>
      ((if (pin =? BUZZER_PIN)%Z then 1 else 0) + beeps rest)%nat
  | _ :: rest => beeps rest
  end.

(** The last screen of [sosFlow]. *)
Definition sos_end_screen : list Out :=
  [LcdClear; LcdSetCursor 0 0; LcdPrint "SOS Ended";
   LcdSetCursor 0 1; LcdPrint "Stay safe"; Delay 1500].

(** The readings of the 32-bit millisecond counter at the instants [Es],
    counted from the instant at which it read [start]. *)
Definition readings (start : Z) (Es : list Z) : list Z :=
  (fun E => u32 (start + E)) <$> Es.

(** The level of the buzzer pin after the events [out], from level [l]. *)
Fixpoint buzzer_after (l : Level) (out : list Out) : Level :=
  match out with
  | [] => l
  | DigitalWrite pin v :: rest =>
      buzzer_after (if pin =? BUZZER_PIN then v else l) rest
  | _ :: rest => buzzer_after l rest
  end.

(** No entry is pending in [ms'] that was not already pending, and the
    same, in [ms]. *)
Definition no_new_pending (ms ms' : list MedItem.t) : Prop :=
  forall i m', ms' !! i = Some m' -> MedItem.pending m' = true ->
               ms !! i = Some m'.

(** What the stages of [loop] other than the scheduler leave alone. *)
Definition schedule_frame (s s' : State) : Prop :=
  lastScheduleCheck s' = lastScheduleCheck s /\
  lastHydrationHour s' = lastHydrationHour s /\
  no_new_pending (meds s) (meds s').

(** An iteration in which nothing is pressed and no tag is near, with the
    scheduler guard read at [guard]. *)
Definition quiet_iteration (guard : Z) (now : DateTime.t) : LoopEnv :=
  mkLoopEnv (mkRfidEnv no_tag now 0 []) guard (guard + 1) now
    (mkEnv (fun _ => HIGH) guard) (mkEnv (fun _ => HIGH) guard) now 0
    (mkEnv (fun _ => HIGH) guard) (mkEnv (fun _ => HIGH) guard)
    (mkSosEnv 0 []) guard guard.

(** *** The 16 columns of the display *)

(** The display is declared with 16 columns and 2 rows. *)
Definition LCD_COLS : nat := 16.

(** Cursor column and rightmost column written so far (as a count of
    columns): [clear] and [init] home the cursor, [print] writes from the
    cursor to the right. *)
Definition lcd_step (st : nat * nat) (o : Out) : nat * nat :=
  match o with
  | LcdInit | LcdClear => (0%nat, snd st)
  | LcdSetCursor c _ => (Z.to_nat c, snd st)
  | LcdPrint t =>
      ((fst st + String.length t)%nat,
       Nat.max (snd st) (fst st + String.length t))
  | _ => st
  end.

Definition lcd_run (st : nat * nat) (out : list Out) : nat * nat :=
  foldl lcd_step st out.

(** Number of columns the events [out] write to. *)
Definition widest (out : list Out) : nat := snd (lcd_run (0%nat, 0%nat) out).

(** The part of a table entry the screens show. *)
Definition med_key (m : MedItem.t) : string * Z * Z :=
  (MedItem.name m, MedItem.hour m, MedItem.minute m).

Definition of_key (k : string * Z * Z) : MedItem.t :=
  MedItem.mk (fst (fst k)) (snd (fst k)) (snd k) false 0.

(** The keys [med_at] can deliver from the table: its entries and the one
    of the default entry. *)
Definition med_keys : list (string * Z * Z) :=
  (EmptyString, 0, 0) :: schedule_of meds_init.

(** *** Text printed in one piece *)

(** Consecutive [print] calls write one after the other: the events with
    every run of prints joined into a single text. *)
Fixpoint joined (out : list Out) : list Out :=
  match out with
  | [] => []
  | LcdPrint a :: rest =>
      match joined rest with
      | LcdPrint b :: rest' => LcdPrint (a ++ b) :: rest'
      | rest' => LcdPrint a :: rest'
      end
  | o :: rest => o :: joined rest
  end.

(** *** Runs with a working clock *)

(** Hour, minute and second of a reading are those of a time of day. *)
Definition time_fields_ok (t : DateTime.t) : bool :=
  (0 <=? DateTime.hour t) && (DateTime.hour t <? 24)
  && (0 <=? DateTime.minute t) && (DateTime.minute t <? 60)
  && (0 <=? DateTime.second t) && (DateTime.second t <? 60).

Definition op_clock_ok (op : Op) : bool :=
  match op with
  | OpRfid e => time_fields_ok (rf_now e)
  | _ => true
  end.

(** States the firmware can be in between two iterations of [loop] when
    every reading the clock delivers to a tag session is a valid one.  (For
    a reading with a field of three digits the [sprintf] of [timeToStr]
    writes beyond the 9 bytes of [tbuf], and C gives the run no meaning.) *)
Definition reachable_valid (s : State) : Prop :=
  exists se envs out,
    Forall (fun e => DateTime.valid (rf_now (le_rfid e))) envs /\
    firmware se envs = Some (s, out).

(** The text is a time of day written "HH:MM:SS". *)
Definition is_time_text (t : string) : Prop :=
  String.length t = 8%nat /\
  exists h m s, parse_time t = Some (h, m, s) /\
                0 <= h < 24 /\ 0 <= m < 60 /\ 0 <= s < 60.

Definition scans_ok (s : State) : Prop :=
  Forall (fun k => is_time_text (KnownItem.lastScanned k)) (knownItems s).

(** An iteration of [loop] in which the "Keys" tag is shown at 08:00:05
    and taken away, and nothing else happens. *)
Definition keys_iteration : LoopEnv :=
  mkLoopEnv keys_session 2500 2501 (morning 5)
    (mkEnv (fun _ => HIGH) 2500) (mkEnv (fun _ => HIGH) 2500) (morning 5) 0
    (mkEnv (fun _ => HIGH) 2500) (mkEnv (fun _ => HIGH) 2500)
    (mkSosEnv 0 []) 2500 2500.

Definition after_keys_scan : State :=
  match firmware power_on [keys_iteration] with
  | Some (s, _) => s
  | None => init_state
  end.

(** ** Dates, times of day and screens, as the statements name them *)

(** The number YYYYMMDD of the calendar day of a reading: what the comment
    on [lastAckYMD] says the stamp holds. *)
Definition yyyymmdd (t : DateTime.t) : Z :=
  DateTime.year t * 10000 + DateTime.month t * 100 + DateTime.day t.

(** Clock readings of the days used below, all at 08:00, the scheduled time
    of entry 0. *)
Definition june_23 : DateTime.t := DateTime.mk 2025 6 23 8 0 5.
Definition june_24 : DateTime.t := DateTime.mk 2025 6 24 8 0 5.
Definition jan_29_2025 : DateTime.t := DateTime.mk 2025 1 29 8 0 5.
Definition dec_1_2038 : DateTime.t := DateTime.mk 2038 12 1 8 0 5.

(** Entry 0 marked and acknowledged on 2025-01-29. *)
Definition acked_jan_29 : State :=
  fst (confirmFirstPendingMed jan_29_2025 0
         (fst (checkMedicinesAuto jan_29_2025 booted))).




(** The events of a beep of [ms] milliseconds on pin 8. *)
Definition beep (ms : Z) : list Out :=
  [DigitalWrite 8 HIGH; Delay ms; DigitalWrite 8 LOW].

Definition menu_screen : list Out :=
  [LcdClear;
   LcdSetCursor 0 0; LcdPrint "1:Memory 2:Meds";
   LcdSetCursor 0 1; LcdPrint "3:Exerc  4:SOS "].


(** The "Next Med" screen with its second line. *)
Definition next_med_screen (line : string) : list Out :=
  [LcdClear; LcdSetCursor 0 0; LcdPrint "Next Med:";
   LcdSetCursor 0 1; LcdPrint line; Delay 1400] ++ menu_screen.




(** *** Startup *)

Definition rtc_missing_screen : list Out :=
  [LcdClear; LcdSetCursor 0 0; LcdPrint "RTC not found";
   LcdSetCursor 0 1; LcdPrint "Check wiring"; Delay 2500].

Definition rtc_lost_power_screen : list Out :=
  [LcdClear; LcdSetCursor 0 0; LcdPrint "RTC lost power";
   LcdSetCursor 0 1; LcdPrint "Set time"; Delay 1800].

(** Everything [setup] sends to the peripherals, in order: pins, display,
    buses, reader, serial line and random seed; the clock [report]; the
    startup screen with its two lines; the menu. *)
Definition startup_events (seed : Z) (report : list Out)
  (line1 line2 : string) : list Out :=
  [PinMode 8 OUTPUT; DigitalWrite 8 LOW;
   PinMode 2 INPUT_PULLUP; PinMode 3 INPUT_PULLUP;
   PinMode 4 INPUT_PULLUP; PinMode 5 INPUT_PULLUP;
   LcdInit; LcdBacklight; SpiBegin; RfidInit; SerialBegin 9600; Delay 50;
   RandomSeed seed]
  ++ report
  ++ [LcdClear; LcdSetCursor 0 0; LcdPrint line1;
      LcdSetCursor 0 1; LcdPrint line2; Delay 1800]
  ++ menu_screen.

(** A start without a clock: [rtc.begin()] fails and the reading is what
    the library makes of a bus that answers nothing. *)
Definition rtc_absent : SetupEnv :=
  mkSetupEnv 512 false true (DateTime.mk 2165 165 165 165 165 85) 6 4400.

(** A first iteration of [loop] in which only the Med button is pressed,
    at 9 s, while the scheduler guard has not elapsed. *)
Definition med_press (now : DateTime.t) : LoopEnv :=
  mkLoopEnv (mkRfidEnv no_tag now 0 []) 4500 4500 now
    (pressed BTN_MED_PIN 9000) (pressed BTN_MED_PIN 9000) now 0
    (pressed BTN_MED_PIN 10500) (pressed BTN_MED_PIN 10500)
    (mkSosEnv 0 []) 10500 10500.

(** * Properties *)

Arguments checkMedicinesAuto : simpl never.
Arguments confirmFirstPendingMed : simpl never.
Arguments handleRFID_Auto : simpl never.
Arguments readBtnOnce : simpl never.
Arguments sosFlow : simpl never.
Arguments exerciseFlow : simpl never.
Arguments memoryPromptScan : simpl never.
Arguments lcdMenu : simpl never.
Arguments hydration_nudge : simpl never.
Arguments med_due_prompt : simpl never.
Arguments next_med_prompt : simpl never.
Arguments taken_prompt : simpl never.
Arguments shortBeep : simpl never.
Arguments longBeep : simpl never.
Arguments ymdNow : simpl never.
Arguments u32 : simpl never.
Arguments u8 : simpl never.

(** ** Linear scans *)

Lemma scan_first_none {A} (p : A -> bool) (l : list A) (i : Z) :
  scan_first p i l = -1 -> 0 <= i ->
  forall j x, l !! j = Some x -> p x = false.
Proof.
  revert i. induction l as [|y l IH]; intros i Hs Hi j x Hj.
  - destruct j; discriminate.
  - simpl in Hs. destruct (p y) eqn:Hy; [lia|].
    destruct j as [|j]; simpl in Hj.
    + congruence.
    + eapply (IH (i + 1)); eauto. lia.
Qed.

Lemma scan_first_range {A} (p : A -> bool) (l : list A) (i : Z) :
  scan_first p i l = -1 \/
  i <= scan_first p i l < i + Z.of_nat (length l).
Proof.
  revert i. induction l as [|y l IH]; intros i; simpl.
  - left. reflexivity.
  - destruct (p y); [right; lia|].
    destruct (IH (i + 1)) as [H|H]; [left; exact H|right; lia].
Qed.

Lemma scan_first_found {A} (p : A -> bool) (l : list A) (i : Z) :
  scan_first p i l <> -1 -> 0 <= i ->
  exists k x, scan_first p i l = i + Z.of_nat k /\ l !! k = Some x /\
    p x = true /\ forall j y, (j < k)%nat -> l !! j = Some y -> p y = false.
Proof.
  revert i. induction l as [|y l IH]; intros i Hs Hi; simpl in *.
  - congruence.
  - destruct (p y) eqn:Hy.
    + exists 0%nat, y. repeat split; [lia|assumption|].
      intros j z Hj. lia.
    + destruct (IH (i + 1) Hs ltac:(lia)) as (k & x & Hk & Hx & Hp & Hlt).
      exists (S k), x. repeat split; [lia|assumption|assumption|].
      intros [|j] z Hj Hz; simpl in Hz; [congruence|].
      eapply Hlt; eauto. lia.
Qed.

Lemma scan_first_ge0 {A} (p : A -> bool) (l : list A) :
  (scan_first p 0 l >=? 0) = negb (scan_first p 0 l =? -1).
Proof.
  destruct (scan_first_range p l 0) as [H|H].
  - rewrite H. reflexivity.
  - destruct (Z.geb_spec (scan_first p 0 l) 0); [|lia].
    destruct (Z.eqb_spec (scan_first p 0 l) (-1)); [lia|reflexivity].
Qed.

(** ** The due-check loop is the entry-wise map *)

Lemma med_at_lookup (ms : list MedItem.t) (i : nat) m :
  ms !! i = Some m -> med_at ms (Z.of_nat i) = m.
Proof. intros H. unfold med_at. rewrite Nat2Z.id, H. reflexivity. Qed.

Lemma due_step_lookup now ymd (ms : list MedItem.t) (i j : nat) :
  due_step now ymd ms i !! j =
  if decide (i = j) then due_one now ymd <$> ms !! j else ms !! j.
Proof.
  unfold due_step, startMedPending.
  destruct (decide (i = j)) as [->|Hne].
  - destruct (ms !! j) as [m|] eqn:Hm.
    + rewrite (med_at_lookup _ _ _ Hm). unfold due_one. simpl.
      destruct (MedItem.pending m); simpl; [exact Hm|].
      destruct (_ && _); simpl; [|exact Hm].
      destruct (_ =? ymd); simpl; [exact Hm|].
      rewrite list_lookup_alter, decide_True by reflexivity.
      rewrite Hm. reflexivity.
    + simpl.
      repeat (match goal with
              | |- context [if ?b then _ else _] => destruct b
              end); try exact Hm.
      rewrite list_lookup_alter, decide_True by reflexivity.
      rewrite Hm. reflexivity.
  - repeat (match goal with
            | |- context [if ?b then _ else _] => destruct b
            end); try reflexivity.
    rewrite list_lookup_alter_ne by exact Hne. reflexivity.
Qed.

Lemma due_steps_lookup now ymd (n : nat) (ms : list MedItem.t) (j : nat) :
  foldl (due_step now ymd) ms (seq 0 n) !! j =
  if decide (j < n)%nat then due_one now ymd <$> ms !! j else ms !! j.
Proof.
  induction n as [|n IH].
  - reflexivity.
  - rewrite seq_S, foldl_app. simpl. rewrite due_step_lookup, IH.
    repeat case_decide; try lia; try reflexivity; subst; lia.
Qed.

Lemma due_check_map now ymd (ms : list MedItem.t) :
  Z.of_nat (length ms) = MED_COUNT ->
  due_check now ymd ms = due_one now ymd <$> ms.
Proof.
  intros Hlen. apply list_eq. intros j. unfold due_check.
  rewrite due_steps_lookup, list_lookup_fmap.
  case_decide as Hge; [reflexivity|].
  rewrite lookup_ge_None_2; [reflexivity|]. lia.
Qed.

Lemma meds_check now s :
  Z.of_nat (length (meds s)) = MED_COUNT ->
  meds (fst (checkMedicinesAuto now s)) = due_one now (ymdNow now) <$> meds s.
Proof.
  intros Hlen. unfold checkMedicinesAuto. cbn [fst meds set_meds].
  destruct (hydration_due now s); apply due_check_map; exact Hlen.
Qed.

Lemma due_one_marked now m :
  marked m (due_one now (ymdNow now) m) <-> due_now now m.
Proof.
  unfold marked, due_one, due_now.
  destruct (MedItem.pending m) eqn:Hp; simpl.
  - split; intros H; destruct H; congruence.
  - destruct (Z.eqb_spec (DateTime.hour now) (MedItem.hour m));
    destruct (Z.eqb_spec (DateTime.minute now) (MedItem.minute m));
    destruct (Z.eqb_spec (MedItem.lastAckYMD m) (ymdNow now)); simpl;
      rewrite ?Hp; intuition congruence.
Qed.

(** ** Acknowledgment: which entry is handled *)

Lemma scan_first_pending (ms : list MedItem.t) (i : nat) :
  first_pending ms i -> scan_first MedItem.pending 0 ms = Z.of_nat i.
Proof.
  intros [(m & Hm & Hp) Hlt].
  assert (Hne : scan_first MedItem.pending 0 ms <> -1).
  { intros Hs.
    pose proof (scan_first_none _ _ _ Hs ltac:(lia) _ _ Hm). congruence. }
  destruct (scan_first_found _ _ _ Hne ltac:(lia))
    as (k & x & Hk & Hx & Hpx & Hkl).
  rewrite Hk. f_equal.
  destruct (Nat.lt_trichotomy k i) as [Hlt'|[->|Hgt]]; [|reflexivity|].
  - pose proof (Hlt _ _ Hlt' Hx). congruence.
  - pose proof (Hkl _ _ Hgt Hm). congruence.
Qed.

Lemma scan_none_pending (ms : list MedItem.t) :
  none_pending ms <-> scan_first MedItem.pending 0 ms = -1.
Proof.
  split.
  - intros Hn.
    destruct (Z.eq_dec (scan_first MedItem.pending 0 ms) (-1)) as [|Hne];
      [assumption|].
    destruct (scan_first_found _ _ _ Hne ltac:(lia))
      as (k & x & _ & Hx & Hpx & _).
    pose proof (Hn _ _ Hx). congruence.
  - intros Hs j m Hm. eapply scan_first_none; eauto. lia.
Qed.

Lemma pending_cases (ms : list MedItem.t) :
  none_pending ms \/ exists i, first_pending ms i.
Proof.
  destruct (Z.eq_dec (scan_first MedItem.pending 0 ms) (-1)) as [Hs|Hne].
  - left. apply scan_none_pending. exact Hs.
  - right.
    destruct (scan_first_found _ _ _ Hne ltac:(lia))
      as (k & x & _ & Hx & Hpx & Hlt).
    exists k. split; [exists x; auto|exact Hlt].
Qed.

Lemma confirm_pending now rnd s i m :
  first_pending (meds s) i -> meds s !! i = Some m ->
  confirmFirstPendingMed now rnd s =
  (set_meds (<[i := acknowledge (ymdNow now) m]> (meds s)) s,
   taken_prompt (acknowledge (ymdNow now) m)
     (default EmptyString (AFFS !! Z.to_nat (u8 rnd)))).
Proof.
  intros Hf Hm. unfold confirmFirstPendingMed.
  rewrite (scan_first_pending _ _ Hf).
  destruct (Z.geb_spec (Z.of_nat i) 0); [|lia].
  rewrite Nat2Z.id.
  assert (Ha : alter (acknowledge (ymdNow now)) i (meds s)
               = <[i := acknowledge (ymdNow now) m]> (meds s)).
  { apply list_eq. intros j.
    rewrite list_lookup_alter, list_lookup_insert.
    pose proof (lookup_lt_Some _ _ _ Hm).
    repeat case_decide; subst; try lia; try reflexivity.
    rewrite Hm. reflexivity. }
  rewrite Ha. f_equal. f_equal. unfold med_at. rewrite Nat2Z.id.
  rewrite list_lookup_insert_eq; [reflexivity|].
  eapply lookup_lt_Some; eauto.
Qed.

Lemma confirm_idle now rnd s :
  none_pending (meds s) ->
  confirmFirstPendingMed now rnd s =
  (s, next_med_prompt
        (med_at (meds s)
           (let found := scan_first (later_than now) 0 (meds s) in
            if found =? -1 then 0 else found))).
Proof.
  intros Hn. unfold confirmFirstPendingMed.
  apply scan_none_pending in Hn. rewrite Hn. reflexivity.
Qed.

(** ** The date code depends on the calendar day only *)

Lemma ymdNow_date t1 t2 :
  DateTime.date t1 = DateTime.date t2 -> ymdNow t1 = ymdNow t2.
Proof.
  unfold DateTime.date, ymdNow. intros H. injection H as -> -> ->. reflexivity.
Qed.

Lemma due_one_stamped t m :
  MedItem.lastAckYMD m = ymdNow t -> due_one t (ymdNow t) m = m.
Proof.
  intros H. unfold due_one. rewrite H, Z.eqb_refl.
  rewrite !andb_false_r. reflexivity.
Qed.

Lemma length_meds_check now s :
  Z.of_nat (length (meds s)) = MED_COUNT ->
  length (meds (fst (checkMedicinesAuto now s))) = length (meds s).
Proof. intros H. rewrite meds_check by exact H. apply length_fmap. Qed.

Lemma run_checks_stamped ts : forall s i m ymd,
  Z.of_nat (length (meds s)) = MED_COUNT ->
  meds s !! i = Some m -> MedItem.lastAckYMD m = ymd ->
  Forall (fun t => ymdNow t = ymd) ts ->
  meds (run_checks ts s) !! i = Some m.
Proof.
  induction ts as [|t ts IH]; intros s i m ymd Hlen Hm Hy Hts.
  - exact Hm.
  - inversion Hts as [|? ? Ht Hts']; subst.
    change (run_checks (t :: ts) s)
      with (run_checks ts (fst (checkMedicinesAuto t s))).
    apply (IH _ _ _ (ymdNow t)).
    + rewrite length_meds_check; assumption.
    + rewrite meds_check, list_lookup_fmap, Hm by exact Hlen. simpl.
      rewrite due_one_stamped; auto.
    + symmetry. exact Ht.
    + rewrite Ht. exact Hts'.
Qed.

(** ** A loop iteration is a sequence of operations *)

Lemma and_then_assoc (r : Res) (f g : State -> Res) :
  r >>> f >>> g = r >>> (fun s => f s >>> g).
Proof.
  destruct r as [[s o]|]; simpl; [|reflexivity].
  destruct (f s) as [[s1 o1]|]; simpl; [|reflexivity].
  destruct (g s1) as [[s2 o2]|]; simpl; [|reflexivity].
  rewrite app_assoc. reflexivity.
Qed.

Lemma and_then_ret (r : Res) : r >>> (fun s => Some (s, [])) = r.
Proof.
  destruct r as [[s o]|]; simpl; [|reflexivity].
  rewrite app_nil_r. reflexivity.
Qed.

Lemma ret_and_then (s : State) (f : State -> Res) :
  Some (s, []) >>> f = f s.
Proof. simpl. destruct (f s) as [[s' o']|]; reflexivity. Qed.

Lemma and_then_ext (r : Res) (f g : State -> Res) :
  (forall s, f s = g s) -> r >>> f = r >>> g.
Proof.
  intros H. destruct r as [[s o]|]; simpl; [|reflexivity].
  rewrite H. reflexivity.
Qed.

Lemma run_ops_app (a b : list Op) (s : State) :
  run_ops (a ++ b) s = run_ops a s >>> run_ops b.
Proof.
  revert s. induction a as [|op a IH]; intros s.
  - simpl app. cbn [run_ops]. rewrite ret_and_then. reflexivity.
  - simpl app. cbn [run_ops]. rewrite and_then_assoc.
    apply and_then_ext. intros s'. apply IH.
Qed.

Lemma run_ops_one (op : Op) (s : State) : run_ops [op] s = exec op s.
Proof. cbn [run_ops]. apply and_then_ret. Qed.

Lemma run_chain (stage : State -> list Op) rest (s : State) :
  run_ops (chain (stage :: rest) s) s =
  run_ops (stage s) s >>> (fun s' => run_ops (chain rest s') s').
Proof.
  cbn [chain]. rewrite run_ops_app.
  destruct (run_ops (stage s) s) as [[s' o]|]; reflexivity.
Qed.

Lemma run_schedule_ops e s : run_ops (schedule_ops e s) s = schedule_stage e s.
Proof.
  unfold schedule_ops, schedule_stage, when.
  destruct (_ >=? _); [apply run_ops_one|reflexivity].
Qed.

Lemma run_memory_ops e s : run_ops (memory_ops e s) s = memory_stage e s.
Proof.
  unfold memory_ops, memory_stage, when. cbn [run_ops exec].
  destruct (readBtnOnce _ _ _ s) as [[hit s'] o]. simpl.
  destruct hit; simpl; rewrite ?app_nil_r; reflexivity.
Qed.

Lemma run_med_ops e s : run_ops (med_ops e s) s = med_stage e s.
Proof.
  unfold med_ops, med_stage, when. cbn [run_ops exec].
  destruct (readBtnOnce _ _ _ s) as [[hit s'] o]. simpl.
  destruct hit; simpl; rewrite ?app_nil_r; [|reflexivity].
  destruct (confirmFirstPendingMed _ _ s') as [s2 o2]. 
  rewrite ?app_nil_r. reflexivity.
Qed.

Lemma run_exercise_ops e s : run_ops (exercise_ops e s) s = exercise_stage e s.
Proof.
  unfold exercise_ops, exercise_stage, when. cbn [run_ops exec].
  destruct (readBtnOnce _ _ _ s) as [[hit s'] o]. simpl.
  destruct hit; simpl; rewrite ?app_nil_r; reflexivity.
Qed.

Lemma run_sos_ops e s : run_ops (sos_ops e s) s = sos_stage e s.
Proof.
  unfold sos_ops, sos_stage, sos_accepts, when.
  destruct (is_low _); simpl; [|reflexivity].
  destruct (_ >? _); [|reflexivity].
  rewrite run_ops_one. reflexivity.
Qed.

Lemma run_idle_ops e s : run_ops (idle_ops e s) s = idle_stage e s.
Proof.
  unfold idle_ops, idle_stage, when.
  destruct (_ >? _); [apply run_ops_one|reflexivity].
Qed.

Lemma loop_runs_ops e s : loop e s = run_ops (loop_ops e s) s.
Proof.
  unfold loop, loop_ops.
  rewrite !and_then_assoc, run_chain.
  unfold rfid_ops at 1. rewrite run_ops_one. cbn [exec].
  apply and_then_ext. intros s1.
  rewrite run_chain, run_schedule_ops. apply and_then_ext. intros s2.
  rewrite run_chain, run_memory_ops. apply and_then_ext. intros s3.
  rewrite run_chain, run_med_ops. apply and_then_ext. intros s4.
  rewrite run_chain, run_exercise_ops. apply and_then_ext. intros s5.
  rewrite run_chain, run_sos_ops. apply and_then_ext. intros s6.
  rewrite run_chain, run_idle_ops. apply and_then_ext. intros s7.
  rewrite run_chain. cbn [chain]. rewrite run_ops_one.
  cbn [exec run_ops and_then]. rewrite app_nil_r. reflexivity.
Qed.

(** ** Frame properties of the operations *)

Lemma readBtnOnce_frame e pin idx s :
  let s' := snd (fst (readBtnOnce e pin idx s)) in
  meds s' = meds s /\ knownItems s' = knownItems s /\
  lastHydrationHour s' = lastHydrationHour s /\
  lastScheduleCheck s' = lastScheduleCheck s /\
  length (lastDebounceTime s') = length (lastDebounceTime s).
Proof.
  unfold readBtnOnce.
  destruct (is_low _); [|simpl; auto].
  destruct (_ >? _); simpl; [|auto].
  rewrite length_insert. auto.
Qed.

Lemma handleRFID_frame e s s' o :
  handleRFID_Auto e s = Some (s', o) ->
  meds s' = meds s /\ lastDebounceTime s' = lastDebounceTime s /\
  lastActivity s' = lastActivity s /\
  lastHydrationHour s' = lastHydrationHour s /\
  lastScheduleCheck s' = lastScheduleCheck s /\
  length (knownItems s') = length (knownItems s).
Proof.
  unfold handleRFID_Auto.
  destruct (card_read _); [|intros [= <- <-]; auto 10].
  destruct (session_loop _ _); [|discriminate].
  intros [= <- <-]. simpl. repeat split.
  destruct (_ >=? 0); [apply length_alter|reflexivity].
Qed.

Lemma exec_meds_other op s s' o :
  clock_of op = None -> exec op s = Some (s', o) -> meds s' = meds s.
Proof.
  destruct op; simpl; try discriminate; intros _ H.
  - apply handleRFID_frame in H. tauto.
  - pose proof (readBtnOnce_frame e pin idx s) as Hf.
    destruct (readBtnOnce e pin idx s) as [[hit s1] o1]. simpl in Hf.
    injection H as <- <-. tauto.
  - injection H as <- <-. reflexivity.
  - injection H as <- <-. reflexivity.
  - destruct (sosFlow e); [|discriminate]. injection H as <- <-. reflexivity.
  - injection H as <- <-. reflexivity.
  - injection H as <- <-. reflexivity.
Qed.

Lemma length_meds_confirm now rnd s :
  length (meds (fst (confirmFirstPendingMed now rnd s))) = length (meds s).
Proof.
  unfold confirmFirstPendingMed.
  destruct (_ >=? 0); simpl; [apply length_alter|reflexivity].
Qed.

Lemma exec_well_sized op s s' o :
  well_sized s -> exec op s = Some (s', o) -> well_sized s'.
Proof.
  intros (Hd & Hk & Hm) H. unfold well_sized.
  destruct op; simpl in H.
  - apply handleRFID_frame in H as (-> & -> & _ & _ & _ & ->). auto.
  - destruct (checkMedicinesAuto _ _) as [s1 o1] eqn:Hc.
    injection H as <- <-.
    assert (Hs : s1 = fst (checkMedicinesAuto now (set_lastScheduleCheck stamp s)))
      by (rewrite Hc; reflexivity).
    rewrite Hs, length_meds_check by exact Hm.
    unfold checkMedicinesAuto. cbn [fst].
    destruct (hydration_due _ _); simpl; auto.
  - pose proof (readBtnOnce_frame e pin idx s) as Hf.
    destruct (readBtnOnce e pin idx s) as [[hit s1] o1]. simpl in Hf.
    injection H as <- <-. destruct Hf as (-> & -> & _ & _ & ->). auto.
  - injection H as <- <-. auto.
  - destruct (confirmFirstPendingMed _ _ _) as [s1 o1] eqn:Hc.
    injection H as <- <-.
    assert (Hs : s1 = fst (confirmFirstPendingMed now rnd s))
      by (rewrite Hc; reflexivity).
    rewrite Hs, length_meds_confirm.
    unfold confirmFirstPendingMed. destruct (_ >=? 0); simpl; auto.
  - injection H as <- <-. auto.
  - destruct (sosFlow e); [|discriminate]. injection H as <- <-. simpl.
    rewrite length_insert. auto.
  - injection H as <- <-. auto.
  - injection H as <- <-. auto.
Qed.

Lemma run_ops_well_sized ops : forall s s' o,
  well_sized s -> run_ops ops s = Some (s', o) -> well_sized s'.
Proof.
  induction ops as [|op ops IH]; intros s s' o Hw H; simpl in H.
  - injection H as <- <-. exact Hw.
  - destruct (exec op s) as [[s1 o1]|] eqn:He; simpl in H; [|discriminate].
    destruct (run_ops ops s1) as [[s2 o2]|] eqn:Hr; [|discriminate].
    injection H as <- <-. eapply IH; [|exact Hr].
    eapply exec_well_sized; eauto.
Qed.

(** ** Calendar order *)

Lemma date_lt_trans a b c :
  DateTime.date_lt a b -> DateTime.date_lt b c -> DateTime.date_lt a c.
Proof.
  destruct a as [[y1 m1] d1], b as [[y2 m2] d2], c as [[y3 m3] d3].
  unfold DateTime.date_lt. lia.
Qed.

Lemma date_lt_irrefl a : ~ DateTime.date_lt a a.
Proof. destruct a as [[y1 m1] d1]. unfold DateTime.date_lt. lia. Qed.

Lemma date_le_lt_trans a b c :
  DateTime.date_le a b -> DateTime.date_lt b c -> DateTime.date_lt a c.
Proof. intros [->|H] H'; [exact H'|eapply date_lt_trans; eauto]. Qed.

Lemma date_lt_le_trans a b c :
  DateTime.date_lt a b -> DateTime.date_le b c -> DateTime.date_lt a c.
Proof. intros H [<-|H']; [exact H|eapply date_lt_trans; eauto]. Qed.

Lemma date_le_trans a b c :
  DateTime.date_le a b -> DateTime.date_le b c -> DateTime.date_le a c.
Proof.
  intros [->|H] H'; [exact H'|]. right. eapply date_lt_le_trans; eauto.
Qed.

Lemma date_le_refl a : DateTime.date_le a a.
Proof. left. reflexivity. Qed.

(** ** Pending entries and the operations *)

Lemma due_one_pending now ymd m :
  MedItem.pending m = true -> due_one now ymd m = m.
Proof. intros H. unfold due_one. rewrite H. reflexivity. Qed.

Lemma exec_schedule_meds stamp now s s' o :
  Z.of_nat (length (meds s)) = MED_COUNT ->
  exec (OpSchedule stamp now) s = Some (s', o) ->
  meds s' = due_one now (ymdNow now) <$> meds s.
Proof.
  intros Hlen H. simpl in H.
  destruct (checkMedicinesAuto _ _) as [s1 o1] eqn:Hc. injection H as <- <-.
  change s1 with (fst (s1, o1)). rewrite <- Hc.
  rewrite meds_check by exact Hlen. reflexivity.
Qed.

Lemma scan_first_at (ms : list MedItem.t) (i : nat) :
  scan_first MedItem.pending 0 ms = Z.of_nat i -> first_pending ms i.
Proof.
  intros Hs.
  assert (Hne : scan_first MedItem.pending 0 ms <> -1) by lia.
  destruct (scan_first_found _ _ _ Hne ltac:(lia))
    as (k & x & Hk & Hx & Hpx & Hlt).
  assert (k = i) by lia. subst k.
  split; [exists x; auto|exact Hlt].
Qed.

Lemma confirm_other now rnd s i :
  scan_first MedItem.pending 0 (meds s) <> Z.of_nat i ->
  meds (fst (confirmFirstPendingMed now rnd s)) !! i = meds s !! i.
Proof.
  intros Hne.
  destruct (pending_cases (meds s)) as [Hn|[k Hk]].
  - rewrite confirm_idle by exact Hn. reflexivity.
  - destruct Hk as [(m & Hm & Hp) Hlt].
    assert (Hf : first_pending (meds s) k) by (split; [exists m; auto|exact Hlt]).
    rewrite (confirm_pending _ _ _ _ _ Hf Hm). cbn [fst meds set_meds].
    rewrite (scan_first_pending _ _ Hf) in Hne.
    apply list_lookup_insert_ne. intros ->. apply Hne. reflexivity.
Qed.

Lemma exec_keeps_pending op s s' o i m :
  well_sized s -> exec op s = Some (s', o) -> is_confirm op = false ->
  meds s !! i = Some m -> MedItem.pending m = true ->
  meds s' !! i = Some m.
Proof.
  intros (_ & _ & Hlen) H Hc Hm Hp.
  destruct (clock_of op) as [t|] eqn:Hclk.
  - destruct op; try discriminate.
    rewrite (exec_schedule_meds _ _ _ _ _ Hlen H), list_lookup_fmap, Hm.
    simpl. rewrite due_one_pending by exact Hp. reflexivity.
  - rewrite (exec_meds_other _ _ _ _ Hclk H). exact Hm.
Qed.

Lemma run_keeps_pending ops : forall s s' o i m,
  well_sized s -> run_ops ops s = Some (s', o) ->
  forallb (fun op => negb (is_confirm op)) ops = true ->
  meds s !! i = Some m -> MedItem.pending m = true ->
  meds s' !! i = Some m.
Proof.
  induction ops as [|op ops IH]; intros s s' o i m Hw H Hc Hm Hp; simpl in H.
  - injection H as <- <-. exact Hm.
  - destruct (exec op s) as [[s1 o1]|] eqn:He; simpl in H; [|discriminate].
    destruct (run_ops ops s1) as [[s2 o2]|] eqn:Hr; [|discriminate].
    injection H as <- <-. simpl in Hc. apply andb_prop in Hc as [Hc1 Hc2].
    eapply IH; [| exact Hr | exact Hc2 | | exact Hp].
    + eapply exec_well_sized; eauto.
    + eapply exec_keeps_pending; eauto. destruct (is_confirm op); auto.
Qed.

(** ** Acknowledgment stamps along a run *)

Lemma date_exists (L : Z * Z * Z) : exists t, DateTime.date t = L.
Proof.
  destruct L as [[y mo] d]. exists (DateTime.mk y mo d 0 0 0). reflexivity.
Qed.

Lemma confirm_stamps now rnd s i :
  scan_first MedItem.pending 0 (meds s) = Z.of_nat i ->
  acked_on i (fst (confirmFirstPendingMed now rnd s))
    (DateTime.date now) (DateTime.date now).
Proof.
  intros Hs. apply scan_first_at in Hs.
  destruct Hs as [(m & Hm & Hp) Hlt].
  assert (Hf : first_pending (meds s) i) by (split; [exists m; auto|exact Hlt]).
  unfold acked_on.
  rewrite (confirm_pending _ _ _ _ _ Hf Hm). cbn [fst meds set_meds].
  exists (acknowledge (ymdNow now) m). split.
  - apply list_lookup_insert_eq. eapply lookup_lt_Some; eauto.
  - left. split; [reflexivity|]. split; [|apply date_le_refl].
    intros t Ht. simpl. apply ymdNow_date. symmetry. exact Ht.
Qed.

Lemma acked_on_schedule i s s' o stamp now L lb :
  well_sized s -> exec (OpSchedule stamp now) s = Some (s', o) ->
  acked_on i s L lb -> DateTime.date_le lb (DateTime.date now) ->
  acked_on i s' L (DateTime.date now).
Proof.
  intros (_ & _ & Hlen) H (m & Hm & Hst) Hle. unfold acked_on.
  rewrite (exec_schedule_meds _ _ _ _ _ Hlen H).
  exists (due_one now (ymdNow now) m). split.
  { rewrite list_lookup_fmap, Hm. reflexivity. }
  destruct Hst as [(Hp & Hack & HL)|(Hp & HL)].
  - unfold due_one. destruct (_ && _) eqn:Hb.
    + right. split; [reflexivity|].
      pose proof (date_le_trans _ _ _ HL Hle) as [Heq|Hlt]; [|exact Hlt].
      exfalso. apply andb_prop in Hb as [_ Hb].
      rewrite (Hack now) in Hb by (symmetry; exact Heq).
      rewrite Z.eqb_refl in Hb. discriminate.
    + left. split; [exact Hp|]. split; [exact Hack|].
      eapply date_le_trans; eauto.
  - right. rewrite due_one_pending by exact Hp. split; [exact Hp|].
    eapply date_lt_le_trans; eauto.
Qed.

Lemma acked_on_weaken i s L lb lb' :
  acked_on i s L lb -> DateTime.date_le lb lb' -> acked_on i s L lb'.
Proof.
  intros (m & Hm & Hst) Hle. exists m. split; [exact Hm|].
  destruct Hst as [(Hp & Hack & HL)|(Hp & HL)].
  - left. repeat split; auto. eapply date_le_trans; eauto.
  - right. split; [exact Hp|]. eapply date_lt_le_trans; eauto.
Qed.

Lemma acked_on_meds i s s' L lb :
  meds s' !! i = meds s !! i -> acked_on i s L lb -> acked_on i s' L lb.
Proof. intros He (m & Hm & Hst). exists m. rewrite He. auto. Qed.


Lemma exec_confirm_fst now rnd s s' o :
  exec (OpConfirm now rnd) s = Some (s', o) ->
  s' = fst (confirmFirstPendingMed now rnd s).
Proof.
  simpl. destruct (confirmFirstPendingMed _ _ _) as [s1 o1].
  intros [= <- <-]. reflexivity.
Qed.

Lemma stamps_after i ops : forall s L lb,
  well_sized s -> acked_on i s L lb -> chrono lb ops ->
  Forall (DateTime.date_lt L) (stamps i ops s) /\
  StronglySorted DateTime.date_lt (stamps i ops s).
Proof.
  induction ops as [|op ops IH]; intros s L lb Hw Hack Hch.
  - split; constructor.
  - cbn [stamps chrono] in *.
    destruct (exec op s) as [[s1 o1]|] eqn:He.
    2:{ rewrite app_nil_r. destruct op; try (split; constructor).
        discriminate He. }
    pose proof (exec_well_sized _ _ _ _ Hw He) as Hw1.
    destruct op; cbn [stamp_here clock_of] in *;
      try (apply (IH s1 L lb Hw1); [|exact Hch];
           eapply acked_on_meds; [|exact Hack];
           erewrite exec_meds_other; eauto; reflexivity).
    + (* scheduler cycle *)
      destruct Hch as [Hle Hch].
      apply (IH s1 L (DateTime.date now) Hw1); [|exact Hch].
      eapply acked_on_schedule; [exact Hw|exact He|exact Hack|exact Hle].
    + (* acknowledgment *)
      destruct Hch as [Hle Hch].
      pose proof (exec_confirm_fst _ _ _ _ _ He) as ->.
      destruct (Z.eqb_spec (scan_first MedItem.pending 0 (meds s))
                  (Z.of_nat i)) as [Hs|Hs].
      * assert (HL : DateTime.date_lt L (DateTime.date now)).
        { destruct Hack as (m & Hm & [(Hp & _)|(Hp & HL)]).
          - apply scan_first_at in Hs. destruct Hs as [(m' & Hm' & Hp') _].
            congruence.
          - eapply date_lt_le_trans; eauto. }
        destruct (IH _ (DateTime.date now) (DateTime.date now) Hw1
                    (confirm_stamps now rnd s i Hs) Hch) as [Hall Hsorted].
        simpl. split.
        -- constructor; [exact HL|].
           eapply Forall_impl; [exact Hall|].
           intros d Hd. eapply date_lt_trans; eauto.
        -- constructor; assumption.
      * simpl. apply (IH _ L (DateTime.date now) Hw1); [|exact Hch].
        eapply acked_on_meds; [apply confirm_other; exact Hs|].
        eapply acked_on_weaken; eauto.
Qed.

Lemma stamps_sorted i ops : forall s lb,
  well_sized s -> chrono lb ops ->
  StronglySorted DateTime.date_lt (stamps i ops s).
Proof.
  induction ops as [|op ops IH]; intros s lb Hw Hch.
  - constructor.
  - cbn [stamps chrono] in *.
    destruct (exec op s) as [[s1 o1]|] eqn:He.
    2:{ rewrite app_nil_r. destruct op; try constructor. discriminate He. }
    pose proof (exec_well_sized _ _ _ _ Hw He) as Hw1.
    destruct op; cbn [stamp_here clock_of] in *;
      try (apply (IH s1 lb Hw1 Hch)).
    + destruct Hch as [_ Hch]. apply (IH s1 _ Hw1 Hch).
    + destruct Hch as [_ Hch].
      pose proof (exec_confirm_fst _ _ _ _ _ He) as ->.
      destruct (Z.eqb_spec (scan_first MedItem.pending 0 (meds s))
                  (Z.of_nat i)) as [Hs|Hs].
      * destruct (stamps_after i ops _ (DateTime.date now) (DateTime.date now)
                    Hw1 (confirm_stamps now rnd s i Hs) Hch) as [Hall Hsorted].
        simpl. constructor; assumption.
      * simpl. apply (IH _ _ Hw1 Hch).
Qed.

Lemma sorted_lt_NoDup (l : list (Z * Z * Z)) :
  StronglySorted DateTime.date_lt l -> NoDup l.
Proof.
  induction 1 as [|d l Hs IH Hall]; constructor; [|exact IH].
  intros Hin. rewrite Forall_forall in Hall.
  apply (date_lt_irrefl d). apply Hall. exact Hin.
Qed.

(** ** Reachable states *)

Lemma run_loops_ops envs : forall s,
  run_loops envs s = run_ops (loops_ops envs s) s.
Proof.
  induction envs as [|e envs IH]; intros s.
  - reflexivity.
  - cbn [run_loops]. unfold loops_ops. cbn [map]. rewrite run_chain.
    rewrite loop_runs_ops. apply and_then_ext. intros s'. apply IH.
Qed.

Lemma init_well_sized : well_sized init_state.
Proof. repeat split. Qed.

Lemma setup_well_sized se s : well_sized s -> well_sized (fst (setup se s)).
Proof. intros H. exact H. Qed.

Lemma reachable_well_sized s : reachable s -> well_sized s.
Proof.
  intros (se & envs & out & H). unfold firmware in H.
  destruct (setup se init_state) as [s0 o0] eqn:Hs.
  assert (Hw : well_sized s0).
  { change s0 with (fst (s0, o0)). rewrite <- Hs.
    apply setup_well_sized, init_well_sized. }
  cbn [and_then] in H. rewrite run_loops_ops in H.
  destruct (run_ops _ s0) as [[s1 o1]|] eqn:Hr; [|discriminate].
  injection H as <- _. eapply run_ops_well_sized; eauto.
Qed.


(** ** Hydration marker *)

Lemma hydration_due_iff now s :
  hydration_due now s = true <->
  DateTime.minute now = 0 /\ lastHydrationHour s <> DateTime.hour now.
Proof.
  unfold hydration_due.
  destruct (Z.eqb_spec (DateTime.minute now) 0);
  destruct (Z.eqb_spec (lastHydrationHour s) (DateTime.hour now)); simpl;
    intuition congruence.
Qed.

Lemma check_marker now s :
  lastHydrationHour (fst (checkMedicinesAuto now s)) =
  if hydration_due now s then DateTime.hour now else lastHydrationHour s.
Proof.
  unfold checkMedicinesAuto. cbn [fst].
  destruct (hydration_due now s); reflexivity.
Qed.

Lemma check_out now s :
  snd (checkMedicinesAuto now s) =
  (if hydration_due now s then hydration_nudge else []) ++
  (let ms := due_check now (ymdNow now) (meds s) in
   let idx := scan_first MedItem.pending 0 ms in
   if idx >=? 0 then med_due_prompt (med_at ms idx) else []).
Proof.
  unfold checkMedicinesAuto. cbn [snd].
  destruct (hydration_due now s); reflexivity.
Qed.

Lemma exec_marker_other op s s' o :
  (forall stamp now, op <> OpSchedule stamp now) ->
  exec op s = Some (s', o) -> lastHydrationHour s' = lastHydrationHour s.
Proof.
  intros Hns H. destruct op; simpl in H.
  - apply handleRFID_frame in H. tauto.
  - exfalso. eapply Hns. reflexivity.
  - pose proof (readBtnOnce_frame e pin idx s) as Hf.
    destruct (readBtnOnce e pin idx s) as [[hit s1] o1]. simpl in Hf.
    injection H as <- <-. tauto.
  - injection H as <- <-. reflexivity.
  - destruct (confirmFirstPendingMed _ _ _) as [s1 o1] eqn:Hc.
    injection H as <- <-. change s1 with (fst (s1, o1)). rewrite <- Hc.
    unfold confirmFirstPendingMed. destruct (_ >=? 0); reflexivity.
  - injection H as <- <-. reflexivity.
  - destruct (sosFlow e); [|discriminate]. injection H as <- <-. reflexivity.
  - injection H as <- <-. reflexivity.
  - injection H as <- <-. reflexivity.
Qed.

Lemma exec_schedule_marker stamp now s s' o :
  exec (OpSchedule stamp now) s = Some (s', o) ->
  lastHydrationHour s' =
  if hydration_due now s then DateTime.hour now else lastHydrationHour s.
Proof.
  simpl. destruct (checkMedicinesAuto _ _) as [s1 o1] eqn:Hc.
  intros [= <- <-]. change s1 with (fst (s1, o1)). rewrite <- Hc.
  rewrite check_marker. reflexivity.
Qed.

Lemma nudges_none h ops : forall s,
  lastHydrationHour s = h -> same_hour h ops -> nudges ops s = 0%nat.
Proof.
  induction ops as [|op ops IH]; intros s Hm Hh; [reflexivity|].
  inversion Hh as [|? ? Hop Hrest]; subst. cbn [nudges].
  destruct (exec op s) as [[s1 o1]|] eqn:He.
  - destruct op;
      try (rewrite IH; [reflexivity| |exact Hrest];
           erewrite exec_marker_other; eauto; intros; discriminate).
    assert (Hd : hydration_due now s = false).
    { unfold hydration_due. rewrite Hop, Z.eqb_refl, andb_false_r.
      reflexivity. }
    rewrite Hd. rewrite IH; [reflexivity| |exact Hrest].
    rewrite (exec_schedule_marker _ _ _ _ _ He), Hd. reflexivity.
  - destruct op; try reflexivity. discriminate He.
Qed.

Lemma nudges_at_most_once h ops : forall s,
  same_hour h ops -> (nudges ops s <= 1)%nat.
Proof.
  induction ops as [|op ops IH]; intros s Hh; [simpl; lia|].
  inversion Hh as [|? ? Hop Hrest]; subst. cbn [nudges].
  destruct (exec op s) as [[s1 o1]|] eqn:He.
  - destruct op; try (simpl; apply IH; exact Hrest).
    destruct (hydration_due now s) eqn:Hd.
    + rewrite (nudges_none h); [lia| |exact Hrest].
      rewrite <- Hop.
      rewrite (exec_schedule_marker _ _ _ _ _ He), Hd. reflexivity.
    + simpl. apply IH. exact Hrest.
  - destruct op; try (simpl; lia). discriminate He.
Qed.

(** ** The schedule is constant *)

Lemma schedule_due now ymd ms :
  schedule_of (due_one now ymd <$> ms) = schedule_of ms.
Proof.
  unfold schedule_of. rewrite <- list_fmap_compose.
  apply list_fmap_ext. intros _ m _. unfold due_one. simpl.
  destruct (_ && _); reflexivity.
Qed.

Lemma schedule_alter_ack ymd i ms :
  schedule_of (alter (acknowledge ymd) i ms) = schedule_of ms.
Proof.
  unfold schedule_of. apply list_eq. intros j.
  rewrite !list_lookup_fmap, list_lookup_alter.
  case_decide; [subst|reflexivity].
  destruct (ms !! j); reflexivity.
Qed.

Lemma exec_static op s s' o :
  well_sized s -> exec op s = Some (s', o) ->
  static_meds (meds s) -> static_meds (meds s').
Proof.
  intros Hw H Hst. unfold static_meds in *.
  destruct (clock_of op) as [t|] eqn:Hclk.
  - destruct op; try discriminate.
    + destruct Hw as (_ & _ & Hlen).
      rewrite (exec_schedule_meds _ _ _ _ _ Hlen H), schedule_due. exact Hst.
    + rewrite (exec_confirm_fst _ _ _ _ _ H).
      unfold confirmFirstPendingMed.
      destruct (_ >=? 0); cbn [fst meds set_meds]; [|exact Hst].
      rewrite schedule_alter_ack. exact Hst.
  - rewrite (exec_meds_other _ _ _ _ Hclk H). exact Hst.
Qed.

Lemma run_ops_static ops : forall s s' o,
  well_sized s -> run_ops ops s = Some (s', o) ->
  static_meds (meds s) -> static_meds (meds s').
Proof.
  induction ops as [|op ops IH]; intros s s' o Hw H Hst; simpl in H.
  - injection H as <- <-. exact Hst.
  - destruct (exec op s) as [[s1 o1]|] eqn:He; simpl in H; [|discriminate].
    destruct (run_ops ops s1) as [[s2 o2]|] eqn:Hr; [|discriminate].
    injection H as <- <-. eapply IH; [|exact Hr|].
    + eapply exec_well_sized; eauto.
    + eapply exec_static; eauto.
Qed.

Lemma reachable_static s : reachable s -> static_meds (meds s).
Proof.
  intros (se & envs & out & H). unfold firmware, setup in H.
  cbn [and_then] in H. rewrite run_loops_ops in H.
  destruct (run_ops _ _) as [[s1 o1]|] eqn:Hr; [|discriminate].
  injection H as <- _. eapply run_ops_static; [|exact Hr|reflexivity].
  apply init_well_sized.
Qed.

(** The initial table is in ascending order of time of day. *)
Lemma static_entries ms :
  static_meds ms ->
  exists a b c d, ms = [a; b; c; d] /\
    (MedItem.name a, MedItem.hour a, MedItem.minute a)
      = ("BP Tablet"%string, 8, 0) /\
    (MedItem.name b, MedItem.hour b, MedItem.minute b)
      = ("Vitamin D"%string, 13, 30) /\
    (MedItem.name c, MedItem.hour c, MedItem.minute c)
      = ("Insulin"%string, 18, 0) /\
    (MedItem.name d, MedItem.hour d, MedItem.minute d)
      = ("Calcium"%string, 22, 0).
Proof.
  unfold static_meds, schedule_of. intros H.
  destruct ms as [|a [|b [|c [|d [|x ms]]]]]; try discriminate H.
  exists a, b, c, d. cbn in H.
  injection H as Ha1 Ha2 Ha3 Hb1 Hb2 Hb3 Hc1 Hc2 Hc3 Hd1 Hd2 Hd3.
  repeat split; congruence.
Qed.



(** ** Debounce cells *)

Lemma check_frame now s :
  let s' := fst (checkMedicinesAuto now s) in
  lastDebounceTime s' = lastDebounceTime s /\
  lastActivity s' = lastActivity s /\
  knownItems s' = knownItems s /\
  lastScheduleCheck s' = lastScheduleCheck s.
Proof.
  unfold checkMedicinesAuto. cbn [fst].
  destruct (hydration_due now s); simpl; auto.
Qed.

Lemma confirm_frame now rnd s :
  let s' := fst (confirmFirstPendingMed now rnd s) in
  lastDebounceTime s' = lastDebounceTime s /\
  lastActivity s' = lastActivity s /\
  knownItems s' = knownItems s /\
  lastScheduleCheck s' = lastScheduleCheck s /\
  lastHydrationHour s' = lastHydrationHour s.
Proof.
  unfold confirmFirstPendingMed. destruct (_ >=? 0); simpl; auto.
Qed.

Lemma exec_schedule_fst stamp now s s' o :
  exec (OpSchedule stamp now) s = Some (s', o) ->
  s' = fst (checkMedicinesAuto now (set_lastScheduleCheck stamp s)).
Proof.
  cbn [exec]. destruct (checkMedicinesAuto _ _) as [s1 o1].
  intros [= <- <-]. reflexivity.
Qed.

Lemma u32_elapsed T1 T2 :
  T1 <= T2 -> DEBOUNCE_MS < u32 (u32 T2 - u32 T1) -> DEBOUNCE_MS < T2 - T1.
Proof.
  unfold u32. intros Hle H.
  rewrite <- Zminus_mod in H.
  pose proof (Z.mod_le (T2 - T1) (2 ^ 32) ltac:(lia) ltac:(lia)). lia.
Qed.

Lemma gap_separated t1 t2 :
  (u32 (t2 - t1) >? DEBOUNCE_MS) = true -> separated t1 t2.
Proof.
  intros H T1 T2 Hle <- <-. apply u32_elapsed; [exact Hle|lia].
Qed.

Lemma readBtnOnce_cases e pin idx s :
  (is_low (digitalRead e pin) && (u32 (millis e - cell idx s) >? DEBOUNCE_MS)
   = true /\
   readBtnOnce e pin idx s =
   (true,
    set_lastActivity (millis e)
      (set_lastDebounceTime (<[idx := millis e]> (lastDebounceTime s)) s),
    shortBeep))
  \/
  (is_low (digitalRead e pin) && (u32 (millis e - cell idx s) >? DEBOUNCE_MS)
   = false /\
   readBtnOnce e pin idx s = (false, s, [])).
Proof.
  unfold readBtnOnce, cell.
  destruct (is_low _); [|right; auto].
  destruct (_ >? _); [left|right]; auto.
Qed.

Lemma exec_cell idx op s s' o :
  (idx <= 2)%nat -> length (lastDebounceTime s) = 4%nat ->
  exec op s = Some (s', o) ->
  match accepted_here idx op s with
  | [] => cell idx s' = cell idx s
  | t :: _ => cell idx s' = t /\ (u32 (t - cell idx s) >? DEBOUNCE_MS) = true
  end.
Proof.
  intros Hidx Hlen H. unfold cell.
  destruct op; cbn [accepted_here].
  - apply handleRFID_frame in H as (_ & -> & _). reflexivity.
  - rewrite (exec_schedule_fst _ _ _ _ _ H).
    destruct (check_frame now (set_lastScheduleCheck stamp s)) as (-> & _).
    reflexivity.
  - simpl in H.
    destruct (readBtnOnce_cases e pin idx0 s) as [[Hc He]|[Hc He]];
      rewrite He in *; injection H as <- <-; cbn [fst snd].
    + apply andb_prop in Hc as [_ Hc].
      destruct (Nat.eqb_spec idx0 idx) as [->|Hne]; cbn [andb].
      * cbn [lastDebounceTime set_lastActivity set_lastDebounceTime].
        rewrite list_lookup_insert_eq by lia. split; [reflexivity|exact Hc].
      * cbn [lastDebounceTime set_lastActivity set_lastDebounceTime].
        rewrite list_lookup_insert_ne by exact Hne. reflexivity.
    + rewrite andb_false_r. reflexivity.
  - simpl in H. injection H as <- <-. reflexivity.
  - rewrite (exec_confirm_fst _ _ _ _ _ H).
    destruct (confirm_frame now rnd s) as (-> & _). reflexivity.
  - simpl in H. injection H as <- <-. reflexivity.
  - simpl in H. destruct (sosFlow e); [|discriminate].
    injection H as <- <-.
    cbn [lastDebounceTime set_lastDebounceTime].
    rewrite list_lookup_insert_ne by lia. reflexivity.
  - simpl in H. injection H as <- <-. reflexivity.
  - simpl in H. injection H as <- <-. reflexivity.
Qed.

Lemma exec_cells_length op s s' o :
  exec op s = Some (s', o) ->
  length (lastDebounceTime s') = length (lastDebounceTime s).
Proof.
  intros H. destruct op.
  - apply handleRFID_frame in H as (_ & -> & _). reflexivity.
  - rewrite (exec_schedule_fst _ _ _ _ _ H).
    destruct (check_frame now (set_lastScheduleCheck stamp s)) as (-> & _).
    reflexivity.
  - simpl in H. pose proof (readBtnOnce_frame e pin idx s) as Hf.
    destruct (readBtnOnce e pin idx s) as [[hit s1] o1]. simpl in Hf.
    injection H as <- <-. tauto.
  - simpl in H. injection H as <- <-. reflexivity.
  - rewrite (exec_confirm_fst _ _ _ _ _ H).
    destruct (confirm_frame now rnd s) as (-> & _). reflexivity.
  - simpl in H. injection H as <- <-. reflexivity.
  - simpl in H. destruct (sosFlow e); [|discriminate].
    injection H as <- <-. simpl. apply length_insert.
  - simpl in H. injection H as <- <-. reflexivity.
  - simpl in H. injection H as <- <-. reflexivity.
Qed.

Lemma accepted_spaced idx ops : forall s,
  (idx <= 2)%nat -> length (lastDebounceTime s) = 4%nat ->
  spaced (cell idx s) (accepted idx ops s).
Proof.
  induction ops as [|op ops IH]; intros s Hidx Hlen; [exact I|].
  cbn [accepted].
  destruct (exec op s) as [[s1 o1]|] eqn:He.
  - pose proof (exec_cell idx _ _ _ _ Hidx Hlen He) as Hc.
    pose proof (exec_cells_length _ _ _ _ He) as Hl. rewrite Hlen in Hl.
    specialize (IH s1 Hidx Hl).
    destruct (accepted_here idx op s) as [|t l] eqn:Ha.
    + simpl. rewrite <- Hc. exact IH.
    + assert (l = []) as ->.
      { destruct op; cbn [accepted_here] in Ha; try discriminate.
        destruct (_ && _); congruence. }
      destruct Hc as [Hc Hgap]. simpl. split.
      * apply gap_separated. exact Hgap.
      * rewrite <- Hc. exact IH.
  - destruct op; cbn [accepted_here app] in *; try exact I; try discriminate He.
    simpl in He. destruct (readBtnOnce e pin idx0 s) as [[? ?] ?].
    discriminate.
Qed.

(** ** Strings *)

Lemma length_append (a b : string) :
  String.length (a ++ b) = (String.length a + String.length b)%nat.
Proof.
  induction a as [|c a IH]; simpl; [reflexivity|]. rewrite IH. reflexivity.
Qed.

Lemma substring_all (s : string) : substring 0 (String.length s) s = s.
Proof.
  induction s as [|c s IH]; simpl; [reflexivity|]. rewrite IH. reflexivity.
Qed.

Lemma length_lower s : String.length (lower s) = String.length s.
Proof.
  induction s as [|c s IH]; simpl; [reflexivity|]. rewrite IH. reflexivity.
Qed.

Lemma fmt_02d_length n :
  0 <= n < 100 -> String.length (fmt_0d 2 n) = 2%nat.
Proof.
  intros Hn.
  assert (Hall : forallb (fun k => (String.length (fmt_0d 2 (Z.of_nat k)) =? 2)%nat)
                   (seq 0 100) = true) by (vm_compute; reflexivity).
  rewrite forallb_forall in Hall.
  specialize (Hall (Z.to_nat n)). rewrite Z2Nat.id in Hall by lia.
  apply Nat.eqb_eq, Hall, in_seq. lia.
Qed.

Lemma timeToStr_length t :
  DateTime.valid t -> String.length (timeToStr t) = 8%nat.
Proof.
  intros (_ & _ & _ & Hh & Hm & Hs). unfold timeToStr.
  rewrite !length_append, !fmt_02d_length by lia. reflexivity.
Qed.

Lemma snprintf_time t :
  DateTime.valid t -> snprintf_s 9 (timeToStr t) = timeToStr t.
Proof.
  intros Hv. unfold snprintf_s. change (9 - 1)%nat with 8%nat.
  rewrite <- (timeToStr_length t Hv). apply substring_all.
Qed.

Lemma tolower_nul c : (N_of_ascii c =? 0)%N = false ->
  N_of_ascii (tolower c) <> 0%N.
Proof.
  intros Hc. unfold tolower.
  destruct (_ && _) eqn:Hb.
  - apply andb_prop in Hb as [_ Hb]. apply N.leb_le in Hb.
    rewrite N_ascii_embedding by lia. lia.
  - apply N.eqb_neq. exact Hc.
Qed.

Lemma N_of_ascii_inj c d : N_of_ascii c = N_of_ascii d -> c = d.
Proof.
  intros H. rewrite <- (ascii_N_embedding c), <- (ascii_N_embedding d), H.
  reflexivity.
Qed.

Lemma strcasecmp_zero a : forall b,
  nul_free a = true -> nul_free b = true ->
  (strcasecmp a b = 0 <-> lower a = lower b).
Proof.
  induction a as [|c a IH]; intros [|d b] Ha Hb; simpl in *.
  - tauto.
  - apply andb_prop in Hb as [Hd _]. apply negb_true_iff in Hd.
    pose proof (tolower_nul d Hd). split; [lia|discriminate].
  - apply andb_prop in Ha as [Hc _]. apply negb_true_iff in Hc.
    pose proof (tolower_nul c Hc). split; [lia|discriminate].
  - apply andb_prop in Ha as [_ Ha]. apply andb_prop in Hb as [_ Hb].
    destruct (Z.eqb_spec (Z.of_N (N_of_ascii (tolower c)))
                (Z.of_N (N_of_ascii (tolower d)))) as [He|He].
    + apply N2Z.inj, N_of_ascii_inj in He. rewrite He, (IH b Ha Hb).
      split; [intros ->; reflexivity|intros [= ->]; reflexivity].
    + split; [lia|]. intros [= H1 _]. rewrite H1 in He. congruence.
Qed.

Lemma hex_char_code v :
  0 <= v < 16 -> (N_of_ascii (hex_char v) =? 0)%N = false.
Proof.
  intros Hv. unfold hex_char.
  destruct (v <? 10); rewrite N_ascii_embedding by lia; apply N.eqb_neq; lia.
Qed.

Lemma land_15 b : 0 <= Z.land b 15 < 16.
Proof.
  change 15 with (Z.ones 4). rewrite Z.land_ones by lia.
  apply Z.mod_pos_bound. lia.
Qed.

Lemma uidToHex_nul_free bytes : nul_free (uidToHex bytes) = true.
Proof.
  induction bytes as [|b bytes IH]; simpl; [reflexivity|].
  rewrite !hex_char_code by apply land_15. exact IH.
Qed.

Lemma uidToHex_length bytes :
  String.length (uidToHex bytes) = (2 * length bytes)%nat.
Proof.
  induction bytes as [|b bytes IH]; simpl; [reflexivity|].
  rewrite IH. lia.
Qed.

(** ** Tag sessions *)

Lemma handle_no_card e s :
  card_read (rf_first e) = None -> handleRFID_Auto e s = Some (s, []).
Proof. intros H. unfold handleRFID_Auto. rewrite H. reflexivity. Qed.

Lemma handle_found e s bytes i k :
  card_read (rf_first e) = Some bytes ->
  scan_first (uid_matches (uidToHex bytes)) 0 (knownItems s) = Z.of_nat i ->
  knownItems s !! i = Some k ->
  handleRFID_Auto e s =
  match session_loop (rf_t0 e) (rf_polls e) with
  | None => None
  | Some waits =>
      Some (set_knownItems
              (<[i := KnownItem.set_lastScanned
                        (snprintf_s 9 (timeToStr (rf_now e))) k]>
                 (knownItems s)) s,
            found_screen (KnownItem.name k)
              (snprintf_s 9 (timeToStr (rf_now e)))
            ++ session_events waits)
  end.
Proof.
  intros Hc Hs Hk. unfold handleRFID_Auto. rewrite Hc. cbn zeta. rewrite Hs.
  destruct (Z.geb_spec (Z.of_nat i) 0); [|lia].
  rewrite Nat2Z.id.
  assert (Ha : alter (KnownItem.set_lastScanned
                        (snprintf_s 9 (timeToStr (rf_now e)))) i (knownItems s)
               = <[i := KnownItem.set_lastScanned
                          (snprintf_s 9 (timeToStr (rf_now e))) k]>
                   (knownItems s)).
  { apply list_eq. intros j.
    rewrite list_lookup_alter, list_lookup_insert.
    pose proof (lookup_lt_Some _ _ _ Hk).
    repeat case_decide; subst; try lia; try reflexivity.
    rewrite Hk. reflexivity. }
  rewrite Ha. unfold known_at. rewrite Nat2Z.id.
  rewrite list_lookup_insert_eq by (eapply lookup_lt_Some; eauto).
  reflexivity.
Qed.

Lemma handle_unknown e s bytes :
  card_read (rf_first e) = Some bytes ->
  scan_first (uid_matches (uidToHex bytes)) 0 (knownItems s) = -1 ->
  handleRFID_Auto e s =
  match session_loop (rf_t0 e) (rf_polls e) with
  | None => None
  | Some waits =>
      Some (set_knownItems (knownItems s) s,
            unknown_screen (uidToHex bytes) ++ session_events waits)
  end.
Proof.
  intros Hc Hs. unfold handleRFID_Auto. rewrite Hc. cbn zeta. rewrite Hs.
  reflexivity.
Qed.

Lemma set_knownItems_same s : set_knownItems (knownItems s) s = s.
Proof. destruct s. reflexivity. Qed.

Lemma identity_alter v i items :
  identity_of (alter (KnownItem.set_lastScanned v) i items) = identity_of items.
Proof.
  unfold identity_of. apply list_eq. intros j.
  rewrite !list_lookup_fmap, list_lookup_alter.
  case_decide; [subst|reflexivity].
  destruct (items !! j); reflexivity.
Qed.

Lemma handle_static e s s' o :
  handleRFID_Auto e s = Some (s', o) ->
  identity_of (knownItems s') = identity_of (knownItems s).
Proof.
  unfold handleRFID_Auto.
  destruct (card_read _); [|intros [= <- <-]; reflexivity].
  destruct (session_loop _ _); [|discriminate].
  intros [= <- <-]. cbn [knownItems set_knownItems].
  destruct (_ >=? 0); [apply identity_alter|reflexivity].
Qed.

Lemma exec_static_known op s s' o :
  exec op s = Some (s', o) ->
  static_known (knownItems s) -> static_known (knownItems s').
Proof.
  unfold static_known. intros H Hst. destruct op.
  - rewrite (handle_static _ _ _ _ H). exact Hst.
  - rewrite (exec_schedule_fst _ _ _ _ _ H).
    destruct (check_frame now (set_lastScheduleCheck stamp s)) as (_ & _ & -> & _).
    exact Hst.
  - simpl in H. pose proof (readBtnOnce_frame e pin idx s) as Hf.
    destruct (readBtnOnce e pin idx s) as [[hit s1] o1]. simpl in Hf.
    injection H as <- <-. destruct Hf as (_ & -> & _). exact Hst.
  - simpl in H. injection H as <- <-. exact Hst.
  - rewrite (exec_confirm_fst _ _ _ _ _ H).
    destruct (confirm_frame now rnd s) as (_ & _ & -> & _). exact Hst.
  - simpl in H. injection H as <- <-. exact Hst.
  - simpl in H. destruct (sosFlow e); [|discriminate].
    injection H as <- <-. exact Hst.
  - simpl in H. injection H as <- <-. exact Hst.
  - simpl in H. injection H as <- <-. exact Hst.
Qed.

Lemma run_ops_static_known ops : forall s s' o,
  run_ops ops s = Some (s', o) ->
  static_known (knownItems s) -> static_known (knownItems s').
Proof.
  induction ops as [|op ops IH]; intros s s' o H Hst; simpl in H.
  - injection H as <- <-. exact Hst.
  - destruct (exec op s) as [[s1 o1]|] eqn:He; simpl in H; [|discriminate].
    destruct (run_ops ops s1) as [[s2 o2]|] eqn:Hr; [|discriminate].
    injection H as <- <-. eapply IH; [exact Hr|].
    eapply exec_static_known; eauto.
Qed.

Lemma reachable_static_known s : reachable s -> static_known (knownItems s).
Proof.
  intros (se & envs & out & H). unfold firmware, setup in H.
  cbn [and_then] in H. rewrite run_loops_ops in H.
  destruct (run_ops _ _) as [[s1 o1]|] eqn:Hr; [|discriminate].
  injection H as <- _. eapply run_ops_static_known; [exact Hr|reflexivity].
Qed.

Lemma static_known_entries items :
  static_known items ->
  exists a b c, items = [a; b; c] /\
    (KnownItem.uidHex a, KnownItem.name a) = ("6C433E06", "Keys")%string /\
    (KnownItem.uidHex b, KnownItem.name b) = ("05F7A904", "Medicine Box")%string /\
    (KnownItem.uidHex c, KnownItem.name c) = ("26B0A304", "Glasses")%string.
Proof.
  unfold static_known, identity_of. intros H.
  destruct items as [|a [|b [|c [|x items]]]]; try discriminate H.
  exists a, b, c. cbn in H. injection H as Ha1 Ha2 Hb1 Hb2 Hc1 Hc2.
  repeat split; congruence.
Qed.

Lemma static_known_lookup items i k :
  static_known items -> items !! i = Some k ->
  nul_free (KnownItem.uidHex k) = true /\
  forall j k', items !! j = Some k' ->
    lower (KnownItem.uidHex k') = lower (KnownItem.uidHex k) -> j = i.
Proof.
  intros Hst Hk.
  destruct (static_known_entries _ Hst) as (a & b & c & -> & Ha & Hb & Hc).
  injection Ha as Ha _. injection Hb as Hb _. injection Hc as Hc _.
  destruct i as [|[|[|i]]]; simpl in Hk; try discriminate;
    injection Hk as <-; (split; [rewrite ?Ha, ?Hb, ?Hc; reflexivity|]);
    intros [|[|[|j]]] k' Hk' Hl; simpl in Hk'; try discriminate;
    try reflexivity; injection Hk' as <-;
    rewrite ?Ha, ?Hb, ?Hc in Hl; discriminate Hl.
Qed.

(** ** The presence loop *)

Lemma session_loop_spec polls : forall t0,
  match session_loop t0 polls with
  | Some waits =>
      exists k, waits = replicate k (Delay 20) /\ first_exit t0 polls k
  | None => forall k, exits_at t0 polls k = false
  end.
Proof.
  induction polls as [|p polls IH]; intros t0; cbn [session_loop].
  - intros k. reflexivity.
  - destruct (timed_out (refresh t0 p) p) eqn:Ht.
    { exists 0%nat. split; [reflexivity|]. split.
      - cbn [exits_at]. rewrite Ht. reflexivity.
      - intros j Hj. lia. }
    destruct (is_low (sp_sos p)) eqn:Hs.
    { exists 0%nat. split; [reflexivity|]. split.
      - cbn [exits_at]. rewrite Ht, Hs. reflexivity.
      - intros j Hj. lia. }
    specialize (IH (refresh t0 p)).
    destruct (session_loop (refresh t0 p) polls) as [waits|]; cbn [option_map].
    + destruct IH as (k & -> & Hex & Hfirst).
      exists (S k). split; [reflexivity|]. split; [exact Hex|].
      intros [|j] Hj; cbn [exits_at].
      * rewrite Ht, Hs. reflexivity.
      * apply Hfirst. lia.
    + intros [|k]; cbn [exits_at]; [rewrite Ht, Hs; reflexivity|apply IH].
Qed.

Lemma first_exit_unique t0 polls k k' :
  first_exit t0 polls k -> first_exit t0 polls k' -> k = k'.
Proof.
  intros [H1 F1] [H2 F2].
  destruct (Nat.lt_trichotomy k k') as [Hlt|[->|Hgt]]; [|reflexivity|].
  - rewrite (F2 _ Hlt) in H1. discriminate.
  - rewrite (F1 _ Hgt) in H2. discriminate.
Qed.

Lemma handle_session e s bytes :
  card_read (rf_first e) = Some bytes ->
  exists screen items,
    Forall is_lcd screen /\
    handleRFID_Auto e s =
    match session_loop (rf_t0 e) (rf_polls e) with
    | None => None
    | Some waits =>
        Some (set_knownItems items s, screen ++ session_events waits)
    end.
Proof.
  intros Hc. unfold handleRFID_Auto. rewrite Hc. cbn zeta.
  destruct (_ >=? 0); eexists; eexists; (split; [|reflexivity]);
    repeat constructor.
Qed.

(** ** SOS *)

Lemma sosFlow_screen e out :
  sosFlow e = Some out -> exists rest, out = sos_alert_screen ++ rest.
Proof.
  unfold sosFlow. destruct (sos_loop _ _) as [pulses|]; [|discriminate].
  intros [= <-]. eexists. reflexivity.
Qed.

Lemma sos_stage_cases e s :
  (sos_accepts (le_sos e) s = true /\
   sos_stage e s =
   match sosFlow (le_sos_flow e) with
   | None => None
   | Some o =>
       Some (set_lastDebounceTime
               (<[3%nat := millis (le_sos e)]> (lastDebounceTime s)) s, o)
   end)
  \/ (sos_accepts (le_sos e) s = false /\ sos_stage e s = Some (s, [])).
Proof.
  unfold sos_accepts, sos_stage.
  destruct (is_low _); [|right; auto].
  destruct (_ >? _); [left|right]; auto.
Qed.

(** ** Where the SOS banner can appear *)

Lemma has_banner_app a b : has_banner (a ++ b) = has_banner a || has_banner b.
Proof. apply existsb_app. Qed.

Lemma not_banner_length t :
  String.length t <> 17%nat -> String.eqb t sos_banner = false.
Proof.
  intros H. apply String.eqb_neq. intros ->. apply H. reflexivity.
Qed.

Lemma substring_length_le n : forall s,
  (String.length (substring 0 n s) <= n)%nat.
Proof.
  induction n as [|n IH]; intros [|c s]; simpl; try lia.
  specialize (IH s). lia.
Qed.

Lemma waits_no_banner t0 polls waits :
  session_loop t0 polls = Some waits -> has_banner waits = false.
Proof.
  intros H. pose proof (session_loop_spec polls t0) as Hs. rewrite H in Hs.
  destruct Hs as (k & -> & _). clear H.
  induction k as [|k IH]; [reflexivity|exact IH].
Qed.

Lemma session_events_no_banner waits :
  has_banner waits = false -> has_banner (session_events waits) = false.
Proof.
  intros H. unfold session_events. rewrite !has_banner_app, H. reflexivity.
Qed.

Lemma known_name_no_banner items i k :
  static_known items -> items !! i = Some k ->
  String.eqb (KnownItem.name k) sos_banner = false.
Proof.
  intros Hst Hk.
  destruct (static_known_entries _ Hst) as (a & b & c & -> & Ha & Hb & Hc).
  injection Ha as _ Ha. injection Hb as _ Hb. injection Hc as _ Hc.
  destruct i as [|[|[|i]]]; simpl in Hk; try discriminate;
    injection Hk as <-; rewrite ?Ha, ?Hb, ?Hc; reflexivity.
Qed.

Lemma handle_no_banner e s s' out :
  static_known (knownItems s) ->
  handleRFID_Auto e s = Some (s', out) -> has_banner out = false.
Proof.
  intros Hst H.
  destruct (card_read (rf_first e)) as [bytes|] eqn:Hc.
  2:{ rewrite (handle_no_card _ _ Hc) in H. injection H as <- <-. reflexivity. }
  destruct (Z.eq_dec (scan_first (uid_matches (uidToHex bytes)) 0
                        (knownItems s)) (-1)) as [Hs|Hs].
  - rewrite (handle_unknown e s bytes Hc Hs) in H.
    destruct (session_loop _ _) as [waits|] eqn:Hl; [|discriminate].
    injection H as <- <-.
    change (has_banner (unknown_screen (uidToHex bytes)
                        ++ session_events waits) = false).
    rewrite has_banner_app, (session_events_no_banner waits)
      by (eapply waits_no_banner; eauto).
    unfold unknown_screen, has_banner. cbn [existsb is_banner orb].
    rewrite (not_banner_length (uidToHex bytes)); [reflexivity|].
    rewrite uidToHex_length. lia.
  - destruct (scan_first_found _ _ _ Hs ltac:(lia))
      as (i & k & Hi & Hk & _).
    rewrite Z.add_0_l in Hi.
    rewrite (handle_found e s bytes i k Hc Hi Hk) in H.
    destruct (session_loop _ _) as [waits|] eqn:Hl; [|discriminate].
    injection H as <- <-.
    change (has_banner (found_screen (KnownItem.name k)
                          (snprintf_s 9 (timeToStr (rf_now e)))
                        ++ session_events waits) = false).
    rewrite has_banner_app, (session_events_no_banner waits)
      by (eapply waits_no_banner; eauto).
    unfold found_screen, has_banner. cbn [existsb is_banner orb].
    rewrite (known_name_no_banner _ _ _ Hst Hk).
    rewrite (not_banner_length (snprintf_s 9 (timeToStr (rf_now e))));
      [reflexivity|].
    pose proof (substring_length_le 8 (timeToStr (rf_now e))).
    unfold snprintf_s. simpl Nat.sub. lia.
Qed.

Lemma med_at_cases ms z :
  (exists i, ms !! i = Some (med_at ms z)) \/
  med_at ms z = MedItem.mk EmptyString 0 0 false 0.
Proof.
  unfold med_at. destruct (ms !! Z.to_nat z) eqn:H; [left|right]; eauto.
Qed.

Lemma med_prompts_no_banner ms z :
  static_meds ms ->
  has_banner (med_due_prompt (med_at ms z)) = false /\
  has_banner (next_med_prompt (med_at ms z)) = false /\
  forall aff, String.eqb aff sos_banner = false ->
              has_banner (taken_prompt (med_at ms z) aff) = false.
Proof.
  intros Hst.
  assert (Hcases :
    exists n h mi, (MedItem.name (med_at ms z), MedItem.hour (med_at ms z),
                    MedItem.minute (med_at ms z)) = (n, h, mi) /\
      In (n, h, mi)
         [("BP Tablet", 8, 0); ("Vitamin D", 13, 30); ("Insulin", 18, 0);
          ("Calcium", 22, 0); (EmptyString, 0, 0)]%string).
  { destruct (med_at_cases ms z) as [[i Hi]|Hd].
    - destruct (static_entries ms Hst)
        as (a & b & c & d & -> & Ha & Hb & Hc & Hd).
      destruct i as [|[|[|[|i]]]]; simpl in Hi; try discriminate;
        injection Hi as <-; do 3 eexists;
        (split; [eassumption|simpl; tauto]).
    - rewrite Hd. do 3 eexists. split; [reflexivity|simpl; tauto]. }
  destruct Hcases as (n & h & mi & Heq & Hin).
  destruct (med_at ms z) as [n' h' mi' p l]. simpl in Heq.
  injection Heq as -> -> ->.
  simpl in Hin.
  destruct Hin as [Hin|[Hin|[Hin|[Hin|[Hin|[]]]]]]; injection Hin as <- <- <-;
    (split; [reflexivity|]; split; [reflexivity|]; intros aff Haff;
     unfold taken_prompt, has_banner; cbn [existsb is_banner orb app MedItem.name];
     rewrite Haff; reflexivity).
Qed.

Lemma aff_no_banner z :
  String.eqb (default EmptyString (AFFS !! Z.to_nat z)) sos_banner = false.
Proof.
  destruct (Z.to_nat z) as [|[|[|[|[|n]]]]]; reflexivity.
Qed.

Lemma check_no_banner now s :
  well_sized s -> static_meds (meds s) ->
  has_banner (snd (checkMedicinesAuto now s)) = false.
Proof.
  intros (_ & _ & Hlen) Hst. rewrite check_out, has_banner_app. cbn zeta.
  assert (Hst' : static_meds (due_check now (ymdNow now) (meds s))).
  { rewrite due_check_map by exact Hlen. unfold static_meds.
    rewrite schedule_due. exact Hst. }
  assert (Hn : has_banner hydration_nudge = false) by reflexivity.
  assert (He : has_banner [] = false) by reflexivity.
  destruct (med_prompts_no_banner _ (scan_first MedItem.pending 0
              (due_check now (ymdNow now) (meds s))) Hst') as (Hp & _).
  destruct (hydration_due now s); destruct (_ >=? 0);
    rewrite ?Hn, ?He, ?Hp; reflexivity.
Qed.

Lemma confirm_no_banner now rnd s :
  static_meds (meds s) ->
  has_banner (snd (confirmFirstPendingMed now rnd s)) = false.
Proof.
  intros Hst. unfold confirmFirstPendingMed.
  destruct (_ >=? 0); cbn [snd].
  - assert (Hst' : static_meds (alter (acknowledge (ymdNow now))
                      (Z.to_nat (scan_first MedItem.pending 0 (meds s)))
                      (meds s))).
    { unfold static_meds. rewrite schedule_alter_ack. exact Hst. }
    destruct (med_prompts_no_banner _ (scan_first MedItem.pending 0 (meds s))
                Hst') as (_ & _ & H).
    exact (H _ (aff_no_banner (u8 rnd))).
  - cbn zeta.
    destruct (med_prompts_no_banner (meds s)
                (if scan_first (later_than now) 0 (meds s) =? -1 then 0
                 else scan_first (later_than now) 0 (meds s)) Hst)
      as (_ & H & _).
    exact H.
Qed.

Lemma reachable_tables_ok s : reachable s -> tables_ok s.
Proof.
  intros Hr. split; [|split].
  - apply reachable_well_sized; exact Hr.
  - apply reachable_static; exact Hr.
  - apply reachable_static_known; exact Hr.
Qed.

Lemma exec_tables_ok op s s' o :
  tables_ok s -> exec op s = Some (s', o) -> tables_ok s'.
Proof.
  intros (Hw & Hm & Hk) H. split; [|split].
  - eapply exec_well_sized; eauto.
  - eapply exec_static; eauto.
  - eapply exec_static_known; eauto.
Qed.

Lemma exec_no_banner op s s' o :
  tables_ok s -> before_sos op = true -> exec op s = Some (s', o) ->
  has_banner o = false.
Proof.
  intros (Hw & Hm & Hk) Hb H. destruct op; try discriminate Hb.
  - eapply handle_no_banner; eauto.
  - cbn [exec] in H.
    destruct (checkMedicinesAuto _ _) as [s1 o1] eqn:Hc. injection H as <- <-.
    change o1 with (snd (s1, o1)). rewrite <- Hc.
    apply check_no_banner; assumption.
  - cbn [exec] in H.
    destruct (readBtnOnce_cases e pin idx s) as [[_ Hr]|[_ Hr]];
      rewrite Hr in H; injection H as <- <-; reflexivity.
  - cbn [exec] in H. injection H as <- <-. reflexivity.
  - cbn [exec] in H.
    destruct (confirmFirstPendingMed _ _ _) as [s1 o1] eqn:Hc.
    injection H as <- <-.
    change o1 with (snd (s1, o1)). rewrite <- Hc.
    apply confirm_no_banner; assumption.
  - cbn [exec] in H. injection H as <- <-. reflexivity.
  - cbn [exec] in H. injection H as <- <-. reflexivity.
  - cbn [exec] in H. injection H as <- <-. reflexivity.
Qed.

Lemma exec_cell3 op s s' o :
  before_sos op = true -> exec op s = Some (s', o) ->
  cell 3 s' = cell 3 s /\ lastDebounceTime s' !! 3%nat = lastDebounceTime s !! 3%nat.
Proof.
  intros Hb H.
  assert (Hl : lastDebounceTime s' !! 3%nat = lastDebounceTime s !! 3%nat).
  { destruct op; try discriminate Hb.
    - apply handleRFID_frame in H as (_ & -> & _). reflexivity.
    - rewrite (exec_schedule_fst _ _ _ _ _ H).
      destruct (check_frame now (set_lastScheduleCheck stamp s)) as (-> & _).
      reflexivity.
    - cbn [exec] in H. cbn [before_sos] in Hb. apply Nat.ltb_lt in Hb.
      destruct (readBtnOnce_cases e pin idx s) as [[_ Hr]|[_ Hr]];
        rewrite Hr in H; injection H as <- <-; [|reflexivity].
      cbn [lastDebounceTime set_lastActivity set_lastDebounceTime].
      apply list_lookup_insert_ne. lia.
    - cbn [exec] in H. injection H as <- <-. reflexivity.
    - rewrite (exec_confirm_fst _ _ _ _ _ H).
      destruct (confirm_frame now rnd s) as (-> & _). reflexivity.
    - cbn [exec] in H. injection H as <- <-. reflexivity.
    - cbn [exec] in H. injection H as <- <-. reflexivity.
    - cbn [exec] in H. injection H as <- <-. reflexivity. }
  split; [unfold cell; rewrite Hl; reflexivity|exact Hl].
Qed.

Lemma run_before_sos ops : forall s s' o,
  tables_ok s -> forallb before_sos ops = true ->
  run_ops ops s = Some (s', o) ->
  has_banner o = false /\ tables_ok s' /\
  lastDebounceTime s' !! 3%nat = lastDebounceTime s !! 3%nat.
Proof.
  induction ops as [|op ops IH]; intros s s' o Hok Hb H; simpl in H.
  - injection H as <- <-. auto.
  - simpl in Hb. apply andb_prop in Hb as [Hb1 Hb2].
    destruct (exec op s) as [[s1 o1]|] eqn:He; simpl in H; [|discriminate].
    destruct (run_ops ops s1) as [[s2 o2]|] eqn:Hr; [|discriminate].
    injection H as <- <-.
    destruct (IH s1 s2 o2 (exec_tables_ok _ _ _ _ Hok He) Hb2 Hr)
      as (Hn & Hok' & Hc).
    destruct (exec_cell3 _ _ _ _ Hb1 He) as [_ Hc1].
    rewrite has_banner_app, (exec_no_banner _ _ _ _ Hok Hb1 He), Hn.
    rewrite Hc, Hc1. auto.
Qed.

Lemma chain_forallb (P : Op -> bool) stages : forall s,
  Forall (fun stage => forall s, forallb P (stage s) = true) stages ->
  forallb P (chain stages s) = true.
Proof.
  induction stages as [|stage stages IH]; intros s Hall; [reflexivity|].
  inversion Hall as [|? ? Hst Hrest]; subst. cbn [chain].
  rewrite forallb_app, Hst.
  destruct (run_ops (stage s) s) as [[s1 o1]|]; [apply IH; exact Hrest|].
  reflexivity.
Qed.

Lemma pre_ops_before_sos e s : forallb before_sos (pre_ops e s) = true.
Proof.
  apply chain_forallb. repeat constructor; intros s0.
  - unfold schedule_ops, when. destruct (_ >=? _); reflexivity.
  - unfold memory_ops, when. destruct (fst _); reflexivity.
  - unfold med_ops, when. destruct (fst _); reflexivity.
  - unfold exercise_ops, when. destruct (fst _); reflexivity.
Qed.

Lemma loop_after_pre e s :
  loop e s =
  run_ops (pre_ops e s) s >>> sos_stage e >>> idle_stage e
  >>> (fun s => Some (s, [Delay 20])).
Proof.
  unfold loop, pre_ops.
  rewrite !and_then_assoc, run_chain.
  unfold rfid_ops at 1. rewrite run_ops_one. cbn [exec].
  rewrite !and_then_assoc.
  apply and_then_ext. intros s1.
  rewrite run_chain, run_schedule_ops, !and_then_assoc.
  apply and_then_ext. intros s2.
  rewrite run_chain, run_memory_ops, !and_then_assoc.
  apply and_then_ext. intros s3.
  rewrite run_chain, run_med_ops, !and_then_assoc.
  apply and_then_ext. intros s4.
  rewrite run_chain, run_exercise_ops. cbn [chain run_ops].
  rewrite and_then_assoc.
  apply and_then_ext. intros s5. rewrite ret_and_then. reflexivity.
Qed.

Lemma exits_at_sos polls : forall t0 k p,
  polls !! k = Some p -> is_low (sp_sos p) = true ->
  exits_at t0 polls k = true.
Proof.
  induction polls as [|q polls IH]; intros t0 [|k] p Hp Hs; simpl in Hp;
    try discriminate; cbn [exits_at].
  - injection Hp as ->. rewrite Hs. apply orb_true_r.
  - eapply IH; eauto.
Qed.

Lemma sos_stage_banner e s s' o :
  sos_stage e s = Some (s', o) -> has_banner o = sos_accepts (le_sos e) s.
Proof.
  intros H. destruct (sos_stage_cases e s) as [[Ha Hs]|[Ha Hs]];
    rewrite Hs in H; rewrite Ha.
  - destruct (sosFlow _) as [o'|] eqn:Hf; [|discriminate].
    injection H as <- <-.
    destruct (sosFlow_screen _ _ Hf) as [rest ->]. reflexivity.
  - injection H as <- <-. reflexivity.
Qed.

Lemma idle_stage_banner e s s' o :
  idle_stage e s = Some (s', o) -> has_banner o = false.
Proof.
  unfold idle_stage. destruct (_ >? _); intros [= <- <-]; reflexivity.
Qed.

(** ** Pending entries persist; one acknowledgment stamp per day *)

(** C2. From every reachable state and for every entry of the medication
    table: (1) along any sequence of operations of the firmware that
    contains no run of the acknowledgment handler (any number of scheduler
    cycles, button polls, tag sessions, exercise, SOS and idle refreshes), an
    entry that is pending stays pending, with its stamp untouched, so only
    the acknowledgment handler clears it; (2) along any sequence of
    operations whose clock readings never go back to an earlier calendar
    day, the days on which the acknowledgment handler stamps the entry are
    strictly increasing: no day occurs twice, and a second stamp takes the
    entry becoming pending again on a later day; (3) a run of the handler
    stamps the entry exactly when the entry is the lowest pending one, and
    leaves it untouched otherwise. *)
Theorem pending_until_acknowledged_one_stamp_per_day
  (s : State) (i : nat) (ops : list Op) :
  reachable s ->
  (forall s' out m,
      run_ops ops s = Some (s', out) ->
      forallb (fun op => negb (is_confirm op)) ops = true ->
      meds s !! i = Some m -> MedItem.pending m = true ->
      meds s' !! i = Some m)
  /\
  (forall lb, chrono lb ops ->
      StronglySorted DateTime.date_lt (stamps i ops s) /\
      NoDup (stamps i ops s))
  /\
  (forall now rnd,
      (first_pending (meds s) i ->
       stamps i [OpConfirm now rnd] s = [DateTime.date now] /\
       exists m, meds (fst (confirmFirstPendingMed now rnd s)) !! i = Some m /\
                 MedItem.lastAckYMD m = ymdNow now) /\
      (~ first_pending (meds s) i ->
       stamps i [OpConfirm now rnd] s = [] /\
       meds (fst (confirmFirstPendingMed now rnd s)) !! i = meds s !! i)).
Proof.
  intros Hr. apply reachable_well_sized in Hr. split; [|split].
  - intros s' out m Hrun Hnc Hm Hp. eapply run_keeps_pending; eauto.
  - intros lb Hch.
    pose proof (stamps_sorted i ops s lb Hr Hch) as Hs.
    split; [exact Hs|apply sorted_lt_NoDup; exact Hs].
  - intros now rnd. cbn [stamps stamp_here exec].
    destruct (confirmFirstPendingMed now rnd s) as [s1 o1] eqn:Hc.
    rewrite app_nil_r.
    replace s1 with (fst (confirmFirstPendingMed now rnd s))
      by (rewrite Hc; reflexivity).
    clear Hc. split.
    + intros Hf. rewrite (scan_first_pending _ _ Hf), Z.eqb_refl.
      split; [reflexivity|].
      destruct Hf as [(m & Hm & Hp) Hlt].
      assert (Hf : first_pending (meds s) i)
        by (split; [exists m; auto|exact Hlt]).
      rewrite (confirm_pending _ _ _ _ _ Hf Hm). cbn [fst meds set_meds].
      exists (acknowledge (ymdNow now) m). split; [|reflexivity].
      apply list_lookup_insert_eq. eapply lookup_lt_Some; eauto.
    + intros Hnf.
      destruct (Z.eqb_spec (scan_first MedItem.pending 0 (meds s))
                  (Z.of_nat i)) as [Hs|Hs].
      * exfalso. apply Hnf, scan_first_at. exact Hs.
      * split; [reflexivity|]. apply confirm_other. exact Hs.
Qed.

Lemma pending_until_acknowledged_one_stamp_per_day_witness :
  let ops :=
    [OpSchedule 5000 (morning 5); OpSchedule 10000 (morning 10);
     OpConfirm (morning 20) 2; OpSchedule 15000 (morning 30);
     OpConfirm (morning 40) 1] in
  stamps 0 ops booted = [(2025, 8, 29)] /\
  NoDup (stamps 0 ops booted).
Proof.
  assert (Hb : reachable booted) by reach_booted.
  intros ops. split; [vm_compute; reflexivity|].
  destruct (pending_until_acknowledged_one_stamp_per_day booted 0 ops
              Hb) as (_ & H & _).
  apply (H (2025, 8, 29)). vm_compute. intuition.
Defined.

(** ** Hourly hydration nudge *)

(** C5. A scheduler cycle shows the hydration nudge exactly when the
    clock's minute is 0 and the hydration marker differs from the clock's
    hour; the marker then holds that hour, and is left alone otherwise.
    Hence, along any sequence of operations whose scheduler cycles all read
    the same hour (in particular several cycles within minute 0), the nudge
    fires at most once.  The nudge does not depend on the medication table:
    when an entry is due in the same cycle, the cycle shows the nudge
    followed by the MED DUE prompt of a pending entry. *)
Theorem hydration_nudge_once_per_hour
  (now : DateTime.t) (s : State) (h : Z) (ops : list Op) :
  well_sized s ->
  let r := checkMedicinesAuto now s in
  (nudge_shown (snd r) <-> hydration_due now s = true) /\
  (hydration_due now s = true <->
   DateTime.minute now = 0 /\ lastHydrationHour s <> DateTime.hour now) /\
  lastHydrationHour (fst r) =
    (if hydration_due now s then DateTime.hour now else lastHydrationHour s) /\
  (same_hour h ops -> (nudges ops s <= 1)%nat) /\
  (hydration_due now s = true ->
   forall i m, meds s !! i = Some m -> due_now now m ->
   exists mk, MedItem.pending mk = true /\
     snd r = hydration_nudge ++ med_due_prompt mk).
Proof.
  intros (_ & _ & Hlen) r. subst r.
  split; [|split; [|split; [|split]]].
  - rewrite check_out. split.
    + intros [rest Hrest]. destruct (hydration_due now s); [reflexivity|].
      exfalso. cbn zeta in Hrest.
      apply (f_equal (fun l => nth_error l 2)) in Hrest.
      destruct (_ >=? 0); discriminate Hrest.
    + intros ->. eexists. reflexivity.
  - apply hydration_due_iff.
  - apply check_marker.
  - apply nudges_at_most_once.
  - intros Hd i m Hm Hdue. rewrite check_out, Hd. cbn zeta.
    rewrite due_check_map by exact Hlen.
    set (ms := due_one now (ymdNow now) <$> meds s).
    assert (Hi : ms !! i = Some (due_one now (ymdNow now) m))
      by (subst ms; rewrite list_lookup_fmap, Hm; reflexivity).
    assert (Hpi : MedItem.pending (due_one now (ymdNow now) m) = true)
      by (apply due_one_marked; exact Hdue).
    assert (Hne : scan_first MedItem.pending 0 ms <> -1).
    { intros Hs.
      pose proof (scan_first_none _ _ _ Hs ltac:(lia) _ _ Hi). congruence. }
    destruct (scan_first_found _ _ _ Hne ltac:(lia))
      as (k & mk & Hk & Hmk & Hpk & _).
    rewrite Hk. destruct (Z.geb_spec (0 + Z.of_nat k) 0); [|lia].
    exists mk. split; [exact Hpk|].
    rewrite Z.add_0_l, (med_at_lookup _ _ _ Hmk). reflexivity.
Qed.

Lemma hydration_nudge_once_per_hour_witness :
  (nudges [OpSchedule 5000 (morning 5); OpSchedule 10000 (morning 10);
           OpSchedule 15000 (morning 15)] booted <= 1)%nat /\
  exists mk, MedItem.pending mk = true /\
    snd (checkMedicinesAuto (morning 5) booted)
    = hydration_nudge ++ med_due_prompt mk.
Proof.
  destruct (hydration_nudge_once_per_hour (morning 5) booted 8
              [OpSchedule 5000 (morning 5); OpSchedule 10000 (morning 10);
               OpSchedule 15000 (morning 15)])
    as (_ & _ & _ & Honce & Hboth).
  - repeat split.
  - split.
    + apply Honce. repeat constructor.
    + apply (Hboth eq_refl 0%nat (MedItem.mk "BP Tablet" 8 0 false 0)).
      * reflexivity.
      * repeat split. vm_compute. discriminate.
Defined.

(** ** Debounced button poll *)

(** C4. For the buttons 0 (memory), 1 (medicine) and 2 (exercise):
    [readBtnOnce] returns true exactly when the line reads LOW and the
    32-bit difference between [millis()] and the button's debounce cell
    exceeds 200; then it stores [millis()] in that cell and in the idle
    timer, touches nothing else, and emits one short beep, and the accepted
    instant is more than 200 ms after the one recorded in the cell;
    otherwise it returns false with the state unchanged and no event.
    Along any sequence of operations, successive accepted presses of the
    button are therefore more than 200 ms apart. *)
Theorem debounced_button_poll
  (e : Env) (pin : Z) (idx : nat) (s : State) (ops : list Op) :
  (idx <= 2)%nat ->
  well_sized s ->
  let hit := fst (fst (readBtnOnce e pin idx s)) in
  let s' := snd (fst (readBtnOnce e pin idx s)) in
  let out := snd (readBtnOnce e pin idx s) in
  (hit = true <->
   digitalRead e pin = LOW /\ DEBOUNCE_MS < u32 (millis e - cell idx s)) /\
  (hit = true ->
   s' = set_lastActivity (millis e)
          (set_lastDebounceTime (<[idx := millis e]> (lastDebounceTime s)) s) /\
   cell idx s' = millis e /\
   (forall j, j <> idx -> cell j s' = cell j s) /\
   lastActivity s' = millis e /\
   out = shortBeep /\
   separated (cell idx s) (millis e)) /\
  (hit = false -> s' = s /\ out = []) /\
  spaced (cell idx s) (accepted idx ops s).
Proof.
  intros Hidx (Hlen & _) hit s' out. subst hit s' out.
  split; [|split; [|split]].
  - destruct (readBtnOnce_cases e pin idx s) as [[Hc ->]|[Hc ->]]; cbn [fst].
    + apply andb_prop in Hc as [Hl Hg]. split; [intros _|reflexivity].
      split; [destruct (digitalRead e pin); [reflexivity|discriminate]|lia].
    + split; [discriminate|]. intros [Hl Hg]. rewrite Hl in Hc. simpl in Hc.
      lia.
  - destruct (readBtnOnce_cases e pin idx s) as [[Hc ->]|[Hc ->]];
      cbn [fst snd]; [intros _|discriminate].
    apply andb_prop in Hc as [_ Hg].
    split; [reflexivity|]. split.
    { unfold cell. cbn [lastDebounceTime set_lastActivity set_lastDebounceTime].
      rewrite list_lookup_insert_eq by lia. reflexivity. }
    split.
    { intros j Hj. unfold cell.
      cbn [lastDebounceTime set_lastActivity set_lastDebounceTime].
      rewrite list_lookup_insert_ne by congruence. reflexivity. }
    split; [reflexivity|]. split; [reflexivity|].
    apply gap_separated. exact Hg.
  - destruct (readBtnOnce_cases e pin idx s) as [[Hc ->]|[Hc ->]];
      cbn [fst snd]; [discriminate|auto].
  - apply accepted_spaced; assumption.
Qed.

Lemma debounced_button_poll_witness :
  accepted 1
    [OpButton (pressed BTN_MED_PIN 5000) BTN_MED_PIN 1;
     OpButton (pressed BTN_MED_PIN 5100) BTN_MED_PIN 1;
     OpButton (pressed BTN_MED_PIN 5300) BTN_MED_PIN 1] booted
  = [5000; 5300] /\
  spaced 0
    (accepted 1
       [OpButton (pressed BTN_MED_PIN 5000) BTN_MED_PIN 1;
        OpButton (pressed BTN_MED_PIN 5100) BTN_MED_PIN 1;
        OpButton (pressed BTN_MED_PIN 5300) BTN_MED_PIN 1] booted).
Proof.
  split; [vm_compute; reflexivity|].
  apply (debounced_button_poll (pressed BTN_MED_PIN 5000) BTN_MED_PIN 1 booted
           [OpButton (pressed BTN_MED_PIN 5000) BTN_MED_PIN 1;
            OpButton (pressed BTN_MED_PIN 5100) BTN_MED_PIN 1;
            OpButton (pressed BTN_MED_PIN 5300) BTN_MED_PIN 1]).
  - lia.
  - repeat split.
Defined.

(** ** Tag lookup *)

(** C6. For every token the reader delivers in a reachable state (with
    a valid clock reading): a table entry matches the token exactly when
    their hex identities are equal up to letter case, which requires equal
    length; if an entry matches, the lookup selects it, its last-seen field
    becomes the current clock time "HH:MM:SS", no other entry changes, and
    the screen shows "Found: " with its name; if the token differs from
    every entry, the table is unchanged and the screen shows "Unknown Tag"
    with the token's hex text.  Nothing but the table is written. *)
Theorem tag_lookup
  (e : RfidEnv) (s s' : State) (out : list Out) (bytes : list Z) :
  reachable s ->
  DateTime.valid (rf_now e) ->
  card_read (rf_first e) = Some bytes ->
  handleRFID_Auto e s = Some (s', out) ->
  let uid := uidToHex bytes in
  (forall i k, knownItems s !! i = Some k ->
     (uid_matches uid k = true <-> lower uid = lower (KnownItem.uidHex k)) /\
     (uid_matches uid k = true ->
      String.length uid = String.length (KnownItem.uidHex k))) /\
  (forall i k, knownItems s !! i = Some k ->
     lower uid = lower (KnownItem.uidHex k) ->
     knownItems s' =
       <[i := KnownItem.set_lastScanned (timeToStr (rf_now e)) k]>
         (knownItems s) /\
     exists waits,
       out = found_screen (KnownItem.name k) (timeToStr (rf_now e))
             ++ session_events waits) /\
  ((forall i k, knownItems s !! i = Some k ->
      lower uid <> lower (KnownItem.uidHex k)) ->
   knownItems s' = knownItems s /\
   exists waits, out = unknown_screen uid ++ session_events waits) /\
  s' = set_knownItems (knownItems s') s.
Proof.
  intros Hr Hv Hc H uid.
  pose proof (reachable_static_known s Hr) as Hst.
  assert (Hmatch : forall i k, knownItems s !! i = Some k ->
            (uid_matches uid k = true <-> lower uid = lower (KnownItem.uidHex k))).
  { intros i k Hk. unfold uid_matches. rewrite Z.eqb_eq.
    apply strcasecmp_zero; [apply uidToHex_nul_free|].
    apply (static_known_lookup _ _ _ Hst Hk). }
  split; [|split; [|split]].
  - intros i k Hk. split; [exact (Hmatch i k Hk)|].
    intros Hm. apply (Hmatch i k Hk) in Hm.
    rewrite <- (length_lower uid), Hm. apply length_lower.
  - intros i k Hk Hl.
    assert (Hs : scan_first (uid_matches uid) 0 (knownItems s) = Z.of_nat i).
    { assert (Hne : scan_first (uid_matches uid) 0 (knownItems s) <> -1).
      { intros Hs.
        pose proof (scan_first_none _ _ _ Hs ltac:(lia) _ _ Hk) as Hf.
        apply (Hmatch i k Hk) in Hl. congruence. }
      destruct (scan_first_found _ _ _ Hne ltac:(lia))
        as (k0 & x & Hk0 & Hx & Hpx & _).
      apply (Hmatch k0 x Hx) in Hpx.
      destruct (static_known_lookup _ _ _ Hst Hk) as [_ Huniq].
      rewrite (Huniq k0 x Hx) in Hk0 by congruence. lia. }
    rewrite (handle_found e s bytes i k Hc Hs Hk) in H.
    rewrite (snprintf_time _ Hv) in H.
    destruct (session_loop _ _) as [waits|]; [|discriminate].
    injection H as <- <-. split; [reflexivity|]. exists waits. reflexivity.
  - intros Hnone.
    assert (Hs : scan_first (uid_matches uid) 0 (knownItems s) = -1).
    { destruct (Z.eq_dec (scan_first (uid_matches uid) 0 (knownItems s)) (-1))
        as [|Hne]; [assumption|].
      destruct (scan_first_found _ _ _ Hne ltac:(lia))
        as (k0 & x & _ & Hx & Hpx & _).
      apply (Hmatch k0 x Hx) in Hpx. exfalso. exact (Hnone k0 x Hx Hpx). }
    rewrite (handle_unknown e s bytes Hc Hs) in H.
    destruct (session_loop _ _) as [waits|]; [|discriminate].
    injection H as <- <-. split; [reflexivity|]. exists waits. reflexivity.
  - unfold handleRFID_Auto in H. rewrite Hc in H.
    destruct (session_loop _ _); [|discriminate].
    injection H as <- _. reflexivity.
Qed.

Lemma tag_lookup_witness :
  exists s' waits,
    handleRFID_Auto keys_session booted = Some
      (s', found_screen "Keys" "08:00:05" ++ session_events waits) /\
    knownItems s' =
      [KnownItem.mk "6C433E06" "Keys" "08:00:05";
       KnownItem.mk "05F7A904" "Medicine Box" "00:00:00";
       KnownItem.mk "26B0A304" "Glasses" "00:00:00"].
Proof.
  assert (Hb : reachable booted) by reach_booted.
  destruct (handleRFID_Auto keys_session booted) as [[s' out]|] eqn:Hh;
    [|vm_compute in Hh; discriminate Hh].
  destruct (tag_lookup keys_session booted s' out [108; 67; 62; 6]
              Hb) as (_ & Hfound & _).
  - unfold DateTime.valid. simpl. lia.
  - reflexivity.
  - exact Hh.
  - destruct (Hfound 0%nat (KnownItem.mk "6C433E06" "Keys" "00:00:00")
                eq_refl eq_refl) as (Hitems & waits & Hout).
    exists s', waits. split.
    + rewrite Hout. reflexivity.
    + rewrite Hitems. reflexivity.
Defined.

(** ** Tag session *)

(** C7. Once a tag has opened a session, the handler shows one screen,
    drives the buzzer HIGH and enters the presence loop.  Each iteration
    polls the reader and, on a successful read, resets the last-seen time to
    the current [millis()].  The handler returns exactly when some iteration
    meets the exit test (more than 300 ms since the last successful read, or
    the SOS line LOW), and it leaves at the first such iteration [k]: between
    the buzzer going HIGH and going LOW there are only the [k] waits of
    20 ms (no buzzer write, so the tone is continuous), and after the loop
    come buzzer LOW, HaltA, StopCrypto1 and the menu.  While no iteration
    meets the exit test the handler is still in the loop. *)
Theorem tag_session_runs_until_absent_or_sos
  (e : RfidEnv) (s : State) (bytes : list Z) :
  card_read (rf_first e) = Some bytes ->
  (forall lastSeen p,
     (forall u, card_read (sp_card p) = Some u ->
                refresh lastSeen p = sp_seen p) /\
     (card_read (sp_card p) = None -> refresh lastSeen p = lastSeen) /\
     (timed_out lastSeen p = true <-> 300 < u32 (sp_now p - lastSeen))) /\
  (forall s' out,
     handleRFID_Auto e s = Some (s', out) ->
     exists k screen,
       first_exit (rf_t0 e) (rf_polls e) k /\
       Forall is_lcd screen /\
       out = screen ++ [DigitalWrite BUZZER_PIN HIGH]
             ++ replicate k (Delay 20)
             ++ [DigitalWrite BUZZER_PIN LOW; RfidHaltA; RfidStopCrypto1]
             ++ lcdMenu) /\
  (forall k, first_exit (rf_t0 e) (rf_polls e) k ->
     exists s' out, handleRFID_Auto e s = Some (s', out)) /\
  ((forall k, exits_at (rf_t0 e) (rf_polls e) k = false) ->
   handleRFID_Auto e s = None).
Proof.
  intros Hc.
  destruct (handle_session e s bytes Hc) as (screen & items & Hlcd & Hh).
  pose proof (session_loop_spec (rf_polls e) (rf_t0 e)) as Hspec.
  split; [|split; [|split]].
  - intros lastSeen p. unfold refresh, timed_out. repeat split.
    + intros u ->. reflexivity.
    + intros ->. reflexivity.
    + lia.
    + lia.
  - intros s' out H. rewrite Hh in H.
    destruct (session_loop _ _) as [waits|]; [|discriminate].
    destruct Hspec as (k & -> & Hk). injection H as <- <-.
    exists k, screen. repeat split; [apply Hk|apply Hk|exact Hlcd].
  - intros k [Hk _]. rewrite Hh.
    destruct (session_loop _ _) as [waits|]; [eauto|].
    rewrite Hspec in Hk. discriminate.
  - intros Hnone. rewrite Hh.
    destruct (session_loop _ _) as [waits|]; [|reflexivity].
    destruct Hspec as (k & _ & [Hk _]). rewrite Hnone in Hk. discriminate.
Qed.

Lemma tag_session_runs_until_absent_or_sos_witness :
  exists s' screen,
    handleRFID_Auto keys_session booted = Some
      (s', screen ++ [DigitalWrite BUZZER_PIN HIGH]
           ++ replicate 2 (Delay 20)
           ++ [DigitalWrite BUZZER_PIN LOW; RfidHaltA; RfidStopCrypto1]
           ++ lcdMenu).
Proof.
  destruct (tag_session_runs_until_absent_or_sos keys_session booted
              [108; 67; 62; 6] eq_refl) as (_ & Hret & Hexit & _).
  destruct (Hexit 2%nat) as (s' & out & Hh).
  { split; [reflexivity|].
    intros [|[|j]] Hj; [reflexivity|reflexivity|lia]. }
  destruct (Hret s' out Hh) as (k & screen & Hk & _ & Hout).
  assert (k = 2%nat) as ->.
  { apply (first_exit_unique (rf_t0 keys_session) (rf_polls keys_session));
      [exact Hk|].
    split; [reflexivity|].
    intros [|[|j]] Hj; [reflexivity|reflexivity|lia]. }
  exists s', screen. rewrite Hh, Hout. reflexivity.
Defined.

(** ** SOS pressed during a tag session *)

(** C9. In every reachable state: (1) if the SOS line reads LOW at an
    iteration of the presence loop that no earlier exit preceded, the
    handler returns after that iteration (buzzer LOW, reader halted, menu
    redrawn), whatever the SOS debounce cell holds, and leaves the debounce
    cells and the idle timer as they were; (2) the events of the tag-session
    handler never contain the SOS alert banner, so the SOS flow does not
    run inside it; (3) in an iteration of [loop] that returns, the SOS
    banner is shown exactly when, at the inline SOS test of that iteration,
    the SOS line reads LOW and the debounce window of cell 3 (unchanged
    since the start of the iteration) has elapsed. *)
Theorem sos_in_session_only_ends_session (e : LoopEnv) (s : State) :
  reachable s ->
  (forall bytes k p,
     card_read (rf_first (le_rfid e)) = Some bytes ->
     rf_polls (le_rfid e) !! k = Some p ->
     is_low (sp_sos p) = true ->
     (forall j, (j < k)%nat ->
                exits_at (rf_t0 (le_rfid e)) (rf_polls (le_rfid e)) j = false) ->
     exists s1 screen,
       handleRFID_Auto (le_rfid e) s =
         Some (s1, screen ++ session_events (replicate k (Delay 20))) /\
       Forall is_lcd screen /\
       lastDebounceTime s1 = lastDebounceTime s /\
       lastActivity s1 = lastActivity s) /\
  (forall s1 o1,
     handleRFID_Auto (le_rfid e) s = Some (s1, o1) -> has_banner o1 = false) /\
  (forall s' out,
     loop e s = Some (s', out) ->
     (has_banner out = true <->
      digitalRead (le_sos e) BTN_SOS_PIN = LOW /\
      DEBOUNCE_MS < u32 (millis (le_sos e) - cell 3 s))).
Proof.
  intros Hr. pose proof (reachable_tables_ok s Hr) as Hok.
  split; [|split].
  - intros bytes k p Hc Hp Hs Hfirst.
    destruct (handle_session (le_rfid e) s bytes Hc)
      as (screen & items & Hlcd & Hh).
    pose proof (session_loop_spec (rf_polls (le_rfid e)) (rf_t0 (le_rfid e)))
      as Hspec.
    destruct (session_loop _ _) as [waits|].
    + destruct Hspec as (k' & -> & Hk').
      assert (k' = k) as ->.
      { eapply first_exit_unique; [exact Hk'|].
        split; [eapply exits_at_sos; eauto|exact Hfirst]. }
      exists (set_knownItems items s), screen. rewrite Hh. auto.
    + specialize (Hspec k).
      rewrite (exits_at_sos _ _ _ _ Hp Hs) in Hspec. discriminate Hspec.
  - intros s1 o1 H. eapply handle_no_banner; [apply Hok|exact H].
  - intros s' out H. rewrite loop_after_pre in H.
    destruct (run_ops (pre_ops e s) s) as [[s5 o5]|] eqn:Hpre;
      [|discriminate].
    destruct (run_before_sos _ _ _ _ Hok (pre_ops_before_sos e s) Hpre)
      as (Hn5 & _ & Hcell).
    cbn [and_then] in H.
    destruct (sos_stage e s5) as [[s6 o6]|] eqn:Hsos; [|discriminate].
    cbn [and_then] in H.
    destruct (idle_stage e s6) as [[s7 o7]|] eqn:Hidle; [|discriminate].
    cbn [and_then] in H. injection H as <- <-.
    rewrite !has_banner_app, Hn5, (sos_stage_banner _ _ _ _ Hsos),
      (idle_stage_banner _ _ _ _ Hidle).
    cbn [has_banner existsb is_banner orb]. rewrite !orb_false_r.
    unfold sos_accepts, cell. rewrite Hcell.
    destruct (digitalRead (le_sos e) BTN_SOS_PIN); cbn [is_low andb].
    + split; [intros Hg; split; [reflexivity|lia]|intros [_ Hg]; lia].
    + split; [discriminate|intros [Hd _]; discriminate].
Qed.

Lemma sos_in_session_only_ends_session_witness :
  (exists s1 screen,
     handleRFID_Auto (le_rfid sos_in_session) booted =
       Some (s1, screen ++ session_events (replicate 1 (Delay 20))) /\
     lastDebounceTime s1 = lastDebounceTime booted) /\
  (exists s' out,
     loop sos_in_session booted = Some (s', out) /\ has_banner out = true).
Proof.
  assert (Hb : reachable booted) by reach_booted.
  destruct (sos_in_session_only_ends_session sos_in_session booted
              Hb) as (Hsess & _ & Hloop).
  split.
  - destruct (Hsess [108; 67; 62; 6] 1%nat (mkSessionPoll no_tag 0 2052 LOW)
                eq_refl eq_refl eq_refl) as (s1 & screen & Hh & _ & Hc & _).
    + intros [|j] Hj; [reflexivity|lia].
    + exists s1, screen. split; assumption.
  - destruct (loop sos_in_session booted) as [[s' out]|] eqn:Hl;
      [|vm_compute in Hl; discriminate Hl].
    exists s', out. split; [reflexivity|].
    apply (Hloop s' out eq_refl). split; reflexivity.
Defined.

(** ** SOS press accepted by the main loop *)

(** C10. The stage of [loop] that follows the three button stages tests
    the SOS line inline.  When it accepts a press (line LOW, debounce window
    of cell 3 elapsed) and the SOS flow returns, the only variable written
    is debounce cell 3: the idle timer and everything else are as before,
    and the events of the stage are exactly those of the SOS flow, which
    start with the alert screen and not with a beep.  An accepted press of
    one of the other buttons, in contrast, sets the idle timer and emits the
    short beep.  The idle test that follows the SOS flow therefore still
    measures from the activity recorded before the SOS press. *)
Theorem sos_press_keeps_idle_timer
  (e : LoopEnv) (s s' : State) (out : list Out) :
  sos_accepts (le_sos e) s = true ->
  sos_stage e s = Some (s', out) ->
  (forall s0,
     loop e s0 =
     handleRFID_Auto (le_rfid e) s0 >>> schedule_stage e >>> memory_stage e
     >>> med_stage e >>> exercise_stage e >>> sos_stage e >>> idle_stage e
     >>> (fun s => Some (s, [Delay 20]))) /\
  s' = set_lastDebounceTime
         (<[3%nat := millis (le_sos e)]> (lastDebounceTime s)) s /\
  lastActivity s' = lastActivity s /\
  sosFlow (le_sos_flow e) = Some out /\
  (exists rest, out = sos_alert_screen ++ rest) /\
  (forall b pin idx,
     fst (fst (readBtnOnce b pin idx s)) = true ->
     lastActivity (snd (fst (readBtnOnce b pin idx s))) = millis b /\
     snd (readBtnOnce b pin idx s) = shortBeep) /\
  idle_stage e s' =
    (if u32 (le_idle_guard e - lastActivity s) >? IDLE_MENU_MS
     then Some (set_lastActivity (le_idle_stamp e) s', lcdMenu)
     else Some (s', [])).
Proof.
  intros Hacc H.
  destruct (sos_stage_cases e s) as [[_ Hs]|[Hs _]]; [|congruence].
  rewrite Hs in H.
  destruct (sosFlow (le_sos_flow e)) as [o|] eqn:Hflow; [|discriminate].
  injection H as <- <-.
  split; [reflexivity|]. split; [reflexivity|]. split; [reflexivity|].
  split; [reflexivity|]. split; [eapply sosFlow_screen; eauto|]. split.
  - intros b pin idx Hhit.
    destruct (readBtnOnce_cases b pin idx s) as [[_ Hr]|[_ Hr]];
      rewrite Hr in *; [split; reflexivity|discriminate].
  - reflexivity.
Qed.

Lemma sos_press_keeps_idle_timer_witness :
  let e :=
    mkLoopEnv (mkRfidEnv no_tag (morning 0) 0 []) 9000 9000 (morning 0)
      (pressed BTN_SOS_PIN 9000) (pressed BTN_SOS_PIN 9000) (morning 0) 0
      (pressed BTN_SOS_PIN 9000) (pressed BTN_SOS_PIN 9000) sos_pulses
      17600 17600 in
  exists s' out,
    sos_stage e booted = Some (s', out) /\
    lastDebounceTime s' = [0; 0; 0; 9000] /\
    lastActivity s' = lastActivity booted /\
    idle_stage e s' = Some (set_lastActivity 17600 s', lcdMenu).
Proof.
  intros e.
  destruct (sos_stage e booted) as [[s' out]|] eqn:Hs;
    [|vm_compute in Hs; discriminate Hs].
  destruct (sos_press_keeps_idle_timer e booted s' out eq_refl Hs)
    as (_ & Hs' & Hact & _ & _ & _ & Hidle).
  exists s', out. split; [reflexivity|]. split; [rewrite Hs'; reflexivity|].
  split; [exact Hact|]. rewrite Hidle. reflexivity.
Defined.

(** ** The date code on the 16-bit target *)

(** X1. [ymdNow] yields an [int]: the number YYYYMMDD reduced modulo 2^16
    into the range of a 16-bit signed integer.  It depends on the calendar
    day only but is not the number YYYYMMDD; two days whose numbers differ
    by less than 2^16 (about six and a half years) still get different
    codes.  For 2025-06-24 the code is 0, the value [lastAckYMD] has after
    power-on: a scheduler cycle at 08:00 of that day, in the state [setup]
    leaves, marks no entry pending. *)
Theorem date_code_is_16_bit :
  (forall t, -32768 <= ymdNow t < 32768) /\
  (forall t,
     ymdNow t =
     i16 (DateTime.year t * 10000 + DateTime.month t * 100 + DateTime.day t)) /\
  (forall t1 t2,
     let n1 := DateTime.year t1 * 10000 + DateTime.month t1 * 100
               + DateTime.day t1 in
     let n2 := DateTime.year t2 * 10000 + DateTime.month t2 * 100
               + DateTime.day t2 in
     -65536 < n1 - n2 < 65536 -> ymdNow t1 = ymdNow t2 -> n1 = n2) /\
  ymdNow (morning 0) = 205 /\
  ymdNow (DateTime.mk 2025 6 24 8 0 5) = 0 /\
  meds (fst (checkMedicinesAuto (DateTime.mk 2025 6 24 8 0 5) booted))
  = meds booted.
Proof.
  assert (Hu : forall a b, u16 (u16 a + b) = u16 (a + b))
    by (intros; unfold u16; apply Zplus_mod_idemp_l).
  assert (Hi : forall a, i16 (u16 a) = i16 a)
    by (intros; unfold i16, u16; rewrite Z.mod_mod by lia; reflexivity).
  assert (Hy : forall t,
     ymdNow t =
     i16 (DateTime.year t * 10000 + DateTime.month t * 100 + DateTime.day t)).
  { intros t. unfold ymdNow.
    rewrite Hu, <- Z.add_assoc, Hu, Z.add_assoc, Hi. reflexivity. }
  split; [|split; [exact Hy|split; [|split; [|split]]]].
  - intros t. rewrite Hy. unfold i16, u16.
    change (2 ^ 16) with 65536. change (2 ^ 15) with 32768.
    pose proof (Z.mod_pos_bound
      (DateTime.year t * 10000 + DateTime.month t * 100 + DateTime.day t)
      65536 ltac:(lia)) as Hb.
    cbv zeta. destruct (_ <? 32768) eqn:Hlt; lia.
  - intros t1 t2 n1 n2 Hclose Heq. rewrite !Hy in Heq.
    fold n1 n2 in Heq. unfold i16, u16 in Heq.
    change (2 ^ 16) with 65536 in Heq. change (2 ^ 15) with 32768 in Heq.
    cbv zeta in Heq.
    pose proof (Z.div_mod n1 65536 ltac:(lia)) as H1.
    pose proof (Z.div_mod n2 65536 ltac:(lia)) as H2.
    pose proof (Z.mod_pos_bound n1 65536 ltac:(lia)) as B1.
    pose proof (Z.mod_pos_bound n2 65536 ltac:(lia)) as B2.
    destruct (n1 mod 65536 <? 32768) eqn:L1;
      destruct (n2 mod 65536 <? 32768) eqn:L2; lia.
  - vm_compute. reflexivity.
  - vm_compute. reflexivity.
  - vm_compute. reflexivity.
Qed.

(** * Further properties of the sketch *)

(** ** Hex text of a UID *)

Lemma hex_digit_split b :
  Z.land (Z.shiftr b 4) 15 * 16 + Z.land b 15 = u8 b.
Proof.
  change 15 with (Z.ones 4). rewrite !Z.land_ones by lia.
  rewrite Z.shiftr_div_pow2 by lia. unfold u8.
  change (2 ^ 4) with 16. change (2 ^ 8) with 256.
  pose proof (Z.div_mod b 16 ltac:(lia)) as H1.
  pose proof (Z.div_mod (b / 16) 16 ltac:(lia)) as H2.
  pose proof (Z.mod_pos_bound b 16 ltac:(lia)) as B1.
  pose proof (Z.mod_pos_bound (b / 16) 16 ltac:(lia)) as B2.
  apply (Z.mod_unique_pos _ _ ((b / 16) / 16)); lia.
Qed.

Lemma hex_char_table :
  forallb (fun k =>
             let v := Z.of_nat k in
             match hex_val (hex_char v), hex_val (tolower (hex_char v)) with
             | Some x, Some y =>
                 (x =? v) && (y =? v) && is_upper_hex (hex_char v)
             | _, _ => false
             end) (seq 0 16) = true.
Proof. vm_compute. reflexivity. Qed.

Lemma hex_char_facts v :
  0 <= v < 16 ->
  hex_val (hex_char v) = Some v /\
  hex_val (tolower (hex_char v)) = Some v /\
  is_upper_hex (hex_char v) = true.
Proof.
  intros Hv. pose proof hex_char_table as Hall.
  rewrite forallb_forall in Hall.
  specialize (Hall (Z.to_nat v)). cbv zeta in Hall.
  rewrite Z2Nat.id in Hall by lia.
  assert (Hin : In (Z.to_nat v) (seq 0 16)) by (apply in_seq; lia).
  specialize (Hall Hin).
  destruct (hex_val (hex_char v)) as [x|]; [|discriminate].
  destruct (hex_val (tolower (hex_char v))) as [y|]; [|discriminate].
  apply andb_prop in Hall as [Hall Hu]. apply andb_prop in Hall as [Hx Hy].
  apply Z.eqb_eq in Hx, Hy. subst. auto.
Qed.

Lemma hex_decode_uid bytes :
  hex_decode (uidToHex bytes) = Some (u8 <$> bytes) /\
  hex_decode (lower (uidToHex bytes)) = Some (u8 <$> bytes) /\
  string_forall is_upper_hex (uidToHex bytes) = true.
Proof.
  induction bytes as [|b bytes (IH1 & IH2 & IH3)]; [repeat split|].
  destruct (hex_char_facts (Z.land (Z.shiftr b 4) 15) (land_15 _))
    as (Hh1 & Hh2 & Hh3).
  destruct (hex_char_facts (Z.land b 15) (land_15 _)) as (Hl1 & Hl2 & Hl3).
  cbn [uidToHex lower hex_decode string_forall fmap list_fmap].
  rewrite Hh1, Hh2, Hh3, Hl1, Hl2, Hl3, IH1, IH2, IH3, hex_digit_split.
  repeat split.
Qed.

Lemma uidToHex_u8 bytes : uidToHex (u8 <$> bytes) = uidToHex bytes.
Proof.
  induction bytes as [|b bytes IH]; [reflexivity|].
  cbn [uidToHex fmap list_fmap]. fold (u8 <$> bytes). rewrite IH.
  pose proof (hex_digit_split b) as H1.
  pose proof (hex_digit_split (u8 b)) as H2.
  assert (Hu : u8 (u8 b) = u8 b) by (unfold u8; apply Z.mod_mod; lia).
  rewrite Hu in H2.
  pose proof (land_15 (Z.shiftr b 4)). pose proof (land_15 b).
  pose proof (land_15 (Z.shiftr (u8 b) 4)). pose proof (land_15 (u8 b)).
  assert (Z.land (Z.shiftr (u8 b) 4) 15 = Z.land (Z.shiftr b 4) 15) as -> by lia.
  assert (Z.land (u8 b) 15 = Z.land b 15) as -> by lia.
  reflexivity.
Qed.

(** X2. [uidToHex] writes two characters per UID byte, all of them digits
    or uppercase A..F, and the text determines the bytes: reading the hex
    digits back gives the bytes again.  Hence the case-insensitive
    comparison of the lookup finds two tokens equal exactly when their UIDs
    are equal byte for byte: distinct tags are never confused, and neither
    letter case nor length can make a tag match a different one. *)
Theorem uid_hex_text_is_exact (a b : list Z) :
  String.length (uidToHex a) = (2 * length a)%nat /\
  string_forall is_upper_hex (uidToHex a) = true /\
  hex_decode (uidToHex a) = Some (u8 <$> a) /\
  (strcasecmp (uidToHex a) (uidToHex b) = 0 <-> u8 <$> a = u8 <$> b) /\
  (strcasecmp (lower (uidToHex a)) (uidToHex b) = 0 <-> u8 <$> a = u8 <$> b).
Proof.
  destruct (hex_decode_uid a) as (Ha1 & Ha2 & Ha3).
  destruct (hex_decode_uid b) as (Hb1 & Hb2 & Hb3).
  split; [apply uidToHex_length|]. split; [exact Ha3|]. split; [exact Ha1|].
  assert (Hiff : lower (uidToHex a) = lower (uidToHex b) <->
                 u8 <$> a = u8 <$> b).
  { split.
    - intros Hl. rewrite Hl in Ha2. congruence.
    - intros He. rewrite <- (uidToHex_u8 a), <- (uidToHex_u8 b), He.
      reflexivity. }
  split.
  - rewrite <- Hiff.
    apply strcasecmp_zero; apply uidToHex_nul_free.
  - rewrite <- Hiff.
    assert (Hll : forall x, lower (lower x) = lower x /\
                            (nul_free x = true -> nul_free (lower x) = true)).
    { induction x as [|c x [IH1 IH2]]; [split; reflexivity|].
      cbn [lower nul_free]. split.
      - rewrite IH1. f_equal. unfold tolower.
        destruct ((65 <=? N_of_ascii c)%N && (N_of_ascii c <=? 90)%N) eqn:Hc;
          [|rewrite Hc; reflexivity].
        apply andb_prop in Hc as [H1 H2].
        apply N.leb_le in H1, H2.
        rewrite N_ascii_embedding by lia.
        destruct ((65 <=? N_of_ascii c + 32)%N
                  && (N_of_ascii c + 32 <=? 90)%N) eqn:Hd; [|reflexivity].
        apply andb_prop in Hd as [_ Hd]. apply N.leb_le in Hd. lia.
      - intros Hn. apply andb_prop in Hn as [Hc Hn].
        apply negb_true_iff in Hc.
        rewrite (IH2 Hn), andb_true_r. apply negb_true_iff, N.eqb_neq.
        apply tolower_nul. exact Hc. }
    rewrite <- (proj1 (Hll (uidToHex a))) at 2.
    apply strcasecmp_zero; [|apply uidToHex_nul_free].
    apply Hll, uidToHex_nul_free.
Qed.

(** ** The time text *)

Lemma fmt_02d_cases n :
  0 <= n < 256 ->
  (n < 100 /\ exists a b, fmt_0d 2 n = String a (String b EmptyString) /\
                          two_digits a b = Some n) \/
  (100 <= n /\ String.length (fmt_0d 2 n) = 3%nat).
Proof.
  intros Hn.
  assert (Hall :
    forallb (fun k =>
      let z := Z.of_nat k in
      match fmt_0d 2 z with
      | String a (String b EmptyString) =>
          (z <? 100) && match two_digits a b with
                        | Some v => v =? z
                        | None => false
                        end
      | s => (100 <=? z) && (String.length s =? 3)%nat
      end) (seq 0 256) = true) by (vm_compute; reflexivity).
  rewrite forallb_forall in Hall.
  specialize (Hall (Z.to_nat n)). rewrite Z2Nat.id in Hall by lia.
  assert (Hin : In (Z.to_nat n) (seq 0 256)) by (apply in_seq; lia).
  specialize (Hall Hin). cbv zeta in Hall.
  destruct (fmt_0d 2 n) as [|a [|b [|c r]]] eqn:Hf.
  - apply andb_prop in Hall as [_ H]. discriminate H.
  - apply andb_prop in Hall as [_ H]. discriminate H.
  - left. apply andb_prop in Hall as [H1 H2]. apply Z.ltb_lt in H1.
    split; [exact H1|]. exists a, b. split; [reflexivity|].
    destruct (two_digits a b) as [v|]; [|discriminate H2].
    apply Z.eqb_eq in H2. congruence.
  - right. apply andb_prop in Hall as [H1 H2]. apply Z.leb_le in H1.
    apply Nat.eqb_eq in H2. split; [exact H1|exact H2].
Qed.

(** X3. [timeToStr] formats the three [uint8_t] fields of a clock reading
    with [sprintf] into a 9-byte buffer.  The text never has fewer than 8
    characters; it has exactly 8, and so fits the buffer with its
    terminator, exactly when every field is below 100.  In that case the
    text reads back as the same three numbers, and the bounded copy into
    [lastScanned] keeps all of it. *)
Theorem time_text_fits_and_reads_back (t : DateTime.t) :
  0 <= DateTime.hour t < 256 ->
  0 <= DateTime.minute t < 256 ->
  0 <= DateTime.second t < 256 ->
  (8 <= String.length (timeToStr t))%nat /\
  (String.length (timeToStr t) = 8%nat <->
   DateTime.hour t < 100 /\ DateTime.minute t < 100 /\
   DateTime.second t < 100) /\
  (String.length (timeToStr t) = 8%nat ->
   parse_time (timeToStr t)
   = Some (DateTime.hour t, DateTime.minute t, DateTime.second t) /\
   snprintf_s 9 (timeToStr t) = timeToStr t).
Proof.
  intros Hh Hm Hs.
  assert (Hlen : String.length (timeToStr t) =
                 (String.length (fmt_0d 2 (DateTime.hour t))
                  + String.length (fmt_0d 2 (DateTime.minute t))
                  + String.length (fmt_0d 2 (DateTime.second t)) + 2)%nat).
  { unfold timeToStr. rewrite !length_append. simpl String.length. lia. }
  assert (Hgood :
    DateTime.hour t < 100 -> DateTime.minute t < 100 ->
    DateTime.second t < 100 ->
    String.length (timeToStr t) = 8%nat /\
    parse_time (timeToStr t)
    = Some (DateTime.hour t, DateTime.minute t, DateTime.second t)).
  { intros H1 H2 H3.
    destruct (fmt_02d_cases _ Hh) as [(_ & a1 & b1 & E1 & P1)|[? _]]; [|lia].
    destruct (fmt_02d_cases _ Hm) as [(_ & a2 & b2 & E2 & P2)|[? _]]; [|lia].
    destruct (fmt_02d_cases _ Hs) as [(_ & a3 & b3 & E3 & P3)|[? _]]; [|lia].
    unfold timeToStr. rewrite E1, E2, E3.
    split; [reflexivity|].
    cbn [append parse_time]. change (Ascii.eqb ":" ":") with true.
    cbn [andb]. rewrite P1, P2, P3. reflexivity. }
  assert (Hlong :
    (8 <= String.length (timeToStr t))%nat /\
    (String.length (timeToStr t) = 8%nat ->
     DateTime.hour t < 100 /\ DateTime.minute t < 100 /\
     DateTime.second t < 100)).
  { destruct (fmt_02d_cases _ Hh) as [(Lh & a1 & b1 & E1 & _)|[Lh Nh]];
    destruct (fmt_02d_cases _ Hm) as [(Lm & a2 & b2 & E2 & _)|[Lm Nm]];
    destruct (fmt_02d_cases _ Hs) as [(Ls & a3 & b3 & E3 & _)|[Ls Ns]];
    try rewrite E1 in Hlen; try rewrite E2 in Hlen; try rewrite E3 in Hlen;
    try rewrite Nh in Hlen; try rewrite Nm in Hlen; try rewrite Ns in Hlen;
    cbn [String.length] in Hlen; split; intros; lia. }
  destruct Hlong as [H8 Hlt].
  split; [exact H8|]. split.
  - split; [exact Hlt|]. intros (H1 & H2 & H3). apply Hgood; assumption.
  - intros He. destruct (Hlt He) as (H1 & H2 & H3).
    split; [apply Hgood; assumption|].
    unfold snprintf_s. change (9 - 1)%nat with 8%nat. rewrite <- He.
    apply substring_all.
Qed.

Lemma time_text_fits_and_reads_back_witness :
  (8 <= String.length (timeToStr (morning 5)))%nat /\
  (String.length (timeToStr (morning 5)) = 8%nat <->
   DateTime.hour (morning 5) < 100 /\ DateTime.minute (morning 5) < 100 /\
   DateTime.second (morning 5) < 100) /\
  (String.length (timeToStr (morning 5)) = 8%nat ->
   parse_time (timeToStr (morning 5))
   = Some (DateTime.hour (morning 5), DateTime.minute (morning 5),
           DateTime.second (morning 5)) /\
   snprintf_s 9 (timeToStr (morning 5)) = timeToStr (morning 5)).
Proof.
  apply (time_text_fits_and_reads_back (morning 5)); simpl; lia.
Defined.

(** ** Invariants of the reachable states *)

(** Induction over the runs of the firmware: what holds after [setup] and
    is kept by every operation holds in every reachable state. *)
Lemma run_ops_invariant (P : State -> Prop) :
  (forall op s s' o, tables_ok s -> P s -> exec op s = Some (s', o) -> P s') ->
  forall ops s s' o,
    tables_ok s -> P s -> run_ops ops s = Some (s', o) -> P s'.
Proof.
  intros Hstep. induction ops as [|op ops IH]; intros s s' o Ht Hp H;
    simpl in H.
  - injection H as <- <-. exact Hp.
  - destruct (exec op s) as [[s1 o1]|] eqn:He; simpl in H; [|discriminate].
    destruct (run_ops ops s1) as [[s2 o2]|] eqn:Hr; [|discriminate].
    injection H as <- <-.
    eapply IH; [| |exact Hr].
    + eapply exec_tables_ok; eauto.
    + eapply Hstep; eauto.
Qed.

Lemma reachable_invariant (P : State -> Prop) :
  (forall se, P (fst (setup se init_state))) ->
  (forall op s s' o, tables_ok s -> P s -> exec op s = Some (s', o) -> P s') ->
  forall s, reachable s -> P s.
Proof.
  intros H0 Hstep s (se & envs & out & H).
  unfold firmware in H.
  destruct (setup se init_state) as [s0 o0] eqn:Hs.
  assert (Hr0 : reachable s0).
  { exists se, [], (o0 ++ []). unfold firmware. rewrite Hs. reflexivity. }
  assert (Hp0 : P s0).
  { change s0 with (fst (s0, o0)). rewrite <- Hs. apply H0. }
  cbn [and_then] in H. rewrite run_loops_ops in H.
  destruct (run_ops _ s0) as [[s1 o1]|] eqn:Hr; [|discriminate].
  injection H as <- _.
  eapply run_ops_invariant; [exact Hstep| |exact Hp0|exact Hr].
  apply reachable_tables_ok. exact Hr0.
Qed.

Lemma ymdNow_range t : -32768 <= ymdNow t < 32768.
Proof.
  unfold ymdNow, i16.
  set (n := u16 (u16 (u16 _ + _) + _)).
  assert (Hu : 0 <= u16 n < 65536).
  { unfold u16. change (2 ^ 16) with 65536. apply Z.mod_pos_bound. lia. }
  change (2 ^ 15) with 32768. change (2 ^ 16) with 65536.
  destruct (u16 n <? 32768) eqn:Hc.
  - apply Z.ltb_lt in Hc. lia.
  - apply Z.ltb_ge in Hc. lia.
Qed.

Lemma handle_fits e s s' o :
  handleRFID_Auto e s = Some (s', o) -> fits_types s -> fits_types s'.
Proof.
  intros H [Hk Hm]. pose proof (handleRFID_frame _ _ _ _ H) as (Hms & _).
  split; [|rewrite Hms; exact Hm].
  revert H. unfold handleRFID_Auto.
  destruct (card_read _); [|intros [= <- <-]; exact Hk].
  destruct (session_loop _ _); [|discriminate].
  intros [= <- <-]. cbn [knownItems set_knownItems].
  destruct (_ >=? 0); [|exact Hk].
  apply Forall_alter; [exact Hk|].
  intros k _ _. cbn [KnownItem.set_lastScanned KnownItem.lastScanned].
  unfold snprintf_s. change (9 - 1)%nat with 8%nat.
  apply substring_length_le.
Qed.

Lemma exec_fits op s s' o :
  tables_ok s -> fits_types s -> exec op s = Some (s', o) -> fits_types s'.
Proof.
  intros (Hw & _ & _) [Hk Hm] H. destruct op.
  - eapply handle_fits; [exact H|split; assumption].
  - pose proof (exec_schedule_fst _ _ _ _ _ H) as Hs.
    destruct Hw as (_ & _ & Hlen).
    pose proof (exec_schedule_meds _ _ _ _ _ Hlen H) as Hms.
    destruct (check_frame now (set_lastScheduleCheck stamp s))
      as (_ & _ & Hki & _).
    rewrite <- Hs in Hki. split.
    + rewrite Hki. exact Hk.
    + rewrite Hms. apply Forall_fmap. eapply Forall_impl; [exact Hm|].
      intros m Hr. unfold compose, due_one.
      destruct (_ && _ && _); exact Hr.
  - simpl in H. pose proof (readBtnOnce_frame e pin idx s) as Hf.
    destruct (readBtnOnce e pin idx s) as [[hit s1] o1]. simpl in Hf.
    injection H as <- <-. unfold fits_types.
    destruct Hf as (-> & -> & _). split; assumption.
  - simpl in H. injection H as <- <-. split; assumption.
  - pose proof (exec_confirm_fst _ _ _ _ _ H) as Hs.
    destruct (confirm_frame now rnd s) as (_ & _ & Hki & _).
    rewrite <- Hs in Hki. split; [rewrite Hki; exact Hk|].
    rewrite Hs. unfold confirmFirstPendingMed.
    destruct (_ >=? 0); cbn [fst meds set_meds]; [|exact Hm].
    apply Forall_alter; [exact Hm|].
    intros m _ _. cbn [acknowledge MedItem.set_lastAckYMD MedItem.lastAckYMD].
    apply ymdNow_range.
  - simpl in H. injection H as <- <-. split; assumption.
  - simpl in H. destruct (sosFlow e); [|discriminate].
    injection H as <- <-. split; assumption.
  - simpl in H. injection H as <- <-. split; assumption.
  - simpl in H. injection H as <- <-. split; assumption.
Qed.

Lemma time_text_valid t :
  time_fields_ok t = true -> is_time_text (snprintf_s 9 (timeToStr t)).
Proof.
  unfold time_fields_ok. intros H.
  apply andb_prop in H as [H Hs2]. apply andb_prop in H as [H Hs1].
  apply andb_prop in H as [H Hm2]. apply andb_prop in H as [H Hm1].
  apply andb_prop in H as [Hh1 Hh2].
  apply Z.leb_le in Hh1, Hm1, Hs1. apply Z.ltb_lt in Hh2, Hm2, Hs2.
  destruct (fmt_02d_cases (DateTime.hour t) ltac:(lia))
    as [(_ & a1 & b1 & E1 & P1)|[? _]]; [|lia].
  destruct (fmt_02d_cases (DateTime.minute t) ltac:(lia))
    as [(_ & a2 & b2 & E2 & P2)|[? _]]; [|lia].
  destruct (fmt_02d_cases (DateTime.second t) ltac:(lia))
    as [(_ & a3 & b3 & E3 & P3)|[? _]]; [|lia].
  unfold timeToStr. rewrite E1, E2, E3. cbn [append].
  unfold snprintf_s. cbn [Nat.sub substring].
  split; [reflexivity|].
  exists (DateTime.hour t), (DateTime.minute t), (DateTime.second t).
  split; [|lia].
  cbn [parse_time]. change (Ascii.eqb ":" ":") with true.
  cbn [andb]. rewrite P1, P2, P3. reflexivity.
Qed.

Lemma valid_time_fields t : DateTime.valid t -> time_fields_ok t = true.
Proof.
  intros (_ & _ & _ & Hh & Hm & Hs). unfold time_fields_ok.
  repeat (apply andb_true_intro; split);
    first [apply Z.leb_le; lia | apply Z.ltb_lt; lia].
Qed.

Lemma handle_scans e s s' o :
  time_fields_ok (rf_now e) = true ->
  handleRFID_Auto e s = Some (s', o) -> scans_ok s -> scans_ok s'.
Proof.
  intros Hv H Hk. revert H. unfold handleRFID_Auto, scans_ok.
  destruct (card_read _); [|intros [= <- <-]; exact Hk].
  destruct (session_loop _ _); [|discriminate].
  intros [= <- <-]. cbn [knownItems set_knownItems].
  destruct (_ >=? 0); [|exact Hk].
  apply Forall_alter; [exact Hk|].
  intros k _ _. cbn [KnownItem.set_lastScanned KnownItem.lastScanned].
  apply time_text_valid. exact Hv.
Qed.

Lemma exec_scans op s s' o :
  op_clock_ok op = true -> scans_ok s -> exec op s = Some (s', o) ->
  scans_ok s'.
Proof.
  intros Hv Hk H. unfold scans_ok in *. destruct op.
  - eapply handle_scans; [exact Hv|exact H|exact Hk].
  - pose proof (exec_schedule_fst _ _ _ _ _ H) as Hs.
    destruct (check_frame now (set_lastScheduleCheck stamp s))
      as (_ & _ & Hki & _).
    rewrite <- Hs in Hki. rewrite Hki. exact Hk.
  - simpl in H. pose proof (readBtnOnce_frame e pin idx s) as Hf.
    destruct (readBtnOnce e pin idx s) as [[hit s1] o1]. simpl in Hf.
    injection H as <- <-. destruct Hf as (_ & -> & _). exact Hk.
  - simpl in H. injection H as <- <-. exact Hk.
  - pose proof (exec_confirm_fst _ _ _ _ _ H) as Hs.
    destruct (confirm_frame now rnd s) as (_ & _ & Hki & _).
    rewrite <- Hs in Hki. rewrite Hki. exact Hk.
  - simpl in H. injection H as <- <-. exact Hk.
  - simpl in H. destruct (sosFlow e); [|discriminate].
    injection H as <- <-. exact Hk.
  - simpl in H. injection H as <- <-. exact Hk.
  - simpl in H. injection H as <- <-. exact Hk.
Qed.

Lemma run_ops_scans ops : forall s s' o,
  forallb op_clock_ok ops = true -> scans_ok s ->
  run_ops ops s = Some (s', o) -> scans_ok s'.
Proof.
  induction ops as [|op ops IH]; intros s s' o Hv Hk H; simpl in H.
  - injection H as <- <-. exact Hk.
  - cbn [forallb] in Hv. apply andb_prop in Hv as [Hv1 Hv2].
    destruct (exec op s) as [[s1 o1]|] eqn:He; simpl in H; [|discriminate].
    destruct (run_ops ops s1) as [[s2 o2]|] eqn:Hr; [|discriminate].
    injection H as <- <-.
    eapply IH; [exact Hv2| |exact Hr].
    eapply exec_scans; eauto.
Qed.

Lemma loop_ops_clock e s :
  time_fields_ok (rf_now (le_rfid e)) = true ->
  forallb op_clock_ok (loop_ops e s) = true.
Proof.
  intros Hv. apply chain_forallb. repeat constructor; intros s0.
  - unfold rfid_ops. cbn [forallb op_clock_ok]. rewrite Hv. reflexivity.
  - unfold schedule_ops, when. destruct (_ >=? _); reflexivity.
  - unfold memory_ops, when. destruct (fst _); reflexivity.
  - unfold med_ops, when. destruct (fst _); reflexivity.
  - unfold exercise_ops, when. destruct (fst _); reflexivity.
  - unfold sos_ops, when. destruct (sos_accepts _ _); reflexivity.
  - unfold idle_ops, when. destruct (_ >? _); reflexivity.
Qed.

Lemma loops_ops_clock envs s :
  Forall (fun e => DateTime.valid (rf_now (le_rfid e))) envs ->
  forallb op_clock_ok (loops_ops envs s) = true.
Proof.
  intros Hall. apply chain_forallb.
  induction Hall as [|e envs He _ IH]; cbn [map]; constructor; [|exact IH].
  intros s0. apply loop_ops_clock, valid_time_fields, He.
Qed.

Lemma reachable_valid_scans s : reachable_valid s -> scans_ok s.
Proof.
  intros (se & envs & out & Hall & H). unfold firmware, setup in H.
  cbn [and_then] in H. rewrite run_loops_ops in H.
  destruct (run_ops _ _) as [[s1 o1]|] eqn:Hr; [|discriminate].
  injection H as <- _.
  eapply run_ops_scans; [apply loops_ops_clock; exact Hall| |exact Hr].
  unfold scans_ok. cbn [knownItems set_lastActivity init_state].
  repeat constructor; cbn [KnownItem.lastScanned];
    exists 0, 0, 0; (split; [reflexivity|lia]).
Qed.

(** X4. In every state the firmware can reach while the clock delivers
    valid readings to the tag sessions, after [setup] and any number of
    iterations of [loop]: the three tables have their declared sizes, the
    tag identities and names and the medication names and times are the
    ones of the initialisers, every [lastScanned] is a time of day written
    "HH:MM:SS", exactly 8 characters (so it fills its 9-byte field with
    the terminator and no more), and every [lastAckYMD] is a 16-bit [int]
    value. *)
Theorem reachable_state_keeps_tables (s : State) :
  reachable_valid s ->
  length (lastDebounceTime s) = 4%nat /\
  length (knownItems s) = 3%nat /\
  length (meds s) = 4%nat /\
  identity_of (knownItems s) = identity_of knownItems_init /\
  schedule_of (meds s) = schedule_of meds_init /\
  scans_ok s /\
  Forall (fun m => -32768 <= MedItem.lastAckYMD m < 32768) (meds s).
Proof.
  intros Hv.
  assert (Hr : reachable s).
  { destruct Hv as (se & envs & out & _ & H). exists se, envs, out. exact H. }
  destruct (reachable_tables_ok s Hr) as ((Hd & Hk & Hm) & Hsm & Hsk).
  split; [exact Hd|].
  split; [apply Nat2Z.inj; rewrite Hk; reflexivity|].
  split; [apply Nat2Z.inj; rewrite Hm; reflexivity|].
  split; [exact Hsk|]. split; [exact Hsm|].
  split; [apply reachable_valid_scans; exact Hv|].
  assert (Hf : fits_types s).
  { clear Hd Hk Hm Hsm Hsk Hv. revert s Hr. apply reachable_invariant.
    - intros se. split; cbn [setup fst knownItems meds set_lastActivity
                            init_state].
      + repeat constructor.
      + repeat constructor; simpl; lia.
    - intros op s s' o Ht Hp H. eapply exec_fits; eauto. }
  exact (proj2 Hf).
Qed.

Lemma reachable_state_keeps_tables_witness :
  knownItems after_keys_scan !! 0%nat
  = Some (KnownItem.mk "6C433E06" "Keys" "08:00:05") /\
  length (knownItems after_keys_scan) = 3%nat /\
  scans_ok after_keys_scan.
Proof.
  assert (Hv : reachable_valid after_keys_scan).
  { exists power_on, [keys_iteration].
    eexists. split; [|vm_compute; reflexivity].
    repeat constructor; simpl; lia. }
  destruct (reachable_state_keeps_tables after_keys_scan Hv)
    as (_ & Hlen & _ & _ & _ & Hscan & _).
  split; [vm_compute; reflexivity|]. split; [exact Hlen|exact Hscan].
Defined.

(** ** The scheduler cycle *)

Lemma due_one_idem now ymd m :
  due_one now ymd (due_one now ymd m) = due_one now ymd m.
Proof.
  assert (H : due_one now ymd m = m \/
              MedItem.pending (due_one now ymd m) = true).
  { unfold due_one. destruct (_ && _ && _); [right|left]; reflexivity. }
  destruct H as [H|H]; [rewrite !H; reflexivity|].
  apply due_one_pending. exact H.
Qed.

Lemma check_twice now s :
  Z.of_nat (length (meds s)) = MED_COUNT ->
  let s1 := fst (checkMedicinesAuto now s) in
  hydration_due now s1 = false /\ checkMedicinesAuto now s1 =
  (s1, let idx := scan_first MedItem.pending 0 (meds s1) in
       if idx >=? 0 then med_due_prompt (med_at (meds s1) idx) else []).
Proof.
  intros Hlen s1.
  assert (Hms : meds s1 = due_one now (ymdNow now) <$> meds s)
    by (apply meds_check; exact Hlen).
  assert (Hlen1 : Z.of_nat (length (meds s1)) = MED_COUNT)
    by (rewrite Hms, length_fmap; exact Hlen).
  assert (Hh : hydration_due now s1 = false).
  { unfold hydration_due. subst s1. rewrite check_marker.
    destruct (hydration_due now s) eqn:Hd.
    - rewrite Z.eqb_refl, andb_false_r. reflexivity.
    - exact Hd. }
  split; [exact Hh|].
  assert (Hfix : due_check now (ymdNow now) (meds s1) = meds s1).
  { rewrite due_check_map by exact Hlen1. rewrite Hms.
    rewrite <- list_fmap_compose. apply list_fmap_ext.
    intros i m _. apply due_one_idem. }
  unfold checkMedicinesAuto at 1. rewrite Hh, Hfix.
  cbn [app]. f_equal.
Qed.

(** X5. The MED DUE reminder is repeated, not shown once: the events of a
    scheduler cycle are the hydration nudge (when it fires) followed by the
    MED DUE prompt of the lowest-index entry that is pending after the due
    check, and by nothing when no entry is pending.  A second cycle at the
    same clock reading leaves the state as the first left it, shows no
    nudge, and shows the same prompt again. *)
Theorem scheduler_reminds_every_cycle (now : DateTime.t) (s : State) :
  well_sized s ->
  let r := checkMedicinesAuto now s in
  let r2 := checkMedicinesAuto now (fst r) in
  let nudge := if hydration_due now s then hydration_nudge else [] in
  fst r2 = fst r /\
  (forall i m, first_pending (meds (fst r)) i -> meds (fst r) !! i = Some m ->
     snd r = nudge ++ med_due_prompt m /\ snd r2 = med_due_prompt m) /\
  (none_pending (meds (fst r)) -> snd r = nudge /\ snd r2 = []).
Proof.
  intros (_ & _ & Hlen) r r2 nudge. subst r r2 nudge.
  destruct (check_twice now s Hlen) as [_ H2]. cbv zeta in H2.
  set (s1 := fst (checkMedicinesAuto now s)) in *.
  assert (Hout : snd (checkMedicinesAuto now s) =
                 (if hydration_due now s then hydration_nudge else []) ++
                 (let idx := scan_first MedItem.pending 0 (meds s1) in
                  if idx >=? 0 then med_due_prompt (med_at (meds s1) idx)
                  else [])).
  { rewrite check_out. subst s1. unfold checkMedicinesAuto.
    cbn [fst meds set_meds]. destruct (hydration_due now s); reflexivity. }
  rewrite H2, Hout. cbn [fst snd]. split; [reflexivity|]. split.
  - intros i m Hf Hm. cbv zeta. rewrite (scan_first_pending _ _ Hf).
    destruct (Z.geb_spec (Z.of_nat i) 0); [|lia].
    rewrite (med_at_lookup _ _ _ Hm). split; reflexivity.
  - intros Hn. apply scan_none_pending in Hn. cbv zeta. rewrite Hn.
    change (-1 >=? 0) with false. rewrite app_nil_r. split; reflexivity.
Qed.

Lemma scheduler_reminds_every_cycle_witness :
  let s := booted in
  let now := morning 5 in
  let r := checkMedicinesAuto now s in
  let r2 := checkMedicinesAuto now (fst r) in
  let nudge := if hydration_due now s then hydration_nudge else [] in
  fst r2 = fst r /\
  (forall i m, first_pending (meds (fst r)) i -> meds (fst r) !! i = Some m ->
     snd r = nudge ++ med_due_prompt m /\ snd r2 = med_due_prompt m) /\
  (none_pending (meds (fst r)) -> snd r = nudge /\ snd r2 = []).
Proof.
  apply (scheduler_reminds_every_cycle (morning 5) booted).
  repeat split.
Defined.

(** ** How many entries a cycle can mark *)

Lemma due_nowb_spec now m : due_nowb now m = true <-> due_now now m.
Proof.
  unfold due_nowb, due_now.
  destruct (MedItem.pending m);
  destruct (Z.eqb_spec (DateTime.hour now) (MedItem.hour m));
  destruct (Z.eqb_spec (DateTime.minute now) (MedItem.minute m));
  destruct (Z.eqb_spec (MedItem.lastAckYMD m) (ymdNow now)); simpl;
    intuition congruence.
Qed.

Lemma count_pending_due now ms :
  count_pending (due_one now (ymdNow now) <$> ms) =
  (count_pending ms + length (List.filter (due_nowb now) ms))%nat.
Proof.
  unfold count_pending. induction ms as [|m ms IH]; [reflexivity|].
  cbn [fmap list_fmap List.filter]. fold (due_one now (ymdNow now) <$> ms).
  assert (Hm : (MedItem.pending m = true /\ due_nowb now m = false /\
                MedItem.pending (due_one now (ymdNow now) m) = true) \/
               (MedItem.pending m = false /\ due_nowb now m = true /\
                MedItem.pending (due_one now (ymdNow now) m) = true) \/
               (MedItem.pending m = false /\ due_nowb now m = false /\
                MedItem.pending (due_one now (ymdNow now) m) = false)).
  { unfold due_one. change (_ && _ && _) with (due_nowb now m).
    destruct (due_nowb now m) eqn:Hd.
    - right. left. apply due_nowb_spec in Hd as (Hp & _). auto.
    - destruct (MedItem.pending m); auto. }
  destruct Hm as [(-> & -> & ->)|[(-> & -> & ->)|(-> & -> & ->)]];
    cbn [length]; rewrite IH; lia.
Qed.

(** X6. The scheduled times of the table are pairwise different, so in any
    state the firmware can reach at most one entry is due at a clock
    reading: a scheduler cycle raises the number of pending entries by one
    if some entry is due and leaves it as it is otherwise; it never lowers
    it. *)
Theorem at_most_one_entry_falls_due (now : DateTime.t) (s : State) :
  reachable s ->
  let s' := fst (checkMedicinesAuto now s) in
  (forall i j mi mj,
     meds s !! i = Some mi -> meds s !! j = Some mj ->
     due_now now mi -> due_now now mj -> i = j) /\
  (count_pending (meds s) <= count_pending (meds s')
   <= count_pending (meds s) + 1)%nat /\
  (count_pending (meds s') = (count_pending (meds s) + 1)%nat <->
   exists i m, meds s !! i = Some m /\ due_now now m).
Proof.
  intros Hr s'. subst s'.
  destruct (reachable_tables_ok s Hr) as ((_ & _ & Hlen) & Hst & _).
  rewrite (meds_check now s Hlen), count_pending_due.
  destruct (static_entries _ Hst) as (a & b & c & d & -> & Ha & Hb & Hc & Hd).
  injection Ha as _ Ha _. injection Hb as _ Hb _.
  injection Hc as _ Hc _. injection Hd as _ Hd _.
  assert (Hh : forall m, due_nowb now m = true ->
                         DateTime.hour now = MedItem.hour m).
  { intros m H. apply due_nowb_spec in H as (_ & H & _). exact H. }
  split.
  - intros i j mi mj Hi Hj (_ & Hhi & _) (_ & Hhj & _).
    destruct i as [|[|[|[|i]]]]; destruct j as [|[|[|[|j]]]];
      simpl in Hi, Hj; try discriminate; try reflexivity;
      injection Hi as <-; injection Hj as <-; lia.
  - cbn [List.filter].
    assert (Hno : forall m, due_nowb now m = false -> ~ due_now now m).
    { intros m H H'. apply due_nowb_spec in H'. congruence. }
    destruct (due_nowb now a) eqn:Da;
      [pose proof (Hh _ Da)|pose proof (Hno _ Da)];
    (destruct (due_nowb now b) eqn:Db;
      [pose proof (Hh _ Db)|pose proof (Hno _ Db)]);
    (destruct (due_nowb now c) eqn:Dc;
      [pose proof (Hh _ Dc)|pose proof (Hno _ Dc)]);
    (destruct (due_nowb now d) eqn:Dd;
      [pose proof (Hh _ Dd)|pose proof (Hno _ Dd)]);
    try lia; cbn [length]; (split; [lia|]); split; try lia; intros Hex.
    + exists 0%nat, a. split; [reflexivity|apply due_nowb_spec; exact Da].
    + exists 1%nat, b. split; [reflexivity|apply due_nowb_spec; exact Db].
    + exists 2%nat, c. split; [reflexivity|apply due_nowb_spec; exact Dc].
    + exists 3%nat, d. split; [reflexivity|apply due_nowb_spec; exact Dd].
    + exfalso. destruct Hex as (i & m & Hi & Hdue).
      destruct i as [|[|[|[|i]]]]; simpl in Hi; try discriminate;
        injection Hi as <-; tauto.
Qed.

Lemma at_most_one_entry_falls_due_witness :
  let s := booted in
  let now := morning 5 in
  let s' := fst (checkMedicinesAuto now s) in
  (forall i j mi mj,
     meds s !! i = Some mi -> meds s !! j = Some mj ->
     due_now now mi -> due_now now mj -> i = j) /\
  (count_pending (meds s) <= count_pending (meds s')
   <= count_pending (meds s) + 1)%nat /\
  (count_pending (meds s') = (count_pending (meds s) + 1)%nat <->
   exists i m, meds s !! i = Some m /\ due_now now m).
Proof.
  assert (Hb : reachable booted) by reach_booted.
  exact (at_most_one_entry_falls_due (morning 5) booted Hb).
Defined.

(** ** One acknowledgment per press *)

Lemma count_pending_cons m ms :
  count_pending (m :: ms) =
  ((if MedItem.pending m then 1 else 0) + count_pending ms)%nat.
Proof.
  unfold count_pending. cbn [List.filter].
  destruct (MedItem.pending m); reflexivity.
Qed.

Lemma count_pending_alter f ms : forall k x,
  ms !! k = Some x -> MedItem.pending x = true ->
  MedItem.pending (f x) = false ->
  (count_pending (alter f k ms) + 1)%nat = count_pending ms.
Proof.
  induction ms as [|m ms IH]; intros k x Hk Hp Hf; [discriminate Hk|].
  destruct k as [|k]; simpl in Hk.
  - injection Hk as ->. cbn [alter list_alter].
    rewrite !count_pending_cons, Hp, Hf. lia.
  - cbn [alter list_alter]. fold (alter f k ms).
    rewrite !count_pending_cons, <- (IH k x Hk Hp Hf). lia.
Qed.

Lemma count_pending_zero ms : count_pending ms = 0%nat <-> none_pending ms.
Proof.
  induction ms as [|m ms IH].
  - split; [intros _ j x H; discriminate H|reflexivity].
  - rewrite count_pending_cons. split.
    + intros H j x Hj. destruct (MedItem.pending m) eqn:Hp; [lia|].
      destruct j as [|j]; simpl in Hj.
      * injection Hj as <-. exact Hp.
      * apply (proj1 IH ltac:(lia) j x Hj).
    + intros Hn. rewrite (Hn 0%nat m eq_refl).
      apply IH. intros j x Hj. apply (Hn (S j) x Hj).
Qed.

Lemma confirm_count now rnd s :
  count_pending (meds (fst (confirmFirstPendingMed now rnd s))) =
  pred (count_pending (meds s)).
Proof.
  destruct (pending_cases (meds s)) as [Hn|[i Hf]].
  - rewrite (confirm_idle _ _ _ Hn). cbn [fst].
    apply count_pending_zero in Hn. rewrite Hn. reflexivity.
  - pose proof Hf as [(m & Hm & Hp) _].
    rewrite (confirm_pending _ _ _ _ _ Hf Hm). cbn [fst meds set_meds].
    assert (Hi : (i < length (meds s))%nat) by (eapply lookup_lt_Some; eauto).
    assert (Ha : <[i := acknowledge (ymdNow now) m]> (meds s) =
                 alter (fun _ => acknowledge (ymdNow now) m) i (meds s)).
    { apply list_eq. intros j. rewrite list_lookup_alter.
      case_decide as Hij.
      - subst j. rewrite list_lookup_insert_eq by exact Hi.
        rewrite Hm. reflexivity.
      - rewrite list_lookup_insert_ne by exact Hij. reflexivity. }
    rewrite Ha.
    rewrite <- (count_pending_alter (fun _ => acknowledge (ymdNow now) m)
                  (meds s) i m Hm Hp eq_refl).
    lia.
Qed.

(** X7. Every run of the acknowledgment handler lowers the number of
    pending entries by exactly one, and leaves it at zero when nothing is
    pending: one press never acknowledges two entries, and after [n]
    accepted presses of the Med button [n] fewer entries are pending,
    whatever the clock readings and random numbers were. *)
Theorem each_press_acknowledges_one
  (presses : list (DateTime.t * Z)) (s : State) :
  (forall now rnd,
     count_pending (meds (fst (confirmFirstPendingMed now rnd s))) =
     pred (count_pending (meds s))) /\
  count_pending (meds (run_confirms presses s)) =
    (count_pending (meds s) - length presses)%nat /\
  (none_pending (meds (run_confirms presses s)) <->
   (count_pending (meds s) <= length presses)%nat).
Proof.
  assert (Hrun : forall ps s0,
            count_pending (meds (run_confirms ps s0)) =
            (count_pending (meds s0) - length ps)%nat).
  { induction ps as [|p ps IH]; intros s0.
    - cbn [run_confirms foldl length]. lia.
    - unfold run_confirms. cbn [foldl length].
      fold (run_confirms ps
              (fst (confirmFirstPendingMed (fst p) (snd p) s0))).
      rewrite IH, confirm_count. lia. }
  split; [intros now rnd; apply confirm_count|].
  split; [apply Hrun|].
  rewrite <- count_pending_zero, Hrun. lia.
Qed.

(** ** The SOS flow *)

Lemma total_delay_app a b :
  total_delay (a ++ b) = total_delay a + total_delay b.
Proof.
  induction a as [|x a IH]; [reflexivity|].
  destruct x; cbn [app total_delay]; rewrite IH; lia.
Qed.

Lemma beeps_app a b : beeps (a ++ b) = (beeps a + beeps b)%nat.
Proof.
  induction a as [|x a IH]; [reflexivity|].
  destruct x as [| pin [|] | | | | | | | | | | | | |];
    cbn [app beeps]; rewrite IH; lia.
Qed.

Lemma sos_patterns_measure k :
  total_delay (concat (replicate k sos_pattern)) = 2000 * Z.of_nat k /\
  beeps (concat (replicate k sos_pattern)) = (3 * k)%nat.
Proof.
  induction k as [|k [IH1 IH2]]; [split; reflexivity|].
  cbn [replicate concat]. rewrite total_delay_app, beeps_app, IH1, IH2.
  change (total_delay sos_pattern) with 2000.
  change (beeps sos_pattern) with 3%nat. lia.
Qed.

Lemma sos_loop_spec start ticks :
  match sos_loop start ticks with
  | Some p =>
      exists k t, ticks !! k = Some t /\
        SOS_DURATION <= u32 (t - start) /\
        (forall j tj, (j < k)%nat -> ticks !! j = Some tj ->
                      u32 (tj - start) < SOS_DURATION) /\
        p = concat (replicate k sos_pattern)
  | None => Forall (fun t => u32 (t - start) < SOS_DURATION) ticks
  end.
Proof.
  induction ticks as [|t ticks IH]; cbn [sos_loop]; [constructor|].
  destruct (Z.ltb_spec (u32 (t - start)) SOS_DURATION) as [Hlt|Hge].
  - destruct (sos_loop start ticks) as [p|]; cbn [option_map].
    + destruct IH as (k & t' & Hk & Hge & Hlow & ->).
      exists (S k), t'. split; [exact Hk|]. split; [exact Hge|].
      split; [|reflexivity].
      intros [|j] tj Hj Hl; simpl in Hl.
      * injection Hl as <-. exact Hlt.
      * apply (Hlow j tj); [lia|exact Hl].
    + constructor; assumption.
  - exists 0%nat, t. split; [reflexivity|]. split; [exact Hge|].
    split; [intros j tj Hj; lia|reflexivity].
Qed.

(** X8. [sosFlow] returns exactly when some reading of [millis()] in its
    loop test is at least 5000 ms (modulo 2^32) after the start reading;
    while every reading is below that it is still sounding.  When it
    returns after [k] tests that passed, its events are the alert screen,
    [k] whole S-O-S patterns, the "SOS Ended" screen and the menu: the
    buzzer was switched on [3 * k] times and [2100 + 2000 * k] ms were
    spent in [delay]; the loop test is not looked at inside a pattern. *)
Theorem sos_flow_whole_patterns (e : SosEnv) :
  (sosFlow e = None <->
   Forall (fun t => u32 (t - sos_start e) < SOS_DURATION) (sos_ticks e)) /\
  (forall out, sosFlow e = Some out ->
     exists k t,
       sos_ticks e !! k = Some t /\
       SOS_DURATION <= u32 (t - sos_start e) /\
       (forall j tj, (j < k)%nat -> sos_ticks e !! j = Some tj ->
                     u32 (tj - sos_start e) < SOS_DURATION) /\
       out = sos_alert_screen ++ concat (replicate k sos_pattern)
             ++ sos_end_screen ++ lcdMenu /\
       total_delay out = 2100 + 2000 * Z.of_nat k /\
       beeps out = (3 * k)%nat).
Proof.
  pose proof (sos_loop_spec (sos_start e) (sos_ticks e)) as Hspec.
  unfold sosFlow. destruct (sos_loop _ _) as [p|].
  - destruct Hspec as (k & t & Hk & Hge & Hlow & ->). split.
    + split; [discriminate|]. intros Hall. exfalso.
      rewrite Forall_lookup in Hall. specialize (Hall k t Hk). simpl in Hall.
      lia.
    + intros out [= <-]. exists k, t.
      split; [exact Hk|]. split; [exact Hge|]. split; [exact Hlow|].
      split; [reflexivity|].
      destruct (sos_patterns_measure k) as [Hd Hb].
      set (out := sos_alert_screen ++ concat (replicate k sos_pattern)
                  ++ sos_end_screen ++ lcdMenu).
      change (total_delay out = 2100 + 2000 * Z.of_nat k /\
              beeps out = (3 * k)%nat).
      subst out.
      rewrite !total_delay_app, !beeps_app, Hd, Hb.
      change (total_delay sos_alert_screen) with 600.
      change (total_delay sos_end_screen) with 1500.
      change (total_delay lcdMenu) with 0.
      change (beeps sos_alert_screen) with 0%nat.
      change (beeps sos_end_screen) with 0%nat.
      change (beeps lcdMenu) with 0%nat.
      split; lia.
  - split; [|discriminate]. split; [intros _; exact Hspec|reflexivity].
Qed.

Lemma u32_reading start E :
  0 <= E < 2 ^ 32 -> u32 (u32 (start + E) - start) = E.
Proof.
  intros HE. unfold u32.
  rewrite Zminus_mod_idemp_l.
  replace (start + E - start) with E by lia.
  apply Z.mod_small. exact HE.
Qed.

(** X9. With the real pace of the loop, the alarm lasts three patterns: if
    the [j]-th loop test of [sosFlow] takes place between [2000 * j] and
    [2000 * j + 1000] ms after the start reading (each pattern blocks for
    2000 ms in [delay]; the rest is overhead), whatever the counter read at
    the start and also across its wrap-around, [sosFlow] returns at the
    fourth test, after exactly three S-O-S patterns: 6000 ms of alarm for
    the 5000 ms of [SOS_DURATION], 8100 ms in [delay] in all. *)
Theorem sos_alarm_lasts_three_patterns (start : Z) (Es : list Z) :
  (4 <= length Es)%nat ->
  (forall j E, Es !! j = Some E ->
               2000 * Z.of_nat j <= E < 2000 * Z.of_nat j + 1000) ->
  exists out,
    sosFlow (mkSosEnv start (readings start Es)) = Some out /\
    out = sos_alert_screen ++ concat (replicate 3 sos_pattern)
          ++ sos_end_screen ++ lcdMenu /\
    total_delay out = 8100 /\ beeps out = 9%nat.
Proof.
  intros Hlen Hpace.
  destruct Es as [|E0 [|E1 [|E2 [|E3 Es]]]]; simpl in Hlen; try lia.
  pose proof (Hpace 0%nat E0 eq_refl) as H0.
  pose proof (Hpace 1%nat E1 eq_refl) as H1.
  pose proof (Hpace 2%nat E2 eq_refl) as H2.
  pose proof (Hpace 3%nat E3 eq_refl) as H3.
  change (2 ^ 32) with 4294967296 in *.
  assert (Hloop : sos_loop start (readings start (E0 :: E1 :: E2 :: E3 :: Es))
                  = Some (concat (replicate 3 sos_pattern))).
  { unfold readings. cbn [fmap list_fmap sos_loop].
    rewrite !u32_reading by (change (2 ^ 32) with 4294967296; lia).
    unfold SOS_DURATION.
    destruct (Z.ltb_spec E0 5000); [|lia].
    destruct (Z.ltb_spec E1 5000); [|lia].
    destruct (Z.ltb_spec E2 5000); [|lia].
    destruct (Z.ltb_spec E3 5000); [lia|].
    cbn [option_map replicate concat]. rewrite app_nil_r. reflexivity. }
  eexists. split.
  - unfold sosFlow. cbn [sos_start sos_ticks]. rewrite Hloop. reflexivity.
  - split; [reflexivity|]. split; reflexivity.
Qed.

Lemma sos_alarm_lasts_three_patterns_witness :
  exists out,
    sosFlow (mkSosEnv 4294966000 (readings 4294966000 [3; 2010; 4020; 6030]))
    = Some out /\
    out = sos_alert_screen ++ concat (replicate 3 sos_pattern)
          ++ sos_end_screen ++ lcdMenu /\
    total_delay out = 8100 /\ beeps out = 9%nat.
Proof.
  apply (sos_alarm_lasts_three_patterns 4294966000 [3; 2010; 4020; 6030]).
  - simpl. lia.
  - intros [|[|[|[|j]]]] E H; simpl in H; try discriminate H;
      injection H as <-; lia.
Defined.

(** ** The buzzer is off between operations *)

Lemma buzzer_after_app l a b :
  buzzer_after l (a ++ b) = buzzer_after (buzzer_after l a) b.
Proof.
  revert l. induction a as [|x a IH]; intros l; [reflexivity|].
  destruct x; cbn [app buzzer_after]; apply IH.
Qed.

Lemma buzzer_after_lcd l out : Forall is_lcd out -> buzzer_after l out = l.
Proof.
  induction 1 as [|x out Hx _ IH]; [reflexivity|].
  destruct x; try contradiction; exact IH.
Qed.

Lemma buzzer_after_waits l k : buzzer_after l (replicate k (Delay 20)) = l.
Proof. induction k as [|k IH]; [reflexivity|exact IH]. Qed.

Lemma buzzer_after_patterns k :
  buzzer_after LOW (concat (replicate k sos_pattern)) = LOW.
Proof.
  induction k as [|k IH]; [reflexivity|].
  cbn [replicate concat]. rewrite buzzer_after_app. exact IH.
Qed.

Lemma handle_buzzer e s s' o :
  handleRFID_Auto e s = Some (s', o) -> buzzer_after LOW o = LOW.
Proof.
  destruct (card_read (rf_first e)) as [bytes|] eqn:Hc.
  - destruct (handle_session e s bytes Hc) as (screen & items & Hl & ->).
    pose proof (session_loop_spec (rf_polls e) (rf_t0 e)) as Hs.
    destruct (session_loop _ _) as [waits|]; [|discriminate].
    destruct Hs as (k & -> & _). intros [= _ <-].
    unfold session_events.
    rewrite buzzer_after_app, (buzzer_after_lcd _ _ Hl).
    rewrite buzzer_after_app. cbn [buzzer_after].
    change (BUZZER_PIN =? BUZZER_PIN) with true. cbv iota.
    rewrite buzzer_after_app, buzzer_after_waits. reflexivity.
  - rewrite (handle_no_card _ _ Hc). intros [= _ <-]. reflexivity.
Qed.

Lemma sosFlow_buzzer e o : sosFlow e = Some o -> buzzer_after LOW o = LOW.
Proof.
  unfold sosFlow. destruct (sos_loop _ _) as [p|] eqn:Hp; [|discriminate].
  pose proof (sos_loop_spec (sos_start e) (sos_ticks e)) as Hs.
  rewrite Hp in Hs. destruct Hs as (k & _ & _ & _ & _ & ->).
  intros [= <-].
  change (buzzer_after LOW
            (sos_alert_screen ++ concat (replicate k sos_pattern)
             ++ sos_end_screen ++ lcdMenu) = LOW).
  rewrite !buzzer_after_app. change (buzzer_after LOW sos_alert_screen) with LOW.
  rewrite buzzer_after_patterns. reflexivity.
Qed.

Lemma some_pair_snd {A B} (p : A * B) a b : Some p = Some (a, b) -> snd p = b.
Proof. intros [= ->]. reflexivity. Qed.

Lemma exec_buzzer op s s' o :
  exec op s = Some (s', o) -> buzzer_after LOW o = LOW.
Proof.
  destruct op; cbn [exec].
  - apply handle_buzzer.
  - intros H. apply some_pair_snd in H. subst o.
    rewrite check_out, buzzer_after_app.
    assert (H1 : buzzer_after LOW
                   (if hydration_due now (set_lastScheduleCheck stamp s)
                    then hydration_nudge else []) = LOW)
      by (destruct (hydration_due _ _); reflexivity).
    rewrite H1. cbv zeta. destruct (_ >=? 0); reflexivity.
  - destruct (readBtnOnce_cases e pin idx s) as [(_ & ->)|(_ & ->)];
      intros [= _ <-]; reflexivity.
  - intros [= _ <-]. reflexivity.
  - intros H. apply some_pair_snd in H. subst o.
    unfold confirmFirstPendingMed. destruct (_ >=? 0); reflexivity.
  - intros [= _ <-]. reflexivity.
  - destruct (sosFlow e) as [o'|] eqn:Hf; [|discriminate].
    intros [= _ <-]. eapply sosFlow_buzzer; exact Hf.
  - intros [= _ <-]. reflexivity.
  - intros [= _ <-]. reflexivity.
Qed.

Lemma run_ops_buzzer ops : forall s s' o,
  run_ops ops s = Some (s', o) -> buzzer_after LOW o = LOW.
Proof.
  induction ops as [|op ops IH]; intros s s' o H; simpl in H.
  - injection H as _ <-. reflexivity.
  - destruct (exec op s) as [[s1 o1]|] eqn:He; simpl in H; [|discriminate].
    destruct (run_ops ops s1) as [[s2 o2]|] eqn:Hr; [|discriminate].
    injection H as _ <-. rewrite buzzer_after_app.
    rewrite (exec_buzzer _ _ _ _ He). eapply IH; exact Hr.
Qed.

(** X10. The buzzer is never left on: every operation of the firmware that
    returns (a tag session, a scheduler cycle, a button poll, the
    acknowledgment handler, the breathing exercise, the SOS flow) leaves
    the buzzer pin LOW when it found it LOW, hence so does every iteration
    of [loop]; and after [setup] and any number of iterations the pin is
    LOW whatever its level was at power-on.  The buzzer can only stay on
    inside an operation, which is what the tag session does while the tag
    is present. *)
Theorem buzzer_off_between_operations :
  (forall op s s' o, exec op s = Some (s', o) -> buzzer_after LOW o = LOW) /\
  (forall e s s' o, loop e s = Some (s', o) -> buzzer_after LOW o = LOW) /\
  (forall l0 se envs s o,
     firmware se envs = Some (s, o) -> buzzer_after l0 o = LOW) /\
  (forall e s bytes waits,
     card_read (rf_first e) = Some bytes ->
     session_loop (rf_t0 e) (rf_polls e) = Some waits ->
     exists s' screen,
       handleRFID_Auto e s = Some (s', screen ++ session_events waits) /\
       buzzer_after LOW (screen ++ [DigitalWrite BUZZER_PIN HIGH] ++ waits)
       = HIGH).
Proof.
  split; [exact exec_buzzer|]. split; [|split].
  - intros e s s' o H. rewrite loop_runs_ops in H.
    eapply run_ops_buzzer; exact H.
  - intros l0 se envs s o H. unfold firmware in H.
    destruct (setup se init_state) as [s0 o0] eqn:Hs.
    cbn [and_then] in H. rewrite run_loops_ops in H.
    destruct (run_ops _ s0) as [[s1 o1]|] eqn:Hr; [|discriminate].
    injection H as _ <-. rewrite buzzer_after_app.
    assert (H0 : buzzer_after l0 o0 = LOW).
    { change o0 with (snd (s0, o0)). rewrite <- Hs.
      unfold setup, rtc_report. cbn [snd].
      destruct (se_begin se), (se_lostPower se); reflexivity. }
    rewrite H0. eapply run_ops_buzzer; exact Hr.
  - intros e s bytes waits Hc Hw.
    destruct (handle_session e s bytes Hc) as (screen & items & Hl & Hh).
    rewrite Hw in Hh. exists (set_knownItems items s), screen.
    split; [exact Hh|].
    pose proof (session_loop_spec (rf_polls e) (rf_t0 e)) as Hs.
    rewrite Hw in Hs. destruct Hs as (k & -> & _).
    rewrite buzzer_after_app, (buzzer_after_lcd _ _ Hl).
    rewrite buzzer_after_app. cbn [buzzer_after].
    change (BUZZER_PIN =? BUZZER_PIN) with true. cbv iota.
    apply buzzer_after_waits.
Qed.

(** ** Where an iteration of the loop can block *)

Lemma and_then_some (s : State) (o : list Out) (k : State -> Res) s' o' :
  k s = Some (s', o') -> Some (s, o) >>> k = Some (s', o ++ o').
Proof. intros H. unfold and_then. rewrite H. reflexivity. Qed.

Lemma and_then_none (r : Res) (k : State -> Res) :
  r >>> k = None -> r = None \/ exists s o, r = Some (s, o) /\ k s = None.
Proof.
  destruct r as [[s o]|]; [|left; reflexivity].
  intros H. right. exists s, o. split; [reflexivity|].
  unfold and_then in H. destruct (k s) as [[s' o']|]; [discriminate|reflexivity].
Qed.

Lemma schedule_stage_total e s :
  exists s' o, schedule_stage e s = Some (s', o) /\ 0 <= total_delay o <= 2000.
Proof.
  unfold schedule_stage. destruct (_ >=? _).
  - destruct (checkMedicinesAuto _ _) as [s' o] eqn:Hc.
    exists s', o. split; [reflexivity|].
    change o with (snd (s', o)). rewrite <- Hc, check_out, total_delay_app.
    assert (H1 : forall b : bool,
              0 <= total_delay (if b then hydration_nudge else []) <= 1200)
      by (intros [|]; [change (total_delay hydration_nudge) with 1200|
                       change (total_delay []) with 0]; lia).
    pose proof (H1 (hydration_due (le_sched_now e)
                      (set_lastScheduleCheck (le_sched_stamp e) s))).
    cbv zeta. destruct (_ >=? 0).
    + assert (H2 : forall m, total_delay (med_due_prompt m) = 800)
        by reflexivity.
      rewrite H2. lia.
    + change (total_delay []) with 0. lia.
  - exists s, []. split; [reflexivity|]. change (total_delay []) with 0. lia.
Qed.

Lemma memory_stage_total e s :
  exists s' o, memory_stage e s = Some (s', o) /\ 0 <= total_delay o <= 1100.
Proof.
  unfold memory_stage.
  destruct (readBtnOnce_cases (le_mem e) BTN_MEMORY_PIN 0 s)
    as [(_ & ->)|(_ & ->)]; eexists; eexists; (split; [reflexivity|]).
  - change (total_delay (shortBeep ++ memoryPromptScan)) with 1100. lia.
  - change (total_delay ([] ++ [])) with 0. lia.
Qed.

Lemma med_stage_total e s :
  exists s' o, med_stage e s = Some (s', o) /\ 0 <= total_delay o <= 1650.
Proof.
  unfold med_stage.
  destruct (readBtnOnce_cases (le_med e) BTN_MED_PIN 1 s)
    as [(_ & ->)|(_ & ->)].
  - destruct (confirmFirstPendingMed _ _ _) as [s' o] eqn:Hc.
    exists s', (shortBeep ++ o). split; [reflexivity|].
    rewrite total_delay_app. change (total_delay shortBeep) with 100.
    change o with (snd (s', o)). rewrite <- Hc.
    unfold confirmFirstPendingMed. destruct (_ >=? 0); cbn [snd].
    + assert (H2 : forall m a, total_delay (taken_prompt m a) = 1550)
        by reflexivity.
      rewrite H2. lia.
    + assert (H2 : forall m, total_delay (next_med_prompt m) = 1400)
        by reflexivity.
      rewrite H2. lia.
  - exists s, []. split; [reflexivity|]. change (total_delay []) with 0. lia.
Qed.

Lemma exercise_stage_total e s :
  exists s' o, exercise_stage e s = Some (s', o)
               /\ 0 <= total_delay o <= 29300.
Proof.
  unfold exercise_stage.
  destruct (readBtnOnce_cases (le_ex e) BTN_EX_PIN 2 s)
    as [(_ & ->)|(_ & ->)]; eexists; eexists; (split; [reflexivity|]).
  - change (total_delay (shortBeep ++ exerciseFlow)) with 29300. lia.
  - change (total_delay ([] ++ [])) with 0. lia.
Qed.

Lemma idle_stage_total e s :
  exists s' o, idle_stage e s = Some (s', o) /\ total_delay o = 0.
Proof.
  unfold idle_stage. destruct (_ >? _); eexists; eexists;
    (split; [reflexivity|]); reflexivity.
Qed.

(** X11. An iteration of [loop] can only block inside a tag session or
    inside the SOS flow: if it does not return, either a tag was read and
    the presence loop is still running, or the SOS line read LOW at the
    inline test and the pulse loop is still running.  With no tag at the
    reader and the SOS line HIGH at its test, the iteration always returns,
    whatever the state, the clock and the other buttons, and the time it
    spends in [delay] is between 20 ms and 34070 ms (scheduler screens,
    memory prompt, acknowledgment and the whole breathing exercise in one
    iteration). *)
Theorem loop_blocks_only_in_session_or_sos (e : LoopEnv) (s : State) :
  (loop e s = None ->
   (exists bytes,
      card_read (rf_first (le_rfid e)) = Some bytes /\
      session_loop (rf_t0 (le_rfid e)) (rf_polls (le_rfid e)) = None) \/
   (digitalRead (le_sos e) BTN_SOS_PIN = LOW /\
    sos_loop (sos_start (le_sos_flow e)) (sos_ticks (le_sos_flow e)) = None))
  /\
  (card_read (rf_first (le_rfid e)) = None ->
   digitalRead (le_sos e) BTN_SOS_PIN = HIGH ->
   exists s' out,
     loop e s = Some (s', out) /\ 20 <= total_delay out <= 34070).
Proof.
  split.
  - unfold loop. intros H.
    apply and_then_none in H as [H|(s7 & o7 & _ & H)]; [|discriminate H].
    apply and_then_none in H as [H|(s6 & o6 & _ & H)];
      [|destruct (idle_stage_total e s6) as (? & ? & Hi & _); congruence].
    apply and_then_none in H as [H|(s5 & o5 & _ & H)].
    + apply and_then_none in H as [H|(s4 & o4 & _ & H)];
        [|destruct (exercise_stage_total e s4) as (? & ? & Hi & _);
          congruence].
      apply and_then_none in H as [H|(s3 & o3 & _ & H)];
        [|destruct (med_stage_total e s3) as (? & ? & Hi & _); congruence].
      apply and_then_none in H as [H|(s2 & o2 & _ & H)];
        [|destruct (memory_stage_total e s2) as (? & ? & Hi & _); congruence].
      apply and_then_none in H as [H|(s1 & o1 & _ & H)];
        [|destruct (schedule_stage_total e s1) as (? & ? & Hi & _);
          congruence].
      left. revert H. unfold handleRFID_Auto.
      destruct (card_read _) as [bytes|]; [|discriminate].
      destruct (session_loop _ _); [discriminate|].
      intros _. exists bytes. split; reflexivity.
    + right. revert H. unfold sos_stage.
      destruct (digitalRead (le_sos e) BTN_SOS_PIN); [|discriminate].
      cbn [is_low]. destruct (_ >? _); [|discriminate].
      unfold sosFlow. destruct (sos_loop _ _); [discriminate|].
      intros _. split; reflexivity.
  - intros Hc Hs. unfold loop.
    rewrite (handle_no_card _ s Hc).
    destruct (schedule_stage_total e s) as (s1 & o1 & E1 & B1).
    destruct (memory_stage_total e s1) as (s2 & o2 & E2 & B2).
    destruct (med_stage_total e s2) as (s3 & o3 & E3 & B3).
    destruct (exercise_stage_total e s3) as (s4 & o4 & E4 & B4).
    assert (E5 : sos_stage e s4 = Some (s4, []))
      by (unfold sos_stage; rewrite Hs; reflexivity).
    destruct (idle_stage_total e s4) as (s6 & o6 & E6 & B6).
    rewrite (and_then_some _ _ _ _ _ E1), (and_then_some _ _ _ _ _ E2),
      (and_then_some _ _ _ _ _ E3), (and_then_some _ _ _ _ _ E4),
      (and_then_some _ _ _ _ _ E5), (and_then_some _ _ _ _ _ E6).
    eexists. eexists. split; [reflexivity|].
    rewrite !total_delay_app. change (total_delay []) with 0.
    change (total_delay [Delay 20]) with 20. lia.
Qed.

Lemma loop_blocks_only_in_session_or_sos_witness :
  exists s' out,
    loop (mkLoopEnv (mkRfidEnv no_tag (morning 5) 0 []) 7000 7001 (morning 5)
            (pressed BTN_EX_PIN 7002) (pressed BTN_EX_PIN 7003) (morning 5) 0
            (pressed BTN_EX_PIN 7004) (pressed BTN_EX_PIN 36400)
            (mkSosEnv 0 []) 36401 36402) booted
    = Some (s', out) /\ 20 <= total_delay out <= 34070.
Proof.
  apply (proj2 (loop_blocks_only_in_session_or_sos _ booted));
    reflexivity.
Defined.

(** ** The scheduler guard *)

Lemma and_then_Some_inv (r : Res) (k : State -> Res) s' o :
  r >>> k = Some (s', o) ->
  exists s1 o1 o2, r = Some (s1, o1) /\ k s1 = Some (s', o2) /\ o = o1 ++ o2.
Proof.
  destruct r as [[s1 o1]|]; [|discriminate]. unfold and_then.
  destruct (k s1) as [[s2 o2]|] eqn:Hk; [|discriminate].
  intros [= <- <-]. exists s1, o1, o2. auto.
Qed.

Lemma some_pair_fst {A B} (p : A * B) a b : Some p = Some (a, b) -> fst p = a.
Proof. intros [= ->]. reflexivity. Qed.

Lemma schedule_frame_refl s : schedule_frame s s.
Proof. repeat split. intros i m' H _. exact H. Qed.

Lemma schedule_frame_trans a b c :
  schedule_frame a b -> schedule_frame b c -> schedule_frame a c.
Proof.
  intros (H1 & H2 & H3) (K1 & K2 & K3). split; [congruence|].
  split; [congruence|].
  intros i m' Hc Hp. apply H3; [|exact Hp]. apply K3; assumption.
Qed.

Lemma schedule_frame_meds s s' :
  meds s' = meds s -> lastScheduleCheck s' = lastScheduleCheck s ->
  lastHydrationHour s' = lastHydrationHour s -> schedule_frame s s'.
Proof.
  intros Hm H1 H2. split; [exact H1|]. split; [exact H2|].
  intros i m' H _. rewrite <- Hm. exact H.
Qed.

Lemma readBtnOnce_schedule_frame e pin idx s :
  schedule_frame s (snd (fst (readBtnOnce e pin idx s))).
Proof.
  destruct (readBtnOnce_frame e pin idx s) as (H1 & _ & H2 & H3 & _).
  apply schedule_frame_meds; assumption.
Qed.

Lemma confirm_schedule_frame now rnd s :
  schedule_frame s (fst (confirmFirstPendingMed now rnd s)).
Proof.
  destruct (confirm_frame now rnd s) as (_ & _ & _ & H1 & H2).
  split; [exact H1|]. split; [exact H2|].
  intros i m' Hi Hp.
  destruct (Z.eq_dec (scan_first MedItem.pending 0 (meds s)) (Z.of_nat i))
    as [He|Hne].
  - exfalso. apply scan_first_at in He.
    pose proof He as [(m & Hm & _) _].
    rewrite (confirm_pending _ _ _ _ _ He Hm) in Hi.
    cbn [fst meds set_meds] in Hi.
    rewrite list_lookup_insert_eq in Hi by (eapply lookup_lt_Some; eauto).
    injection Hi as <-. discriminate Hp.
  - rewrite <- (confirm_other now rnd s i Hne). exact Hi.
Qed.

Lemma memory_stage_frame e s s' o :
  memory_stage e s = Some (s', o) -> schedule_frame s s'.
Proof.
  unfold memory_stage.
  pose proof (readBtnOnce_schedule_frame (le_mem e) BTN_MEMORY_PIN 0 s) as Hf.
  destruct (readBtnOnce _ _ _ _) as [[hit s1] o1]. cbn [fst snd] in Hf.
  intros [= <- _]. exact Hf.
Qed.

Lemma med_stage_frame e s s' o :
  med_stage e s = Some (s', o) -> schedule_frame s s'.
Proof.
  unfold med_stage.
  pose proof (readBtnOnce_schedule_frame (le_med e) BTN_MED_PIN 1 s) as Hf.
  destruct (readBtnOnce _ _ _ _) as [[hit s1] o1]. cbn [fst snd] in Hf.
  destruct hit; [|intros [= <- _]; exact Hf].
  pose proof (confirm_schedule_frame (le_ack_now e) (le_ack_rnd e) s1) as Hc.
  destruct (confirmFirstPendingMed _ _ _) as [s2 o2]. cbn [fst] in Hc.
  intros [= <- _]. eapply schedule_frame_trans; eauto.
Qed.

Lemma exercise_stage_frame e s s' o :
  exercise_stage e s = Some (s', o) -> schedule_frame s s'.
Proof.
  unfold exercise_stage.
  pose proof (readBtnOnce_schedule_frame (le_ex e) BTN_EX_PIN 2 s) as Hf.
  destruct (readBtnOnce _ _ _ _) as [[hit s1] o1]. cbn [fst snd] in Hf.
  intros [= <- _]. exact Hf.
Qed.

Lemma sos_stage_frame e s s' o :
  sos_stage e s = Some (s', o) -> schedule_frame s s'.
Proof.
  destruct (sos_stage_cases e s) as [(_ & ->)|(_ & ->)].
  - destruct (sosFlow _); [|discriminate]. intros [= <- _].
    apply schedule_frame_meds; reflexivity.
  - intros [= <- _]. apply schedule_frame_refl.
Qed.

Lemma idle_stage_frame e s s' o :
  idle_stage e s = Some (s', o) -> schedule_frame s s'.
Proof.
  unfold idle_stage. destruct (_ >? _); intros [= <- _];
    [apply schedule_frame_meds; reflexivity|apply schedule_frame_refl].
Qed.

Lemma handle_schedule_frame e s s' o :
  handleRFID_Auto e s = Some (s', o) -> schedule_frame s s'.
Proof.
  intros H. apply handleRFID_frame in H as (H1 & _ & _ & H2 & H3 & _).
  apply schedule_frame_meds; assumption.
Qed.

(** X12. The scheduler is throttled by [lastScheduleCheck]: in an
    iteration of [loop] that reads [millis()] less than 5000 ms (modulo
    2^32) after [lastScheduleCheck], the scheduler does not run, so the
    iteration leaves [lastScheduleCheck] and the hydration marker as they
    were and makes no entry pending, whatever the clock says and whichever
    buttons are pressed; otherwise the scheduler runs once,
    [lastScheduleCheck] is the fresh reading of [millis()], and the marker
    is the one the hydration test of that cycle leaves.  No other stage of
    the loop writes either variable or marks an entry. *)
Theorem scheduler_is_throttled
  (e : LoopEnv) (s s' : State) (out : list Out) :
  loop e s = Some (s', out) ->
  let elapsed := u32 (le_sched_guard e - lastScheduleCheck s) in
  (elapsed < SCHEDULE_CHECK_MS -> schedule_frame s s') /\
  (SCHEDULE_CHECK_MS <= elapsed ->
   lastScheduleCheck s' = le_sched_stamp e /\
   lastHydrationHour s' =
     (if hydration_due (le_sched_now e) s
      then DateTime.hour (le_sched_now e) else lastHydrationHour s) /\
   no_new_pending (meds (fst (checkMedicinesAuto (le_sched_now e) s)))
     (meds s')).
Proof.
  intros H elapsed. unfold loop in H.
  apply and_then_Some_inv in H as (s7 & ? & ? & H & [= <- _] & _).
  apply and_then_Some_inv in H as (s6 & ? & ? & H & H7 & _).
  apply and_then_Some_inv in H as (s5 & ? & ? & H & H6 & _).
  apply and_then_Some_inv in H as (s4 & ? & ? & H & H5 & _).
  apply and_then_Some_inv in H as (s3 & ? & ? & H & H4 & _).
  apply and_then_Some_inv in H as (s2 & ? & ? & H & H3 & _).
  apply and_then_Some_inv in H as (s1 & ? & ? & H1 & H2 & _).
  apply idle_stage_frame in H7. apply sos_stage_frame in H6.
  apply exercise_stage_frame in H5. apply med_stage_frame in H4.
  apply memory_stage_frame in H3.
  assert (Hrest : schedule_frame s2 s7).
  { eapply schedule_frame_trans; [exact H3|].
    eapply schedule_frame_trans; [exact H4|].
    eapply schedule_frame_trans; [exact H5|].
    eapply schedule_frame_trans; [exact H6|exact H7]. }
  pose proof (handleRFID_frame _ _ _ _ H1) as (Hm1 & _ & _ & Hh1 & Hc1 & _).
  apply handle_schedule_frame in H1.
  unfold schedule_stage in H2. subst elapsed. rewrite Hc1 in H2.
  unfold SCHEDULE_CHECK_MS in *.
  destruct (Z.geb_spec (u32 (le_sched_guard e - lastScheduleCheck s)) 5000)
    as [Hge|Hlt].
  - split; [intros; lia|]. intros _.
    apply some_pair_fst in H2.
    assert (Hs2 : s2 = fst (checkMedicinesAuto (le_sched_now e)
                              (set_lastScheduleCheck (le_sched_stamp e) s1)))
      by (symmetry; exact H2).
    destruct Hrest as (R1 & R2 & R3).
    destruct (check_frame (le_sched_now e)
                (set_lastScheduleCheck (le_sched_stamp e) s1))
      as (_ & _ & _ & Hc).
    rewrite <- Hs2 in Hc.
    pose proof (check_marker (le_sched_now e)
                  (set_lastScheduleCheck (le_sched_stamp e) s1)) as Hmk.
    rewrite <- Hs2 in Hmk.
    split; [rewrite R1, Hc; reflexivity|]. split.
    + rewrite R2, Hmk. unfold hydration_due.
      cbn [lastHydrationHour set_lastScheduleCheck]. rewrite Hh1.
      reflexivity.
    + assert (Hms : meds (fst (checkMedicinesAuto (le_sched_now e) s))
                    = meds s2).
      { rewrite Hs2. unfold checkMedicinesAuto. cbn [fst meds set_meds].
        destruct (hydration_due _ s); destruct (hydration_due _ _);
          cbn [meds set_lastHydrationHour set_lastScheduleCheck];
          rewrite Hm1; reflexivity. }
      rewrite Hms. exact R3.
  - split; [|intros; lia]. intros _.
    injection H2 as <- _.
    eapply schedule_frame_trans; [exact H1|exact Hrest].
Qed.

Lemma scheduler_is_throttled_witness :
  let e := quiet_iteration 6900 (morning 5) in
  exists s' out,
    loop e booted = Some (s', out) /\
    (u32 (le_sched_guard e - lastScheduleCheck booted) < SCHEDULE_CHECK_MS ->
     schedule_frame booted s') /\
    (SCHEDULE_CHECK_MS <= u32 (le_sched_guard e - lastScheduleCheck booted) ->
     lastScheduleCheck s' = le_sched_stamp e /\
     lastHydrationHour s' =
       (if hydration_due (le_sched_now e) booted
        then DateTime.hour (le_sched_now e) else lastHydrationHour booted) /\
     no_new_pending (meds (fst (checkMedicinesAuto (le_sched_now e) booted)))
       (meds s')).
Proof.
  intros e.
  destruct (loop e booted) as [[s' out]|] eqn:Hl;
    [|vm_compute in Hl; discriminate Hl].
  exists s', out. split; [reflexivity|].
  exact (scheduler_is_throttled e booted s' out Hl).
Defined.

(** ** Texts and the width of the display *)

Lemma lcd_run_app st a b : lcd_run st (a ++ b) = lcd_run (lcd_run st a) b.
Proof. unfold lcd_run. apply foldl_app. Qed.

Lemma lcd_run_mono out : forall st, (snd st <= snd (lcd_run st out))%nat.
Proof.
  induction out as [|o out IH]; intros st; [apply Nat.le_refl|].
  change (lcd_run st (o :: out)) with (lcd_run (lcd_step st o) out).
  etransitivity; [|apply IH].
  destruct o; cbn [lcd_step snd]; lia.
Qed.

Lemma lcd_run_waits st k : lcd_run st (replicate k (Delay 20)) = st.
Proof. induction k as [|k IH]; [reflexivity|exact IH]. Qed.

Lemma lcd_run_patterns st k :
  lcd_run st (concat (replicate k sos_pattern)) = st.
Proof.
  induction k as [|k IH]; [reflexivity|].
  cbn [replicate concat]. rewrite lcd_run_app. exact IH.
Qed.

Lemma med_at_key ms z : static_meds ms -> In (med_key (med_at ms z)) med_keys.
Proof.
  intros Hst. destruct (med_at_cases ms z) as [[i Hi]|Hd].
  - right. apply list_elem_of_In.
    change (schedule_of meds_init) with (med_key <$> meds_init).
    unfold static_meds, schedule_of in Hst.
    change ((fun m => (MedItem.name m, MedItem.hour m, MedItem.minute m))
            <$> ms) with (med_key <$> ms) in Hst.
    change ((fun m => (MedItem.name m, MedItem.hour m, MedItem.minute m))
            <$> meds_init) with (med_key <$> meds_init) in Hst.
    rewrite <- Hst. apply list_elem_of_fmap. exists (med_at ms z).
    split; [reflexivity|]. eapply list_elem_of_lookup_2; exact Hi.
  - left. rewrite Hd. reflexivity.
Qed.

Lemma prompts_of_key m :
  med_due_prompt m = med_due_prompt (of_key (med_key m)) /\
  next_med_prompt m = next_med_prompt (of_key (med_key m)) /\
  forall aff, taken_prompt m aff = taken_prompt (of_key (med_key m)) aff.
Proof. destruct m. repeat split. Qed.

Lemma prompts_fit k st :
  In k med_keys -> st = (0%nat, 0%nat) \/ st = (15%nat, 15%nat) ->
  (snd (lcd_run st (med_due_prompt (of_key k))) <= LCD_COLS)%nat /\
  (widest (next_med_prompt (of_key k)) <= LCD_COLS)%nat /\
  forall aff,
    (widest (taken_prompt (of_key k) aff) <= LCD_COLS)%nat <->
    (String.length aff <= LCD_COLS)%nat.
Proof.
  intros Hin Hst.
  assert (Hall : forallb (fun k =>
      (snd (lcd_run (0, 0)%nat (med_due_prompt (of_key k))) <=? 16)%nat
      && (snd (lcd_run (15, 15)%nat (med_due_prompt (of_key k))) <=? 16)%nat
      && (widest (next_med_prompt (of_key k)) <=? 16)%nat
      && (7 + String.length (fst (fst k)) <=? 16)%nat) med_keys = true)
    by (vm_compute; reflexivity).
  rewrite forallb_forall in Hall. specialize (Hall k Hin).
  apply andb_prop in Hall as [Hall H4]. apply andb_prop in Hall as [Hall H3].
  apply andb_prop in Hall as [H1 H2].
  apply Nat.leb_le in H1, H2, H3, H4. unfold LCD_COLS.
  split; [destruct Hst as [->| ->]; assumption|]. split; [exact H3|].
  intros aff. unfold widest, taken_prompt, of_key.
  destruct k as [[n h] mi]. cbn [fst snd MedItem.name] in *.
  change (lcd_run (0, 0)%nat
            ([LcdClear; LcdSetCursor 0 0; LcdPrint "Taken: "; LcdPrint n;
              LcdSetCursor 0 1; LcdPrint aff]
             ++ shortBeep ++ [Delay 150] ++ shortBeep ++ [Delay 1200]
             ++ lcdMenu))
    with (let w := Nat.max (Nat.max (Nat.max 0 7) (7 + String.length n))
                     (0 + String.length aff) in
          (15%nat, Nat.max (Nat.max w 15) 15)).
  cbv zeta. cbn [snd]. lia.
Qed.

Lemma check_fits now s :
  tables_ok s -> (widest (snd (checkMedicinesAuto now s)) <= LCD_COLS)%nat.
Proof.
  intros ((_ & _ & Hlen) & Hst & _).
  rewrite check_out. unfold widest. rewrite lcd_run_app.
  assert (H1 : forall b : bool,
            lcd_run (0, 0)%nat (if b then hydration_nudge else [])
            = (0, 0)%nat \/
            lcd_run (0, 0)%nat (if b then hydration_nudge else [])
            = (15, 15)%nat)
    by (intros [|]; [right|left]; reflexivity).
  specialize (H1 (hydration_due now s)).
  cbv zeta. destruct (_ >=? 0).
  - set (ms := due_check now (ymdNow now) (meds s)).
    set (idx := scan_first MedItem.pending 0 ms).
    rewrite (proj1 (prompts_of_key (med_at ms idx))).
    assert (Hk : In (med_key (med_at ms idx)) med_keys).
    { apply med_at_key. unfold static_meds. subst ms.
      rewrite due_check_map by exact Hlen. rewrite schedule_due. exact Hst. }
    destruct (prompts_fit (med_key (med_at ms idx)) _ Hk H1) as (Hfit & _).
    exact Hfit.
  - destruct H1 as [H1|H1]; rewrite H1; unfold LCD_COLS, lcd_run;
      cbn [foldl snd]; lia.
Qed.

Lemma confirm_fits now rnd s :
  tables_ok s -> 0 <= rnd < AFF_COUNT ->
  (widest (snd (confirmFirstPendingMed now rnd s)) <= LCD_COLS)%nat <->
  (none_pending (meds s) \/ rnd <> 4).
Proof.
  intros (_ & Hst & _) Hrnd.
  destruct (pending_cases (meds s)) as [Hn|[i Hf]].
  - rewrite (confirm_idle _ _ _ Hn). cbn [snd].
    split; [intros _; left; exact Hn|intros _].
    set (z := let found := scan_first (later_than now) 0 (meds s) in
              if found =? -1 then 0 else found).
    rewrite (proj1 (proj2 (prompts_of_key (med_at (meds s) z)))).
    assert (Hk : In (med_key (med_at (meds s) z)) med_keys)
      by (apply med_at_key; exact Hst).
    destruct (prompts_fit (med_key (med_at (meds s) z)) (0, 0)%nat Hk
                (or_introl eq_refl)) as (_ & Hfit & _).
    exact Hfit.
  - pose proof Hf as [(m & Hm & Hp) _].
    rewrite (confirm_pending _ _ _ _ _ Hf Hm). cbn [snd].
    rewrite (proj2 (proj2 (prompts_of_key (acknowledge (ymdNow now) m)))).
    assert (Hk : In (med_key (acknowledge (ymdNow now) m)) med_keys).
    { right. apply list_elem_of_In.
      change (med_key (acknowledge (ymdNow now) m)) with (med_key m).
      unfold static_meds in Hst. rewrite <- Hst.
      apply list_elem_of_fmap. exists m. split; [reflexivity|].
      eapply list_elem_of_lookup_2; exact Hm. }
    destruct (prompts_fit (med_key (acknowledge (ymdNow now) m)) (0, 0)%nat
                Hk (or_introl eq_refl)) as (_ & _ & Haff).
    rewrite Haff.
    assert (Hu : u8 rnd = rnd).
    { unfold AFF_COUNT in Hrnd. simpl in Hrnd. unfold u8.
      apply Z.mod_small. change (2 ^ 8) with 256. lia. }
    rewrite Hu. unfold AFF_COUNT in Hrnd. simpl in Hrnd.
    unfold LCD_COLS.
    assert (Hcase : rnd = 0 \/ rnd = 1 \/ rnd = 2 \/ rnd = 3 \/ rnd = 4)
      by lia.
    assert (Hlen : (rnd = 4 /\
                    String.length (default EmptyString (AFFS !! Z.to_nat rnd))
                    = 19%nat) \/
                   (rnd <> 4 /\
                    (String.length (default EmptyString (AFFS !! Z.to_nat rnd))
                     <= 15)%nat)).
    { destruct Hcase as [->|[->|[->|[->| ->]]]];
        [right|right|right|right|left]; (split; [lia|]);
        vm_compute; repeat constructor. }
    split.
    + intros Hl. right. destruct Hlen as [[_ H19]|[Hne _]]; [lia|exact Hne].
    + intros [Hn|Hne].
      * specialize (Hn i m Hm). congruence.
      * destruct Hlen as [[H4 _]|[_ H15]]; [contradiction|lia].
Qed.

Lemma setup_fits se : (widest (snd (setup se init_state)) <= LCD_COLS)%nat.
Proof.
  unfold setup, lcdStartup, widest. cbn [snd].
  set (line1 := snprintf_s 17 _). set (line2 := snprintf_s 17 _).
  assert (H1 : (String.length line1 <= 16)%nat)
    by apply substring_length_le.
  assert (H2 : (String.length line2 <= 16)%nat)
    by apply substring_length_le.
  rewrite !lcd_run_app.
  set (pro := [PinMode BUZZER_PIN OUTPUT; _; _; _; _; _; _; _; _; _; _; _; _]).
  change (lcd_run (0, 0)%nat pro) with (0, 0)%nat.
  assert (Hr : lcd_run (0, 0)%nat (rtc_report se) = (0, 0)%nat \/
               lcd_run (0, 0)%nat (rtc_report se) = (12, 13)%nat \/
               lcd_run (0, 0)%nat (rtc_report se) = (8, 14)%nat).
  { unfold rtc_report. destruct (se_begin se); cbn [negb].
    - destruct (se_lostPower se); [right; right|left]; reflexivity.
    - right. left. reflexivity. }
  set (screen := [LcdClear; LcdSetCursor 0 0; LcdPrint line1;
                  LcdSetCursor 0 1; LcdPrint line2; Delay 1800]).
  assert (Hs : forall c w,
            lcd_run (c, w) screen =
            (String.length line2,
             Nat.max (Nat.max w (0 + String.length line1))
               (0 + String.length line2))) by reflexivity.
  assert (Hm : forall c w, lcd_run (c, w) lcdMenu
                           = (15%nat, Nat.max (Nat.max w 15) 15))
    by reflexivity.
  unfold LCD_COLS.
  destruct Hr as [->|[->| ->]]; rewrite Hs, Hm; cbn [snd]; lia.
Qed.

Lemma sos_widest e out : sosFlow e = Some out -> widest out = 17%nat.
Proof.
  unfold sosFlow. destruct (sos_loop _ _) as [p|] eqn:Hp; [|discriminate].
  pose proof (sos_loop_spec (sos_start e) (sos_ticks e)) as Hs.
  rewrite Hp in Hs. destruct Hs as (k & _ & _ & _ & _ & ->).
  intros [= <-]. unfold widest.
  change (snd (lcd_run (0, 0)%nat
                 (sos_alert_screen ++ concat (replicate k sos_pattern)
                  ++ sos_end_screen ++ lcdMenu)) = 17%nat).
  rewrite lcd_run_app.
  change (lcd_run (0, 0)%nat sos_alert_screen) with (16, 17)%nat.
  rewrite lcd_run_app, lcd_run_patterns. reflexivity.
Qed.

Lemma session_events_lcd st waits k :
  waits = replicate k (Delay 20) ->
  lcd_run st (session_events waits) = (15%nat, Nat.max (Nat.max (snd st) 15) 15).
Proof.
  intros ->. unfold session_events.
  rewrite lcd_run_app.
  change (lcd_run st [DigitalWrite BUZZER_PIN HIGH]) with st.
  rewrite lcd_run_app, lcd_run_waits. reflexivity.
Qed.

Lemma handle_fits_cols e s s' out bytes :
  tables_ok s -> card_read (rf_first e) = Some bytes ->
  handleRFID_Auto e s = Some (s', out) ->
  let idx := scan_first (uid_matches (uidToHex bytes)) 0 (knownItems s) in
  (widest out <= LCD_COLS)%nat <->
  (idx = 0 \/ idx = 2 \/ (idx = -1 /\ (length bytes <= 5)%nat)).
Proof.
  intros (_ & _ & Hsk) Hc Hh idx.
  pose proof (session_loop_spec (rf_polls e) (rf_t0 e)) as Hs.
  destruct (static_known_entries _ Hsk) as (a & b & c & Hi & Ha & Hb & Hcc).
  injection Ha as _ Ha. injection Hb as _ Hb. injection Hcc as _ Hcc.
  pose proof (scan_first_range (uid_matches (uidToHex bytes))
                (knownItems s) 0) as Hr.
  fold idx in Hr. rewrite Hi in Hr. cbn [length] in Hr.
  assert (Hseen : (String.length (snprintf_s 9 (timeToStr (rf_now e))) <= 8)%nat)
    by apply substring_length_le.
  assert (Hfound : forall i k,
            idx = Z.of_nat i -> knownItems s !! i = Some k ->
            widest out =
            Nat.max (Nat.max (Nat.max (7 + String.length (KnownItem.name k))
                       (6 + String.length
                              (snprintf_s 9 (timeToStr (rf_now e))))) 15) 15).
  { intros i k Hidx Hk.
    rewrite (handle_found e s bytes i k Hc Hidx Hk) in Hh.
    destruct (session_loop _ _) as [waits|]; [|discriminate].
    destruct Hs as (n & Hw & _).
    apply some_pair_snd in Hh. cbn [snd] in Hh. subst out.
    unfold widest. rewrite lcd_run_app, (session_events_lcd _ _ n Hw).
    unfold found_screen. cbn [lcd_run foldl lcd_step fst snd Z.to_nat].
    simpl String.length. lia. }
  unfold LCD_COLS.
  destruct Hr as [Hr|Hr].
  - rewrite (handle_unknown e s bytes Hc Hr) in Hh.
    destruct (session_loop _ _) as [waits|]; [|discriminate].
    destruct Hs as (n & Hw & _).
    apply some_pair_snd in Hh. cbn [snd] in Hh. subst out.
    unfold widest. rewrite lcd_run_app, (session_events_lcd _ _ n Hw).
    unfold unknown_screen. cbn [lcd_run foldl lcd_step fst snd Z.to_nat].
    rewrite uidToHex_length. simpl String.length. lia.
  - assert (Hcase : idx = 0 \/ idx = 1 \/ idx = 2) by lia.
    destruct Hcase as [H0|[H1|H2]].
    + rewrite (Hfound 0%nat a H0 ltac:(rewrite Hi; reflexivity)), Ha.
      simpl String.length. lia.
    + rewrite (Hfound 1%nat b H1 ltac:(rewrite Hi; reflexivity)), Hb.
      simpl String.length. lia.
    + rewrite (Hfound 2%nat c H2 ltac:(rewrite Hi; reflexivity)), Hcc.
      simpl String.length. lia.
Qed.

(** X13. The display is declared with 16 columns.  In every state the
    firmware can reach: the screens of the scheduler (hydration nudge, MED
    DUE prompt), the Next Med screen, the startup screen with the clock
    report, the memory prompt, the exercise screens and the menu never
    write beyond column 16, whatever the clock reads; the "Taken" screen
    does so exactly when the phrase drawn is number 4 (19 characters); the
    tag screen stays within the 16 columns exactly when the tag is entry 0
    or 2 of the table or is unknown with a UID of at most 5 bytes (entry 1,
    "Medicine Box", needs 19 columns behind "Found: "); and the first line
    of the SOS screen always takes 17 columns. *)
Theorem texts_and_the_16_columns (s : State) :
  reachable s ->
  (forall now,
     (widest (snd (checkMedicinesAuto now s)) <= LCD_COLS)%nat) /\
  (forall now rnd, 0 <= rnd < AFF_COUNT ->
     ((widest (snd (confirmFirstPendingMed now rnd s)) <= LCD_COLS)%nat <->
      (none_pending (meds s) \/ rnd <> 4))) /\
  (forall e s' out bytes,
     card_read (rf_first e) = Some bytes ->
     handleRFID_Auto e s = Some (s', out) ->
     let idx := scan_first (uid_matches (uidToHex bytes)) 0 (knownItems s) in
     ((widest out <= LCD_COLS)%nat <->
      (idx = 0 \/ idx = 2 \/ (idx = -1 /\ (length bytes <= 5)%nat)))) /\
  (forall e out, sosFlow e = Some out -> widest out = 17%nat) /\
  (forall se, (widest (snd (setup se init_state)) <= LCD_COLS)%nat) /\
  (widest memoryPromptScan <= LCD_COLS)%nat /\
  (widest exerciseFlow <= LCD_COLS)%nat /\
  (widest lcdMenu <= LCD_COLS)%nat.
Proof.
  intros Hr. pose proof (reachable_tables_ok s Hr) as Ht.
  split; [intros now; apply check_fits; exact Ht|].
  split; [intros now rnd Hrnd; apply confirm_fits; assumption|].
  split; [intros e s' out bytes Hc Hh; eapply handle_fits_cols; eauto|].
  split; [exact sos_widest|].
  split; [exact setup_fits|].
  unfold LCD_COLS.
  split; [change (widest memoryPromptScan) with 13%nat; lia|].
  split; [change (widest exerciseFlow) with 15%nat; lia|].
  change (widest lcdMenu) with 15%nat; lia.
Qed.

Lemma texts_and_the_16_columns_witness :
  (forall now,
     (widest (snd (checkMedicinesAuto now booted)) <= LCD_COLS)%nat) /\
  (forall now rnd, 0 <= rnd < AFF_COUNT ->
     ((widest (snd (confirmFirstPendingMed now rnd booted)) <= LCD_COLS)%nat
      <-> (none_pending (meds booted) \/ rnd <> 4))).
Proof.
  assert (Hb : reachable booted) by reach_booted.
  destruct (texts_and_the_16_columns booted Hb) as (H1 & H2 & _).
  split; [exact H1|exact H2].
Defined.

(** ** An iteration in which nothing happens *)

(** X14. When no tag is at the reader, the scheduler guard has not
    elapsed and the four button lines read HIGH, an iteration of [loop]
    does nothing but wait 20 ms: the state is unchanged and nothing is
    shown or sounded, except that once more than 15000 ms (modulo 2^32)
    have passed since [lastActivity] the menu is redrawn and
    [lastActivity] is set to the fresh reading of [millis()], so that the
    next redraw is again 15 s away. *)
Theorem idle_iteration_only_waits (e : LoopEnv) (s : State) :
  card_read (rf_first (le_rfid e)) = None ->
  u32 (le_sched_guard e - lastScheduleCheck s) < SCHEDULE_CHECK_MS ->
  digitalRead (le_mem e) BTN_MEMORY_PIN = HIGH ->
  digitalRead (le_med e) BTN_MED_PIN = HIGH ->
  digitalRead (le_ex e) BTN_EX_PIN = HIGH ->
  digitalRead (le_sos e) BTN_SOS_PIN = HIGH ->
  (u32 (le_idle_guard e - lastActivity s) <= IDLE_MENU_MS ->
   loop e s = Some (s, [Delay 20])) /\
  (IDLE_MENU_MS < u32 (le_idle_guard e - lastActivity s) ->
   loop e s = Some (set_lastActivity (le_idle_stamp e) s,
                    lcdMenu ++ [Delay 20]) /\
   forall e', u32 (le_idle_guard e' - le_idle_stamp e) <= IDLE_MENU_MS ->
     idle_stage e' (set_lastActivity (le_idle_stamp e) s)
     = Some (set_lastActivity (le_idle_stamp e) s, [])).
Proof.
  intros Hc Hg H1 H2 H3 H4.
  assert (Hpre : loop e s = idle_stage e s >>> (fun s => Some (s, [Delay 20]))).
  { unfold loop. rewrite (handle_no_card _ s Hc).
    assert (E1 : schedule_stage e s = Some (s, [])).
    { unfold schedule_stage.
      destruct (Z.geb_spec (u32 (le_sched_guard e - lastScheduleCheck s))
                  SCHEDULE_CHECK_MS); [lia|reflexivity]. }
    assert (E2 : memory_stage e s = Some (s, []))
      by (unfold memory_stage, readBtnOnce; rewrite H1; reflexivity).
    assert (E3 : med_stage e s = Some (s, []))
      by (unfold med_stage, readBtnOnce; rewrite H2; reflexivity).
    assert (E4 : exercise_stage e s = Some (s, []))
      by (unfold exercise_stage, readBtnOnce; rewrite H3; reflexivity).
    assert (E5 : sos_stage e s = Some (s, []))
      by (unfold sos_stage; rewrite H4; reflexivity).
    rewrite (and_then_some _ _ _ _ _ E1), (and_then_some _ _ _ _ _ E2),
      (and_then_some _ _ _ _ _ E3), (and_then_some _ _ _ _ _ E4),
      (and_then_some _ _ _ _ _ E5).
    cbn [app]. rewrite ret_and_then. reflexivity. }
  rewrite Hpre. unfold idle_stage. split.
  - intros Hle.
    destruct (Z.gtb_spec (u32 (le_idle_guard e - lastActivity s)) IDLE_MENU_MS);
      [lia|reflexivity].
  - intros Hgt.
    destruct (Z.gtb_spec (u32 (le_idle_guard e - lastActivity s)) IDLE_MENU_MS);
      [|lia].
    split; [reflexivity|].
    intros e' Hle. cbn [lastActivity set_lastActivity].
    destruct (Z.gtb_spec (u32 (le_idle_guard e' - le_idle_stamp e))
                IDLE_MENU_MS); [lia|reflexivity].
Qed.

Lemma idle_iteration_only_waits_witness :
  let e := quiet_iteration 4000 (morning 5) in
  (u32 (le_idle_guard e - lastActivity booted) <= IDLE_MENU_MS ->
   loop e booted = Some (booted, [Delay 20])) /\
  (IDLE_MENU_MS < u32 (le_idle_guard e - lastActivity booted) ->
   loop e booted = Some (set_lastActivity (le_idle_stamp e) booted,
                         lcdMenu ++ [Delay 20]) /\
   forall e', u32 (le_idle_guard e' - le_idle_stamp e) <= IDLE_MENU_MS ->
     idle_stage e' (set_lastActivity (le_idle_stamp e) booted)
     = Some (set_lastActivity (le_idle_stamp e) booted, [])).
Proof.
  intros e.
  apply (idle_iteration_only_waits e booted); try reflexivity.
Defined.

(** ** The scheduled time on the screen *)

Lemma string_app_assoc (a b c : string) :
  ((a ++ b) ++ c)%string = (a ++ (b ++ c))%string.
Proof.
  induction a as [|x a IH]; [reflexivity|]. cbn [append]. rewrite IH.
  reflexivity.
Qed.

Lemma manual_padding v :
  0 <= v < 256 -> (two_digit_prefix v ++ print_dec v)%string = fmt_0d 2 v.
Proof.
  intros Hv.
  assert (Hall : forallb (fun k =>
      String.eqb (two_digit_prefix (Z.of_nat k) ++ print_dec (Z.of_nat k))
                 (fmt_0d 2 (Z.of_nat k))) (seq 0 256) = true)
    by (vm_compute; reflexivity).
  rewrite forallb_forall in Hall.
  specialize (Hall (Z.to_nat v)). rewrite Z2Nat.id in Hall by lia.
  apply String.eqb_eq, Hall, in_seq. lia.
Qed.

(** X15. The scheduled time is shown zero-padded as HH:MM.  The MED DUE
    and Next Med screens print the hour and the minute with a hand-written
    padding ("0" in front of a value below 10); for every [uint8_t] value
    the pieces join to the text "%02d" produces, so the screens read
    "MED DUE:" with HH:MM from column 9 and the name below, and the name
    followed by " @HH:MM"; it is the text with which [timeToStr] starts at
    any clock reading of that hour and minute. *)
Theorem scheduled_time_shown_as_hh_mm (m : MedItem.t) :
  0 <= MedItem.hour m < 256 ->
  0 <= MedItem.minute m < 256 ->
  let hhmm := (fmt_0d 2 (MedItem.hour m) ++ ":"
               ++ fmt_0d 2 (MedItem.minute m))%string in
  joined (med_due_prompt m) =
    [LcdClear; LcdSetCursor 0 0; LcdPrint "MED DUE:";
     LcdSetCursor 9 0; LcdPrint hhmm;
     LcdSetCursor 0 1; LcdPrint (MedItem.name m)]
    ++ longBeep ++ [Delay 500] /\
  joined (next_med_prompt m) =
    [LcdClear; LcdSetCursor 0 0; LcdPrint "Next Med:";
     LcdSetCursor 0 1; LcdPrint (MedItem.name m ++ " @" ++ hhmm);
     Delay 1400] ++ lcdMenu /\
  (forall t, DateTime.hour t = MedItem.hour m ->
             DateTime.minute t = MedItem.minute m ->
             timeToStr t = (hhmm ++ ":" ++ fmt_0d 2 (DateTime.second t))%string).
Proof.
  intros Hh Hm hhmm.
  assert (Hj : (two_digit_prefix (MedItem.hour m)
                ++ print_dec (MedItem.hour m) ++ ":"
                ++ two_digit_prefix (MedItem.minute m)
                ++ print_dec (MedItem.minute m))%string = hhmm).
  { subst hhmm. rewrite <- (manual_padding _ Hh), <- (manual_padding _ Hm).
    rewrite !string_app_assoc. reflexivity. }
  split; [|split].
  - unfold med_due_prompt, longBeep, beepMs.
    cbn [joined app]. rewrite Hj. reflexivity.
  - unfold next_med_prompt, lcdMenu.
    cbn [joined app]. rewrite Hj. reflexivity.
  - intros t Et Em. subst hhmm. unfold timeToStr. rewrite Et, Em.
    rewrite !string_app_assoc. reflexivity.
Qed.

Lemma scheduled_time_shown_as_hh_mm_witness :
  joined (med_due_prompt (med_at meds_init 0)) =
    [LcdClear; LcdSetCursor 0 0; LcdPrint "MED DUE:";
     LcdSetCursor 9 0; LcdPrint "08:00";
     LcdSetCursor 0 1; LcdPrint "BP Tablet"]
    ++ longBeep ++ [Delay 500].
Proof.
  apply (scheduled_time_shown_as_hh_mm (med_at meds_init 0)); simpl; lia.
Defined.

(** ** The startup screen *)

Lemma fmt_04d_length y :
  2000 <= y <= 2255 -> String.length (fmt_0d 4 y) = 4%nat.
Proof.
  intros Hy.
  assert (Hall : forallb (fun k => (String.length (fmt_0d 4 (Z.of_nat k)) =? 4)%nat)
                   (seq 2000 256) = true) by (vm_compute; reflexivity).
  rewrite forallb_forall in Hall.
  specialize (Hall (Z.to_nat y)). rewrite Z2Nat.id in Hall by lia.
  apply Nat.eqb_eq, Hall, in_seq. lia.
Qed.

(** X16. For every reading a running clock delivers and every day of the
    week, [lcdStartup] shows the date and the time in full: the first line
    is the three-letter day name, a blank and YYYY-MM-DD, 14 characters,
    the second line is the 8 characters of HH:MM:SS, and neither is cut by
    the 17-byte buffers of [snprintf]; the second line reads back as the
    hour, minute and second of the reading. *)
Theorem startup_screen_in_full (now : DateTime.t) (w : Z) :
  DateTime.valid now -> 0 <= w < 7 ->
  exists day,
    days !! Z.to_nat w = Some day /\
    String.length day = 3%nat /\
    let line1 := (day ++ " " ++ fmt_0d 4 (DateTime.year now) ++ "-"
                  ++ fmt_0d 2 (DateTime.month now) ++ "-"
                  ++ fmt_0d 2 (DateTime.day now))%string in
    lcdStartup now w =
      [LcdClear; LcdSetCursor 0 0; LcdPrint line1;
       LcdSetCursor 0 1; LcdPrint (timeToStr now); Delay 1800] ++ lcdMenu /\
    String.length line1 = 14%nat /\
    String.length (timeToStr now) = 8%nat /\
    parse_time (timeToStr now)
    = Some (DateTime.hour now, DateTime.minute now, DateTime.second now).
Proof.
  intros Hv Hw. pose proof Hv as (Hy & Hmo & Hd & Hh & Hmi & Hs).
  assert (Hday : exists day, days !! Z.to_nat w = Some day /\
                             String.length day = 3%nat).
  { assert (Hc : w = 0 \/ w = 1 \/ w = 2 \/ w = 3 \/ w = 4 \/ w = 5 \/ w = 6)
      by lia.
    destruct Hc as [->|[->|[->|[->|[->|[->| ->]]]]]];
      eexists; split; reflexivity. }
  destruct Hday as (day & Hday & Hlen). exists day.
  split; [exact Hday|]. split; [exact Hlen|]. intros line1.
  assert (H1 : String.length line1 = 14%nat).
  { subst line1. rewrite !length_append, Hlen, fmt_04d_length by lia.
    rewrite !fmt_02d_length by lia. reflexivity. }
  assert (H2 : String.length (timeToStr now) = 8%nat)
    by (apply timeToStr_length; exact Hv).
  split; [|split; [exact H1|split; [exact H2|]]].
  - unfold lcdStartup. rewrite Hday.
    change (default EmptyString (Some day)) with day.
    fold line1. unfold snprintf_s. change (17 - 1)%nat with 16%nat.
    assert (Hsub : forall s n, (String.length s <= n)%nat ->
                               substring 0 n s = s).
    { induction s as [|c s IH]; intros [|n] Hn; simpl in *;
        try reflexivity; try lia.
      rewrite IH by lia. reflexivity. }
    rewrite (Hsub line1 16%nat), (Hsub (timeToStr now) 16%nat) by lia.
    reflexivity.
  - destruct (fmt_02d_cases (DateTime.hour now) ltac:(lia))
      as [(_ & a1 & b1 & E1 & P1)|[? _]]; [|lia].
    destruct (fmt_02d_cases (DateTime.minute now) ltac:(lia))
      as [(_ & a2 & b2 & E2 & P2)|[? _]]; [|lia].
    destruct (fmt_02d_cases (DateTime.second now) ltac:(lia))
      as [(_ & a3 & b3 & E3 & P3)|[? _]]; [|lia].
    unfold timeToStr. rewrite E1, E2, E3.
    cbn [append parse_time]. change (Ascii.eqb ":" ":") with true.
    cbn [andb]. rewrite P1, P2, P3. reflexivity.
Qed.

Lemma startup_screen_in_full_witness :
  exists day,
    days !! Z.to_nat 5 = Some day /\
    String.length day = 3%nat /\
    let line1 := (day ++ " " ++ fmt_0d 4 (DateTime.year (morning 5)) ++ "-"
                  ++ fmt_0d 2 (DateTime.month (morning 5)) ++ "-"
                  ++ fmt_0d 2 (DateTime.day (morning 5)))%string in
    lcdStartup (morning 5) 5 =
      [LcdClear; LcdSetCursor 0 0; LcdPrint line1;
       LcdSetCursor 0 1; LcdPrint (timeToStr (morning 5)); Delay 1800]
      ++ lcdMenu /\
    String.length line1 = 14%nat /\
    String.length (timeToStr (morning 5)) = 8%nat /\
    parse_time (timeToStr (morning 5))
    = Some (DateTime.hour (morning 5), DateTime.minute (morning 5),
            DateTime.second (morning 5)).
Proof.
  apply (startup_screen_in_full (morning 5) 5).
  - unfold DateTime.valid. simpl. lia.
  - lia.
Defined.

(** ** Medication due-check: the stamp is not the date *)

(** C1. The due check compares [lastAckYMD] with the 16-bit date code of
    [ymdNow], not with the date YYYYMMDD the comment on the field names.
    On 2025-06-24 the code is 0 (20250624 = 309 * 65536), the value the
    field has when the entry was never acknowledged.  In the state [setup]
    leaves, a scheduler cycle at 08:00:05 of that day finds entry 0 not
    pending, at its scheduled hour and minute, with a stamp that is not
    that day's YYYYMMDD, and does not mark it: the table is unchanged and
    the cycle shows the hydration nudge only.  The same cycle one day
    earlier marks the entry and shows its MED DUE prompt.  Likewise
    2025-01-29 and 2038-12-01 share the code -495: an entry acknowledged on
    the first day is not marked at 08:00 of the second. *)
Theorem due_check_misses_day_with_code_zero :
  reachable booted /\
  (exists m, meds booted !! 0%nat = Some m /\
     MedItem.pending m = false /\
     DateTime.hour june_24 = MedItem.hour m /\
     DateTime.minute june_24 = MedItem.minute m /\
     MedItem.lastAckYMD m = 0 /\
     MedItem.lastAckYMD m <> yyyymmdd june_24) /\
  yyyymmdd june_24 = 20250624 /\
  ymdNow june_24 = 0 /\
  meds (fst (checkMedicinesAuto june_24 booted)) = meds booted /\
  snd (checkMedicinesAuto june_24 booted) = hydration_nudge /\
  (exists m', meds (fst (checkMedicinesAuto june_23 booted)) !! 0%nat = Some m'
              /\ MedItem.pending m' = true) /\
  snd (checkMedicinesAuto june_23 booted)
  = hydration_nudge ++ med_due_prompt (MedItem.mk "BP Tablet" 8 0 true 0) /\
  (exists m, meds acked_jan_29 !! 0%nat = Some m /\
     MedItem.pending m = false /\
     MedItem.lastAckYMD m = -495 /\
     yyyymmdd jan_29_2025 = 20250129 /\
     yyyymmdd dec_1_2038 = 20381201 /\
     ymdNow dec_1_2038 = -495 /\
     meds (fst (checkMedicinesAuto dec_1_2038 acked_jan_29))
     = meds acked_jan_29).
Proof.
  split; [reach_booted|].
  split.
  { eexists. split; [reflexivity|]. repeat split. discriminate. }
  split; [reflexivity|]. split; [vm_compute; reflexivity|].
  split; [vm_compute; reflexivity|]. split; [vm_compute; reflexivity|].
  split.
  { eexists. split; [vm_compute; reflexivity|]. reflexivity. }
  split; [vm_compute; reflexivity|].
  eexists. split; [vm_compute; reflexivity|].
  repeat split; vm_compute; reflexivity.
Qed.

(** ** Acknowledgment handler *)









(** ** Startup *)

Lemma setup_events se :
  snd (setup se init_state)
  = startup_events (se_a0 se) (rtc_report se)
      (snprintf_s 17
         (default EmptyString (days !! Z.to_nat (se_dow se)) ++ " "
          ++ fmt_0d 4 (DateTime.year (se_now se)) ++ "-"
          ++ fmt_0d 2 (DateTime.month (se_now se)) ++ "-"
          ++ fmt_0d 2 (DateTime.day (se_now se))))
      (snprintf_s 17 (timeToStr (se_now se))).
Proof. reflexivity. Qed.

Lemma rtc_report_cases se :
  (se_begin se = false /\ rtc_report se = rtc_missing_screen) \/
  (se_begin se = true /\ se_lostPower se = true /\
   rtc_report se = rtc_lost_power_screen) \/
  (se_begin se = true /\ se_lostPower se = false /\ rtc_report se = []).
Proof.
  unfold rtc_report. destruct (se_begin se); cbn [negb].
  - destruct (se_lostPower se); [right; left|right; right]; auto.
  - left. auto.
Qed.

Lemma startup_events_delay seed report line1 line2 :
  total_delay (startup_events seed report line1 line2)
  = 1850 + total_delay report.
Proof.
  unfold startup_events. rewrite !total_delay_app.
  cbn [total_delay]. change (total_delay menu_screen) with 0. lia.
Qed.

Lemma startup_events_no_adjust seed report line1 line2 :
  forallb (fun o => negb (adjusts_clock o)) report = true ->
  forallb (fun o => negb (adjusts_clock o))
    (startup_events seed report line1 line2) = true.
Proof.
  intros H. unfold startup_events. rewrite !forallb_app, H. reflexivity.
Qed.

Lemma snprintf_time_17 t :
  DateTime.valid t -> snprintf_s 17 (timeToStr t) = timeToStr t.
Proof.
  intros Hv. pose proof (timeToStr_length t Hv) as Hl.
  unfold snprintf_s. change (17 - 1)%nat with 16%nat.
  destruct (timeToStr t) as [|c1 [|c2 [|c3 [|c4 [|c5 [|c6 [|c7 [|c8 [|c9 r]]]]]]]]];
    try discriminate Hl. reflexivity.
Qed.

(** C8. [setup] consults the clock once, with two failure outcomes, and
    neither stops it.  Its events are always the whole startup sequence:
    pins, display, buses, reader, serial line and seed; then "RTC not
    found / Check wiring" for 2500 ms if [rtc.begin()] fails (power loss is
    then not asked), "RTC lost power / Set time" for 1800 ms if it succeeds
    and [rtc.lostPower()] holds, and nothing otherwise; then the startup
    screen with two lines of at most 16 characters and the menu.  No event
    adjusts the clock, the time spent in [delay] is 1850 ms plus that of
    the message (at most 4350 ms), and the only variable written is the idle
    timer.  The main loop then runs from that state: the events of the
    firmware are those of [setup] followed by those of the iterations, and
    what the iterations do and the state they reach is the same after a
    failed start as after a clean one with the same [millis()] reading. *)
Theorem startup_never_halts (se : SetupEnv) (envs : list LoopEnv) :
  0 <= se_dow se < 7 ->
  let r := setup se init_state in
  exists report line1 line2,
    snd r = startup_events (se_a0 se) report line1 line2 /\
    (se_begin se = false -> report = rtc_missing_screen) /\
    (se_begin se = true -> se_lostPower se = true ->
     report = rtc_lost_power_screen) /\
    (se_begin se = true -> se_lostPower se = false -> report = []) /\
    (String.length line1 <= 16)%nat /\ (String.length line2 <= 16)%nat /\
    (DateTime.valid (se_now se) ->
     line2 = timeToStr (se_now se) /\ String.length line2 = 8%nat) /\
    forallb (fun o => negb (adjusts_clock o)) (snd r) = true /\
    total_delay (snd r) = 1850 + total_delay report /\
    total_delay (snd r) <= 4350 /\
    fst r = set_lastActivity (se_millis se) init_state /\
    firmware se envs =
      match run_loops envs (set_lastActivity (se_millis se) init_state) with
      | Some (s, o) => Some (s, snd r ++ o)
      | None => None
      end /\
    (forall se', se_millis se' = se_millis se ->
       match firmware se envs, firmware se' envs with
       | Some (s, out), Some (s', out') =>
           s = s' /\
           exists o, out = snd r ++ o /\
                     out' = snd (setup se' init_state) ++ o
       | None, None => True
       | _, _ => False
       end).
Proof.
  intros Hdow r. subst r.
  assert (Hrun : forall e,
            firmware e envs =
            match run_loops envs (set_lastActivity (se_millis e) init_state) with
            | Some (s, o) => Some (s, snd (setup e init_state) ++ o)
            | None => None
            end).
  { intros e. unfold firmware, setup. cbn [and_then snd].
    destruct (run_loops envs _) as [[s o]|]; reflexivity. }
  eexists. eexists. eexists.
  split; [apply setup_events|].
  assert (Hrep : total_delay (rtc_report se) <= 2500 /\
                 forallb (fun o => negb (adjusts_clock o)) (rtc_report se)
                 = true).
  { destruct (rtc_report_cases se)
      as [(_ & ->)|[(_ & _ & ->)|(_ & _ & ->)]];
      (split; [cbn; lia|reflexivity]). }
  destruct Hrep as [Hrd Hra].
  split.
  { intros Hb. destruct (rtc_report_cases se)
      as [(_ & H)|[(Hb' & _)|(Hb' & _)]]; [exact H|congruence|congruence]. }
  split.
  { intros Hb Hl. destruct (rtc_report_cases se)
      as [(Hb' & _)|[(_ & _ & H)|(_ & Hl' & _)]];
      [congruence|exact H|congruence]. }
  split.
  { intros Hb Hl. destruct (rtc_report_cases se)
      as [(Hb' & _)|[(_ & Hl' & _)|(_ & _ & H)]];
      [congruence|congruence|exact H]. }
  split; [apply substring_length_le|]. split; [apply substring_length_le|].
  split.
  { intros Hv. split; [apply snprintf_time_17; exact Hv|].
    rewrite snprintf_time_17 by exact Hv. apply timeToStr_length. exact Hv. }
  split; [rewrite setup_events; apply startup_events_no_adjust; exact Hra|].
  split; [rewrite setup_events; apply startup_events_delay|].
  split; [rewrite setup_events, startup_events_delay; lia|].
  split; [reflexivity|]. split; [apply Hrun|].
  intros se' Hms. rewrite (Hrun se), (Hrun se'), Hms.
  destruct (run_loops envs _) as [[s o]|]; [|exact I].
  split; [reflexivity|]. exists o. split; reflexivity.
Qed.

Lemma startup_never_halts_witness :
  let garbage := DateTime.mk 2165 165 165 165 165 85 in
  exists s out,
    firmware rtc_absent [med_press garbage] = Some (s, out) /\
    joined out
    = startup_events 512 rtc_missing_screen "Sat 2165-165-165" "165:165:85"
      ++ beep 100 ++ next_med_screen "BP Tablet @08:00" ++ [Delay 20] /\
    lastActivity s = 9000.
Proof.
  intros garbage.
  destruct (startup_never_halts rtc_absent [med_press garbage])
    as (report & l1 & l2 & _ & _ & _ & _ & _ & _ & _ & _ & _ & _ & _ & Hfw & _).
  - simpl. lia.
  - eexists. eexists. split; [rewrite Hfw; vm_compute; reflexivity|].
    split; vm_compute; reflexivity.
Defined.
